(** * Shadow analysis service: the request pipeline of [analysis.py]

    A shallow embedding of the Flask handler [calculate_shadow] and of the
    functions it calls, with the external collaborators (solar-position
    calculator, shadow-casting algorithm, pickle, gzip, MongoDB driver,
    matplotlib) taken as parameters of the development.

    Samples of a numpy array are IEEE binary64 numbers, modelled by Rocq's
    primitive floats; a Python dictionary is a finite map with string keys;
    an exception is a value of type [exn] and a call that can raise returns
    an [outcome]. *)

From Stdlib Require Import ZArith NArith List Ascii String Floats Lia Bool.
From Stdlib.Strings Require Import Byte.
From stdpp Require Import base option gmap strings.
Import ListNotations.

Open Scope string_scope.
Open Scope nat_scope.

(** ** Exceptions and outcomes *)

(** A raised Python exception: its class name and what [str(e)] gives.  Only
    instances of [Exception] are modelled: they are what the collaborators
    raise and what [except Exception] at line 112 catches. *)
Record exn := Exception { exn_class : string; exn_str : string }.

Definition KeyError (key : string) : exn :=
  Exception "KeyError" ("'" ++ key ++ "'").
Definition IndexError (msg : string) : exn := Exception "IndexError" msg.
Definition ValueError (msg : string) : exn := Exception "ValueError" msg.

Inductive outcome (A : Type) : Type :=
| Return (a : A)
| Raise (e : exn).
Arguments Return {A} a.
Arguments Raise {A} e.

Definition outcome_bind {A B} (o : outcome A) (k : A -> outcome B) : outcome B :=
  match o with
  | Return a => k a
  | Raise e => Raise e
  end.

Definition outcome_map {A B} (f : A -> B) (o : outcome A) : outcome B :=
  outcome_bind o (fun a => Return (f a)).

Definition succeeded {A} (o : outcome A) : bool :=
  match o with Return _ => true | Raise _ => false end.

(** ** Time stamps *)

(** The fields of a [datetime.datetime] (naive, as [datetime.now()] gives). *)
Record datetime := Datetime {
  year : nat; month : nat; day : nat;
  hour : nat; minute : nat; second : nat; microsecond : nat }.

(** The class invariant of [datetime]: [MAXYEAR] is 9999. *)
Definition valid_datetime (t : datetime) : Prop :=
  1 <= year t < 100 * 100 /\ 1 <= month t <= 12 /\ 1 <= day t <= 31 /\
  hour t < 24 /\ minute t < 60 /\ second t < 60 /\
  microsecond t < 1000 * 1000.

(** Decimal digits of a number, most significant first. *)
Fixpoint decimal_fuel (fuel n : nat) (acc : list ascii) : list ascii :=
  match fuel with
  | O => acc
  | S fuel' =>
      let acc' := ascii_of_nat (48 + n mod 10) :: acc in
      if n / 10 =? 0 then acc' else decimal_fuel fuel' (n / 10) acc'
  end.

Definition decimal (n : nat) : list ascii := decimal_fuel (S n) n [].

(** [str.zfill]: pad with zeros on the left up to [width]. *)
Definition zfill (width : nat) (s : list ascii) : list ascii :=
  repeat "0"%char (width - length s) ++ s.

(** [timestamp.strftime('%Y-%m-%d %H:%M:%S')].  CPython hands the format to
    the C library.  [%Y] is the year in decimal, which glibc (the library
    of the [linux/amd64] image that [deploy.py] builds) does not pad: the
    year 999 is written [999], on three characters.  From the year 1000 on
    the year has its four digits, also with the C libraries that pad.  The
    other fields are written on two digits. *)
Definition strftime (t : datetime) : string :=
  string_of_list_ascii
    (decimal (year t) ++ ["-"%char] ++
     zfill 2 (decimal (month t)) ++ ["-"%char] ++
     zfill 2 (decimal (day t)) ++ [" "%char] ++
     zfill 2 (decimal (hour t)) ++ [":"%char] ++
     zfill 2 (decimal (minute t)) ++ [":"%char] ++
     zfill 2 (decimal (second t))).

Definition is_digit (c : ascii) : bool :=
  (48 <=? nat_of_ascii c) && (nat_of_ascii c <=? 57).

(** The shape [YYYY-MM-DD HH:MM:SS]. *)
Definition is_timestamp_format (s : string) : bool :=
  match list_ascii_of_string s with
  | [y1; y2; y3; y4; d1; m1; m2; d2; a1; a2; sp; h1; h2; c1; n1; n2; c2; s1; s2] =>
      forallb is_digit [y1; y2; y3; y4; m1; m2; a1; a2; h1; h2; n1; n2; s1; s2]
      && Ascii.eqb d1 "-" && Ascii.eqb d2 "-" && Ascii.eqb sp " "
      && Ascii.eqb c1 ":" && Ascii.eqb c2 ":"
  | _ => false
  end.

(** The number that a run of decimal digits writes. *)
Definition read_decimal (cs : list ascii) : nat :=
  fold_left (fun n c => 10 * n + (nat_of_ascii c - 48)) cs 0.

(** The year, month, day, hour, minute and second that a text of the shape
    [YYYY-MM-DD HH:MM:SS] writes. *)
Definition timestamp_fields (s : string)
  : option (nat * nat * nat * nat * nat * nat) :=
  if is_timestamp_format s then
    match list_ascii_of_string s with
    | [y1; y2; y3; y4; _; m1; m2; _; a1; a2; _; h1; h2; _; n1; n2; _; s1; s2] =>
        Some (read_decimal [y1; y2; y3; y4], read_decimal [m1; m2],
              read_decimal [a1; a2], read_decimal [h1; h2],
              read_decimal [n1; n2], read_decimal [s1; s2])
    | _ => None
    end
  else None.

(** ** numpy arrays of binary64 samples *)

(** A two-dimensional [ndarray]: its [shape] and its samples in row order. *)
Record ndarray := Ndarray {
  shape0 : nat;
  shape1 : nat;
  flat : list float }.

Definition shape (a : ndarray) : nat * nat := (shape0 a, shape1 a).

Definition np_map (f : float -> float) (a : ndarray) : ndarray :=
  Ndarray (shape0 a) (shape1 a) (map f (flat a)).

(** [np.zeros((r, c))] *)
Definition np_zeros (r c : nat) : ndarray :=
  Ndarray r c (repeat 0%float (r * c)).

(** [np.pi] *)
Definition np_pi : float := 0x1.921fb54442d18p+1%float.

(** The largest finite binary64 number, [np.finfo(float).max]. *)
Definition float_max : float := 0x1.fffffffffffffp+1023%float.

(** [np.nan_to_num(x, nan=0)] on one sample: NaN becomes [nan], and, with the
    defaults of [posinf] and [neginf], the infinities become the largest
    and the smallest finite numbers. *)
Definition nan_to_num1 (nan : float) (x : float) : float :=
  if is_nan x then nan
  else if (x =? infinity)%float then float_max
  else if (x =? neg_infinity)%float then (- float_max)%float
  else x.

Definition np_nan_to_num (a : ndarray) (nan : float) : ndarray :=
  np_map (nan_to_num1 nan) a.

(** Broadcast of a scalar over an array: [a * k], [a / k], [a - k]. *)
Definition np_mul_scalar (a : ndarray) (k : float) : ndarray :=
  np_map (fun x => (x * k)%float) a.
Definition np_div_scalar (a : ndarray) (k : float) : ndarray :=
  np_map (fun x => (x / k)%float) a.
Definition np_sub_scalar (a : ndarray) (k : float) : ndarray :=
  np_map (fun x => (x - k)%float) a.

(** numpy's reductions propagate NaN: the loop keeps the accumulator when it
    is NaN or wins the comparison and takes the next sample otherwise. *)
Definition np_minimum (a b : float) : float :=
  if is_nan a then a else if (a <? b)%float then a else b.
Definition np_maximum (a b : float) : float :=
  if is_nan a then a else if (b <? a)%float then a else b.

Definition zero_size (name : string) : exn :=
  ValueError ("zero-size array to reduction operation " ++ name ++
              " which has no identity").

(** [np.min(a)] and [np.max(a)]: an empty array has no minimum. *)
Definition np_min (a : ndarray) : outcome float :=
  match flat a with
  | [] => Raise (zero_size "minimum")
  | x :: xs => Return (fold_left np_minimum xs x)
  end.
Definition np_max (a : ndarray) : outcome float :=
  match flat a with
  | [] => Raise (zero_size "maximum")
  | x :: xs => Return (fold_left np_maximum xs x)
  end.

(** [np.linspace(0, n - 1, n)]: the sample points 0, 1, ..., n-1. *)
Definition np_linspace0 (n : nat) : list float :=
  map (fun i => of_uint63 (Uint63.of_Z (Z.of_nat i))) (seq 0 n).

(** [np.meshgrid(x, y)]: [X] repeats [x] on every row, [Y] repeats the
    entries of [y] along their row. *)
Definition np_meshgrid (x y : list float) : ndarray * ndarray :=
  (Ndarray (length y) (length x) (concat (map (fun _ => x) y)),
   Ndarray (length y) (length x)
           (concat (map (fun yi => repeat yi (length x)) y))).

(** ** Bytes and base64 *)

Definition bytes := list byte.

Definition b64_alphabet : list ascii :=
  list_ascii_of_string
    "ABCDEFGHIJKLMNOPQRSTUVWXYZabcdefghijklmnopqrstuvwxyz0123456789+/".

Definition b64_char (i : N) : ascii := nth (N.to_nat i) b64_alphabet "="%char.

(** The four characters of a group of three bytes. *)
Definition b64_group (a b c : N) : list ascii :=
  [b64_char (a / 4); b64_char ((a mod 4) * 16 + b / 16);
   b64_char ((b mod 16) * 4 + c / 64); b64_char (c mod 64)]%N.

(** [base64.b64encode]: three bytes give four characters; a last group of
    one or two bytes is padded with [=]. *)
Fixpoint b64encode_chars (bs : bytes) : list ascii :=
  match bs with
  | [] => []
  | [a] => firstn 2 (b64_group (Byte.to_N a) 0 0) ++ ["="; "="]%char
  | [a; b] => firstn 3 (b64_group (Byte.to_N a) (Byte.to_N b) 0) ++ ["="%char]
  | a :: b :: c :: rest =>
      b64_group (Byte.to_N a) (Byte.to_N b) (Byte.to_N c) ++ b64encode_chars rest
  end.

(** [base64.b64encode(data).decode('utf-8')] *)
Definition b64encode (bs : bytes) : string :=
  string_of_list_ascii (b64encode_chars bs).

(** The inverse table, for reading a payload back. *)
Definition b64_index (c : ascii) : option N :=
  let n := N_of_ascii c in
  if (65 <=? n)%N && (n <=? 90)%N then Some (n - 65)%N
  else if (97 <=? n)%N && (n <=? 122)%N then Some (n - 71)%N
  else if (48 <=? n)%N && (n <=? 57)%N then Some (n + 4)%N
  else if (n =? 43)%N then Some 62%N
  else if (n =? 47)%N then Some 63%N
  else None.

(** [base64.b64decode] on the characters of a payload. *)
Fixpoint b64decode_chars (cs : list ascii) : option bytes :=
  match cs with
  | [] => Some []
  | [c0; c1; p2; p3] =>
      if Ascii.eqb p3 "=" then
        if Ascii.eqb p2 "=" then
          i0 ← b64_index c0; i1 ← b64_index c1;
          a ← Byte.of_N (i0 * 4 + i1 / 16)%N; Some [a]
        else
          i0 ← b64_index c0; i1 ← b64_index c1; i2 ← b64_index p2;
          a ← Byte.of_N (i0 * 4 + i1 / 16)%N;
          b ← Byte.of_N ((i1 mod 16) * 16 + i2 / 4)%N; Some [a; b]
      else
        i0 ← b64_index c0; i1 ← b64_index c1; i2 ← b64_index p2;
        i3 ← b64_index p3;
        a ← Byte.of_N (i0 * 4 + i1 / 16)%N;
        b ← Byte.of_N ((i1 mod 16) * 16 + i2 / 4)%N;
        c ← Byte.of_N ((i2 mod 4) * 64 + i3)%N; Some [a; b; c]
  | c0 :: c1 :: c2 :: c3 :: rest =>
      i0 ← b64_index c0; i1 ← b64_index c1; i2 ← b64_index c2;
      i3 ← b64_index c3;
      a ← Byte.of_N (i0 * 4 + i1 / 16)%N;
      b ← Byte.of_N ((i1 mod 16) * 16 + i2 / 4)%N;
      c ← Byte.of_N ((i2 mod 4) * 64 + i3)%N;
      tail ← b64decode_chars rest; Some (a :: b :: c :: tail)
  | _ => None
  end.

Definition b64decode (s : string) : option bytes :=
  b64decode_chars (list_ascii_of_string s).

(** ** Dictionaries, documents and responses *)

(** What [get_solarposition] returns: a data frame, looked up by column
    name; a column is the series of its values. *)
Abbreviation dataframe := (gmap string (list float)).

(** [df[key]]: a missing column is a [KeyError]. *)
Definition df_getitem (df : dataframe) (key : string) : outcome (list float) :=
  match df !! key with
  | Some col => Return col
  | None => Raise (KeyError key)
  end.

(** [series[0]]: an empty series has no first value. *)
Definition series_first (col : list float) : outcome float :=
  match col with
  | x :: _ => Return x
  | [] => Raise (IndexError "index 0 is out of bounds for axis 0 with size 0")
  end.

(** The values of the document that line 110 builds. *)
Inductive bson :=
| BsonDatetime (t : datetime)
| BsonBinary (b : bytes).

Abbreviation document := (gmap string bson).

(** A Flask response: status, headers and the JSON object of its body. *)
Record response := Response {
  status : nat;
  headers : gmap string string;
  json : gmap string string }.

(** [flask.jsonify(d)]: a 200 response of mimetype [application/json]. *)
Definition jsonify (d : gmap string string) : response :=
  Response 200 {[ "Content-Type" := "application/json" ]} d.

(** [response.headers[k] = v] *)
Definition set_header (k v : string) (r : response) : response :=
  Response (status r) (<[ k := v ]> (headers r)) (json r).

(** An RGBA colour of a colormap and the [(R, C, 3)] array of face colours. *)
Definition rgba : Type := float * float * float * float.
Definition rgb : Type := float * float * float.
Record facecolors := Facecolors {
  img_shape0 : nat;
  img_shape1 : nat;
  pixels : list rgb }.

(** ** The process: globals, store, log and the calls made so far *)

Inductive level := INFO | ERROR.

(** The calls that leave the module, in the order they are made. *)
Inductive call :=
| CallNow
| CallSolarposition (timestamp : datetime) (lat lon : float)
| CallShadowing (a : ndarray) (azimuth altitude : float) (scale : Z)
                (walls dirwalls : ndarray)
| CallPickleDumps (data : ndarray)
| CallGzipCompress (data : bytes)
| CallInsertOne (collection : string) (data : document)
| CallHeatmap (matrix : ndarray)
| CallPlotSurface (X Y Z : ndarray) (img : facecolors).

(** The module globals set by the [__main__] block ([dsm], [latitude],
    [longitude]), the collection [db['shadow_matrices']], the records handed
    to [logging], the number of clock readings and the trace of calls. *)
Record process := Process {
  dsm : ndarray;
  latitude : float;
  longitude : float;
  ticks : nat;
  shadow_matrices : list document;
  logged : list (level * string);
  calls : list call }.

Definition record_call (c : call) (s : process) : process :=
  Process (dsm s) (latitude s) (longitude s) (ticks s) (shadow_matrices s)
          (logged s) (calls s ++ [c]).

Definition record_log (l : level) (msg : string) (s : process) : process :=
  Process (dsm s) (latitude s) (longitude s) (ticks s) (shadow_matrices s)
          (logged s ++ [(l, msg)]) (calls s).

Definition store_document (d : document) (s : process) : process :=
  Process (dsm s) (latitude s) (longitude s) (ticks s)
          (shadow_matrices s ++ [d]) (logged s) (calls s).

Definition tick (s : process) : process :=
  Process (dsm s) (latitude s) (longitude s) (S (ticks s)) (shadow_matrices s)
          (logged s) (calls s).

(** A computation of the interpreter: it may raise, and what it did to the
    process before raising stays done. *)
Definition py (A : Type) : Type := process -> outcome A * process.

Definition py_ret {A} (a : A) : py A := fun s => (Return a, s).

Definition py_bind {A B} (m : py A) (k : A -> py B) : py B :=
  fun s =>
    match m s with
    | (Return a, s') => k a s'
    | (Raise e, s') => (Raise e, s')
    end.

Definition py_raise {A} (e : exn) : py A := fun s => (Raise e, s).

(** [try: body  except Exception as e: handler(e)] *)
Definition try_except {A} (body : py A) (handler : exn -> py A) : py A :=
  fun s =>
    match body s with
    | (Return a, s') => (Return a, s')
    | (Raise e, s') => handler e s'
    end.

(** The result of a call that touches no state. *)
Definition py_lift {A} (o : outcome A) : py A := fun s => (o, s).

Definition py_get {A} (f : process -> A) : py A := fun s => (Return (f s), s).

#[global] Instance py_mret : MRet py := @py_ret.
#[global] Instance py_mbind : MBind py := fun A B k m => py_bind m k.

(** [logging.info(msg)] and [logging.error(msg)] *)
Definition logging_info (msg : string) : py unit :=
  fun s => (Return tt, record_log INFO msg s).
Definition logging_error (msg : string) : py unit :=
  fun s => (Return tt, record_log ERROR msg s).

(** ** The collaborators *)

(** What the module imports and calls.  The clock gives the reading of the
    n-th call of [datetime.now()]; [mongo_insert] decides from the present
    contents of the collection whether an insertion is accepted;
    [savefig_heatmap] and [savefig_surface] give the PNG bytes that
    [plt.savefig] leaves in the buffer, or the exception of the plotting
    calls before it. *)
Record collaborators := Collaborators {
  clock : nat -> datetime;
  get_solarposition : datetime -> float -> float -> outcome dataframe;
  shadowingfunction_wallheight_13 :
    ndarray -> float -> float -> Z -> ndarray -> ndarray -> outcome (list ndarray);
  pickle_dumps : ndarray -> outcome bytes;
  gzip_compress : bytes -> outcome bytes;
  mongo_insert : list document -> document -> outcome unit;
  savefig_heatmap : ndarray -> outcome bytes;
  cm_viridis : float -> rgba;
  savefig_surface : ndarray -> ndarray -> ndarray -> facecolors -> outcome bytes }.

(** ** The module [analysis.py] *)

Section Analysis.

Variable E : collaborators.

(** [datetime.now()] *)
Definition datetime_now : py datetime :=
  fun s => (Return (clock E (ticks s)), record_call CallNow (tick s)).

(** A call of a collaborator: it is recorded, and its outcome is returned. *)
Definition external {A} (c : call) (o : outcome A) : py A :=
  fun s => (o, record_call c s).

(** The unpacking of line 40 needs exactly five values. *)
Definition unpack5 (outs : list ndarray) : outcome ndarray :=
  match outs with
  | [shadow_matrix; _; _; _; _] => Return shadow_matrix
  | _ =>
      Raise (ValueError
        (if length outs <? 5
         then "not enough values to unpack (expected 5, got " ++
              string_of_list_ascii (decimal (length outs)) ++ ")"
         else "too many values to unpack (expected 5)"))
  end.

(** Lines 27-43. *)
Definition calculate_shadow_matrix (timestamp : datetime) : py ndarray :=
  lat ← py_get latitude;
  lon ← py_get longitude;
  df_solar ← external (CallSolarposition timestamp lat lon)
                      (get_solarposition E timestamp lat lon);
  elevation ← py_lift (df_getitem df_solar "elevation");
  altitude ← py_lift (series_first elevation);
  azimuths ← py_lift (df_getitem df_solar "azimuth");
  azimuth ← py_lift (series_first azimuths);
  let scale := 1%Z in
  dsm ← py_get dsm;
  let walls := np_zeros (shape0 dsm) (shape1 dsm) in
  let dirwalls := np_zeros (shape0 dsm) (shape1 dsm) in
  let dirwalls_rad := np_div_scalar (np_mul_scalar dirwalls np_pi) 180%float in
  outs ← external (CallShadowing dsm azimuth altitude scale walls dirwalls_rad)
                  (shadowingfunction_wallheight_13 E dsm azimuth altitude scale
                                                   walls dirwalls_rad);
  py_lift (unpack5 outs).

(** [collection.insert_one(data)]: an accepted document is appended. *)
Definition insert_one (collection : string) (data : document) : py unit :=
  fun s =>
    match mongo_insert E (shadow_matrices s) data with
    | Return _ =>
        (Return tt, record_call (CallInsertOne collection data)
                                (store_document data s))
    | Raise e => (Raise e, record_call (CallInsertOne collection data) s)
    end.

(** Lines 46-50. *)
Definition save_shadow_matrix (data : document) : py unit :=
  logging_info "Saving shadow matrix to database.";;
  let collection := "shadow_matrices" in
  insert_one collection data.

(** Lines 53-65. *)
Definition generate_heatmap (matrix : ndarray) : py string :=
  buf ← external (CallHeatmap matrix) (savefig_heatmap E matrix);
  let base64_encoded_image := b64encode buf in
  mret base64_encoded_image.

(** Line 75: the terrain, shifted and scaled by its extreme values.  The
    minimum is computed for the numerator and again for the denominator. *)
Definition normalize (dsm : ndarray) : outcome ndarray :=
  outcome_bind (np_min dsm) (fun lo =>
  outcome_bind (np_max dsm) (fun hi =>
  outcome_bind (np_min dsm) (fun lo' =>
  Return (np_div_scalar (np_sub_scalar dsm lo) (hi - lo')%float)))).

(** Line 76: the colormap on every sample, without the alpha channel. *)
Definition viridis_rgb (a : ndarray) : facecolors :=
  Facecolors (shape0 a) (shape1 a)
             (map (fun v => let '(r, g, b, _) := cm_viridis E v in (r, g, b))
                  (flat a)).

(** Lines 68-96. *)
Definition generate_surface_plot (shadow_matrix : ndarray) : py string :=
  let x := np_linspace0 (shape1 shadow_matrix) in
  let y := np_linspace0 (shape0 shadow_matrix) in
  let '(X, Y) := np_meshgrid x y in
  dsm ← py_get dsm;
  dsm_normalized ← py_lift (normalize dsm);
  let img := viridis_rgb dsm_normalized in
  buf ← external (CallPlotSurface X Y shadow_matrix img)
                 (savefig_surface E X Y shadow_matrix img);
  let base64_encoded_image := b64encode buf in
  mret base64_encoded_image.

(** Lines 99-101. *)
Definition compress_data (data : ndarray) : py bytes :=
  pickled ← external (CallPickleDumps data) (pickle_dumps E data);
  compressed_data ← external (CallGzipCompress pickled) (gzip_compress E pickled);
  mret compressed_data.

Definition failed_to_save (e : exn) : string :=
  "Failed to save shadow matrix to database. Error: " ++ exn_str e.

(** Line 110 and 111: the body of the [try] statement. *)
Definition archive_body (timestamp : datetime) (shadow_matrix : ndarray)
  : py unit :=
  payload ← compress_data shadow_matrix;
  save_shadow_matrix
    (<[ "timestamp" := BsonDatetime timestamp ]>
       (<[ "shadow_matrix" := BsonBinary payload ]> ∅));;
  logging_info "Shadow matrix saved successfully.".

(** Lines 109-113: the archival; an exception of the body is logged and the
    handler goes on. *)
Definition archive (timestamp : datetime) (shadow_matrix : ndarray) : py unit :=
  try_except (archive_body timestamp shadow_matrix)
             (fun e => logging_error (failed_to_save e)).

(** Lines 104-126: the handler of [GET /calculate-shadow]. *)
Definition calculate_shadow : py response :=
  timestamp ← datetime_now;
  shadow_matrix ← calculate_shadow_matrix timestamp;
  archive timestamp shadow_matrix;;
  heatmap ← generate_heatmap shadow_matrix;
  surface_plot ← generate_surface_plot shadow_matrix;
  let formatted_time := strftime timestamp in
  let response :=
    jsonify (<[ "timestamp" := formatted_time ]>
               (<[ "heatmap" := heatmap ]>
                  (<[ "surface_plot" := surface_plot ]> ∅))) in
  let response := set_header "Content-Type" "application/json" response in
  mret response.

End Analysis.

(** Lines 129-154: the start of the process.  [client] is what the
    collection holds when the client is created, or the exception of
    [MongoClient]; [npy] is what [np.load] gives.  The globals are set and
    the server starts with no request served. *)
Definition main (client : outcome (list document)) (npy : outcome ndarray)
  : outcome process :=
  match client with
  | Raise e => Raise e
  | Return stored =>
      match npy with
      | Raise e => Raise e
      | Return loaded =>
          (* 29.73463 and -95.30052, rounded to binary64 *)
          let latitude := 0x1.dbc10b630a915p+4%float in
          let longitude := (- 0x1.7d33bb83cf2d0p+6)%float in
          let dsm := np_nan_to_num loaded 0%float in
          Return (Process dsm latitude longitude 0 stored [] [])
      end
  end.

(** [app.run]: the requests are served one after the other; an exception
    that leaves the handler ends that request only. *)
Fixpoint serve (E : collaborators) (n : nat) (s : process)
  : list (outcome response) * process :=
  match n with
  | O => ([], s)
  | S n' =>
      let '(r, s') := calculate_shadow E s in
      let '(rs, s'') := serve E n' s' in
      (r :: rs, s'')
  end.

(** The calls that belong to the archival. *)
Definition is_archival_call (c : call) : bool :=
  match c with
  | CallPickleDumps _ | CallGzipCompress _ | CallInsertOne _ _ => true
  | _ => false
  end.

(** The calls a request has made: what the trace holds beyond its length at
    the start of the request. *)
Definition calls_since (s s' : process) : list call :=
  drop (length (calls s)) (calls s').

(** Lines 33 and 34: the first elevation and the first azimuth of the frame. *)
Definition sun_geometry (df : dataframe) : outcome (float * float) :=
  outcome_bind (df_getitem df "elevation") (fun elevation =>
  outcome_bind (series_first elevation) (fun altitude =>
  outcome_bind (df_getitem df "azimuth") (fun azimuths =>
  outcome_bind (series_first azimuths) (fun azimuth =>
  Return (altitude, azimuth))))).

(** Lines 70-72: the grid of the surface plot. *)
Definition surface_grid (shadow_matrix : ndarray) : ndarray * ndarray :=
  np_meshgrid (np_linspace0 (shape1 shadow_matrix))
              (np_linspace0 (shape0 shadow_matrix)).

(** Lines 118-125: the response of a request that got that far. *)
Definition success_response (timestamp : datetime) (heatmap surface_plot : string)
  : response :=
  set_header "Content-Type" "application/json"
    (jsonify (<[ "timestamp" := strftime timestamp ]>
                (<[ "heatmap" := heatmap ]>
                   (<[ "surface_plot" := surface_plot ]> ∅)))).

(** Line 110: the document handed to the store. *)
Definition archived_document (timestamp : datetime) (payload : bytes) : document :=
  <[ "timestamp" := BsonDatetime timestamp ]>
    (<[ "shadow_matrix" := BsonBinary payload ]> ∅).

(** Lines 109-113 in closed form: the process as the archival leaves it,
    by the first of its three calls that raises, if any. *)
Definition after_archive (E : collaborators) (t : datetime) (m : ndarray)
    (s : process) : process :=
  let s1 := record_call (CallPickleDumps m) s in
  match pickle_dumps E m with
  | Raise e => record_log ERROR (failed_to_save e) s1
  | Return b =>
      let s2 := record_call (CallGzipCompress b) s1 in
      match gzip_compress E b with
      | Raise e => record_log ERROR (failed_to_save e) s2
      | Return z =>
          let doc := archived_document t z in
          let s3 := record_log INFO "Saving shadow matrix to database." s2 in
          let s4 := record_call (CallInsertOne "shadow_matrices" doc) in
          match mongo_insert E (shadow_matrices s) doc with
          | Raise e => record_log ERROR (failed_to_save e) (s4 s3)
          | Return _ =>
              record_log INFO "Shadow matrix saved successfully."
                         (s4 (store_document doc s3))
          end
      end
  end.


(** Two deployments that differ at most in the archival: serializer,
    compressor and store. *)
Definition same_outside_archival (E E' : collaborators) : Prop :=
  clock E = clock E' /\
  get_solarposition E = get_solarposition E' /\
  shadowingfunction_wallheight_13 E = shadowingfunction_wallheight_13 E' /\
  savefig_heatmap E = savefig_heatmap E' /\
  cm_viridis E = cm_viridis E' /\
  savefig_surface E = savefig_surface E'.

(** ** A small deployment

    Concrete collaborators on which the definitions above can be run: the
    sun stands at 45 degrees in the south, the algorithm reports no shadow
    on any cell, the store accepts every document, and the serializer and
    the compressor are toy codecs that can be undone. *)
Module Demo.

Definition solar_frame : dataframe :=
  <[ "elevation" := [45%float] ]> (<[ "azimuth" := [180%float] ]> ∅).

Definition shadowing (a : ndarray) (azimuth altitude : float) (scale : Z)
    (walls dirwalls : ndarray) : outcome (list ndarray) :=
  let sh := np_zeros (shape0 a) (shape1 a) in
  Return [sh; sh; sh; sh; sh].

Definition sample_code (x : float) : option byte :=
  if Leibniz.eqb x 0%float then Some x00
  else if Leibniz.eqb x 1%float then Some x01
  else None.

Definition sample_of_code (b : byte) : option float :=
  match b with
  | x00 => Some 0%float
  | x01 => Some 1%float
  | _ => None
  end.

Definition not_picklable : exn :=
  Exception "PicklingError" "the toy serializer knows the samples 0 and 1 only".

(** Two bytes for the shape, then one byte for each sample. *)
Definition dumps (m : ndarray) : outcome bytes :=
  match Byte.of_N (N.of_nat (shape0 m)), Byte.of_N (N.of_nat (shape1 m)),
        mapM sample_code (flat m) with
  | Some r, Some c, Some body => Return (r :: c :: body)
  | _, _, _ => Raise not_picklable
  end.

Definition loads (b : bytes) : outcome ndarray :=
  match b with
  | r :: c :: body =>
      match mapM sample_of_code body with
      | Some samples =>
          Return (Ndarray (N.to_nat (Byte.to_N r)) (N.to_nat (Byte.to_N c))
                          samples)
      | None => Raise (Exception "UnpicklingError" "invalid load key")
      end
  | _ => Raise (Exception "EOFError" "Ran out of input")
  end.

(** The two magic bytes of a gzip member, then the data as they are. *)
Definition compress (b : bytes) : outcome bytes := Return (x1f :: x8b :: b).

Definition decompress (z : bytes) : outcome bytes :=
  match z with
  | x1f :: x8b :: b => Return b
  | _ => Raise (Exception "BadGzipFile" "Not a gzipped file")
  end.

(** The eight bytes every PNG file starts with. *)
Definition png_signature : bytes := [x89; x50; x4e; x47; x0d; x0a; x1a; x0a].

Definition viridis (v : float) : rgba :=
  if is_nan v then (0, 0, 0, 0)%float else (0.25, 0, 0.5, 1)%float.

Definition noon (n : nat) : datetime := Datetime 2024 3 21 12 0 n 0.

Definition demo : collaborators :=
  {| clock := noon;
     get_solarposition := fun _ _ _ => Return solar_frame;
     shadowingfunction_wallheight_13 := shadowing;
     pickle_dumps := dumps;
     gzip_compress := compress;
     mongo_insert := fun _ _ => Return tt;
     savefig_heatmap := fun _ => Return (png_signature ++ [x00])%list;
     cm_viridis := viridis;
     savefig_surface := fun _ _ _ _ => Return (png_signature ++ [x01])%list |}.

Definition store_down : exn :=
  Exception "ServerSelectionTimeoutError" "localhost:27017: connection refused".

(** The same deployment with the store out of reach. *)
Definition outage : collaborators :=
  {| clock := noon;
     get_solarposition := fun _ _ _ => Return solar_frame;
     shadowingfunction_wallheight_13 := shadowing;
     pickle_dumps := dumps;
     gzip_compress := compress;
     mongo_insert := fun _ _ => Raise store_down;
     savefig_heatmap := fun _ => Return (png_signature ++ [x00])%list;
     cm_viridis := viridis;
     savefig_surface := fun _ _ _ _ => Return (png_signature ++ [x01])%list |}.




(** The flat terrain of three rows and three columns, as [np.load] gives
    it, and the process that [main] starts on it with an empty store. *)
Definition flat_terrain : ndarray := np_zeros 3 3.

Definition started : process :=
  Process (np_nan_to_num flat_terrain 0%float)
          0x1.dbc10b630a915p+4%float (- 0x1.7d33bb83cf2d0p+6)%float 0 [] [] [].

(** The process once the computation of the first request has returned. *)
Definition computed : process :=
  snd (calculate_shadow_matrix demo (noon 0) (record_call CallNow (tick started))).

(** The response that the first request is given. *)
Definition first_response : response :=
  success_response (noon 0) (b64encode (png_signature ++ [x00])%list)
                   (b64encode (png_signature ++ [x01])%list).

End Demo.

(** ** Auxiliary checks used in the statements below *)

(** [cs] is made of exactly [w] decimal digits. *)
Definition digits_of_width (w : nat) (cs : list ascii) : bool :=
  (length cs =? w) && forallb is_digit cs.

(** Every number below [bound] prints, filled to [w], as [w] digits that
    write this number. *)
Definition prints_on (w bound : nat) : bool :=
  forallb (fun n => digits_of_width w (zfill w (decimal n))
                    && (read_decimal (zfill w (decimal n)) =? n))
          (seq 0 bound).

(** The table and its inverse agree on the 64 indices. *)
Definition b64_table_inverts : bool :=
  forallb (fun i => match b64_index (b64_char (N.of_nat i)) with
                    | Some j => (j =? N.of_nat i)%N
                    | None => false
                    end
                    && negb (Ascii.eqb (b64_char (N.of_nat i)) "="))
          (seq 0 64).

(** ** The client of the store

    Lines 133-146 of the [__main__] block: the environment decides how the
    client of MongoDB is created. *)

(** The arguments of [MongoClient]: a host and a port as the environment
    gives them ([None] when unset), or a connection string. *)
Inductive mongo_client :=
| MongoHostPort (db_host db_port : option string)
| MongoUri (connection_str : string).

(** How an f-string writes a value of [os.environ.get]. *)
Definition format_optional (o : option string) : string :=
  match o with
  | Some v => v
  | None => "None"
  end.

(** Lines 137 and 138. *)
Definition use_srv_of (environ : gmap string string) : bool :=
  match environ !! "USE_SRV" with
  | Some v => String.eqb v "True"
  | None => false
  end.

(** Lines 133-145. *)
Definition mongo_client_of (environ : gmap string string) : mongo_client :=
  let db_username := environ !! "DB_USERNAME" in
  let db_password := environ !! "DB_PASSWORD" in
  let db_host := environ !! "DB_HOST" in
  let db_port := environ !! "DB_PORT" in
  let use_srv := use_srv_of environ in
  if negb use_srv then MongoHostPort db_host db_port
  else
    let connection_str :=
      "mongodb+srv://" ++ format_optional db_username ++ ":" ++
      format_optional db_password ++ "@" ++ format_optional db_host ++
      "/?retryWrites=true&w=majority" in
    MongoUri connection_str.

(** Two readings of the clock in the same second. *)
Definition same_second (t t' : datetime) : Prop :=
  year t = year t' /\ month t = month t' /\ day t = day t' /\
  hour t = hour t' /\ minute t = minute t' /\ second t = second t'.

(** ** Deployments that fail

    Variants of the small deployment in which a renderer raises, the
    algorithm returns too few outputs, or the terrain has no sample. *)
Module Faults.

Definition no_display : exn :=
  Exception "RuntimeError" "could not render the figure".

Definition blind : collaborators :=
  {| clock := Demo.noon;
     get_solarposition := fun _ _ _ => Return Demo.solar_frame;
     shadowingfunction_wallheight_13 := Demo.shadowing;
     pickle_dumps := Demo.dumps;
     gzip_compress := Demo.compress;
     mongo_insert := fun _ _ => Return tt;
     savefig_heatmap := fun _ => Raise no_display;
     cm_viridis := Demo.viridis;
     savefig_surface := fun _ _ _ _ => Return (Demo.png_signature ++ [x01])%list |}.

Definition three_outputs : collaborators :=
  {| clock := Demo.noon;
     get_solarposition := fun _ _ _ => Return Demo.solar_frame;
     shadowingfunction_wallheight_13 :=
       fun a _ _ _ _ _ => Return [a; a; a];
     pickle_dumps := Demo.dumps;
     gzip_compress := Demo.compress;
     mongo_insert := fun _ _ => Return tt;
     savefig_heatmap := fun _ => Return (Demo.png_signature ++ [x00])%list;
     cm_viridis := Demo.viridis;
     savefig_surface := fun _ _ _ _ => Return (Demo.png_signature ++ [x01])%list |}.

(** A terrain of no row, and the process started on it. *)
Definition no_terrain : process :=
  Process (np_nan_to_num (np_zeros 0 3) 0%float)
          0x1.dbc10b630a915p+4%float (- 0x1.7d33bb83cf2d0p+6)%float 0 [] [] [].

(** The small deployment after a day of service: documents in the store,
    records in the log, calls in the trace. *)
Definition busy : process :=
  Process (dsm Demo.started) (latitude Demo.started) (longitude Demo.started) 0
          [archived_document (Demo.noon 59) [x00]]
          [(ERROR, "Failed to save shadow matrix to database. Error: timeout")]
          [CallNow].

End Faults.

(** * The deployment script [deploy.py]

    The script drives AWS through boto3, Docker through [subprocess] and
    the instance through paramiko.  These are collaborators, as before: a
    call is recorded in the trace of the run and its outcome is what the
    collaborator answers. *)
Module Deploy.

(** Lines 10-17. *)
Definition REGION : string := "us-east-2".
Definition EC2_INSTANCE_NAME : string := "shadow-analysis-ec2".
Definition API_GATEWAY_NAME : string := "shadow-analysis-api-gateway".
Definition SECURITY_GROUP_NAME : string := "shadow-analysis-security-group".
Definition DOCKER_IMAGE_NAME : string := "shadow-analysis".
Definition DOCKER_IMAGE_TAG : string := "latest".
Definition RESOURCE_PATH : string := "shadow-analysis".
Definition HTTP_METHOD : string := "GET".

(** ** What AWS answers *)

(** The entries of the responses that the script reads. *)
Record security_group := SecurityGroup { GroupId : string; GroupName : string }.

(** An instance of a reservation: [State] is [instance['State']['Name']];
    an instance without public address has no [PublicIpAddress] key. *)
Record instance := Instance {
  InstanceId : string;
  State : string;
  PublicIpAddress : option string }.

Record rest_api := RestApi { api_id : string; api_name : string }.
Record resource := Resource { resource_id : string; resource_path : string }.

(** The rules of lines 38-42. *)
Record rule := Rule {
  rule_type : string;
  from_port : Z;
  to_port : Z;
  cidr_ipv4 : string }.

(** The keyword arguments of [ec2.run_instances] at lines 121-135. *)
Record launch := Launch {
  ImageId : string;
  InstanceType : string;
  MaxCount : Z;
  MinCount : Z;
  SecurityGroupIds : list string;
  UserData : string;
  KeyName : string;
  NameTag : string }.

(** The calls that leave the script. *)
Inductive action :=
| DescribeSecurityGroups
| CreateSecurityGroup (name description : string)
| AuthorizeIngress (group_id protocol : string) (from_port to_port : Z)
                   (cidr : string)
| AuthorizeEgress (group_id : string)
| DescribeInstances (region : option string) (name : string)
| RunInstances (l : launch)
| WaitInstanceRunning (ids : list string)
| TerminateInstances (ids : list string)
| LoadKey (path : string)
| Connect (ip user : string)
| ExecCommand (command : string)
| CloseClient
| SubprocessRun (command : string)
| OpenConfig (path : string)
| NewClient (service : string)
| GetRestApis
| DeleteRestApi (id : string)
| CreateRestApi (name : string)
| GetResources (api : string)
| CreateResource (api : string) (parent : option string) (path_part : string)
| PutMethod (api res method authorization : string)
| PutMethodResponse (api res method status : string)
| PutIntegration (api res method kind integration_method uri : string)
| PutIntegrationResponse (api res method status : string)
| CreateDeployment (api stage : string)
| CreateUsagePlan (name api stage : string) (burst rate : Z)
| CreateApiKey (name : string)
| CreateUsagePlanKey (plan key key_type : string).

(** The collaborators of the script.  [describe_instances] takes the region
    of the client that asks: the clients of lines 20 and 21 are made for
    [REGION], those of [delete_resources] for the default region. *)
Record cloud := Cloud {
  describe_security_groups : outcome (list security_group);
  create_security_group : string -> string -> outcome string;
  authorize_ingress : string -> string -> Z -> Z -> string -> outcome unit;
  authorize_egress : string -> outcome unit;
  describe_instances : option string -> string -> outcome (list (list instance));
  run_instances : launch -> outcome (list instance);
  wait_instance_running : list string -> outcome unit;
  terminate_instances : list string -> outcome unit;
  rsa_key : string -> outcome unit;
  ssh_connect : string -> string -> outcome unit;
  exec_command : string -> outcome (string * string);
  subprocess_run : string -> outcome unit;
  read_config : outcome (gmap string string);
  boto3_client : string -> outcome unit;
  get_rest_apis : outcome (list rest_api);
  delete_rest_api : string -> outcome unit;
  create_rest_api : string -> outcome string;
  get_resources : string -> outcome (list resource);
  create_resource : string -> option string -> string -> outcome string;
  put_method : string -> string -> outcome unit;
  put_method_response : string -> string -> outcome unit;
  put_integration : string -> string -> string -> outcome unit;
  put_integration_response : string -> string -> outcome unit;
  create_deployment : string -> outcome unit;
  create_usage_plan : string -> outcome string;
  create_api_key : outcome string;
  create_usage_plan_key : string -> string -> outcome unit }.

(** ** The run of the script *)

(** The records handed to [logging], the lines printed and the calls made. *)
Record world := World {
  logged : list (level * string);
  printed : list string;
  actions : list action }.

Definition fresh : world := World [] [] [].

Definition sh (A : Type) : Type := world -> outcome A * world.

Definition sh_ret {A} (a : A) : sh A := fun w => (Return a, w).

Definition sh_bind {A B} (m : sh A) (k : A -> sh B) : sh B :=
  fun w =>
    match m w with
    | (Return a, w') => k a w'
    | (Raise e, w') => (Raise e, w')
    end.

#[global] Instance sh_mret : MRet sh := @sh_ret.
#[global] Instance sh_mbind : MBind sh := fun A B k m => sh_bind m k.

Definition lift {A} (o : outcome A) : sh A := fun w => (o, w).

(** A call of a collaborator. *)
Definition act {A} (a : action) (o : outcome A) : sh A :=
  fun w => (o, World (logged w) (printed w) (actions w ++ [a])).

Definition logging_info (msg : string) : sh unit :=
  fun w => (Return tt, World (logged w ++ [(INFO, msg)]) (printed w) (actions w)).

Definition logging_error (msg : string) : sh unit :=
  fun w => (Return tt, World (logged w ++ [(ERROR, msg)]) (printed w) (actions w)).

(** [print(msg)] *)
Definition print (msg : string) : sh unit :=
  fun w => (Return tt, World (logged w) (printed w ++ [msg]) (actions w)).

(** [try: body  except Exception as e: handler(e)] *)
Definition try_except {A} (body : sh A) (handler : exn -> sh A) : sh A :=
  fun w =>
    match body w with
    | (Return a, w') => (Return a, w')
    | (Raise e, w') => handler e w'
    end.

(** [try: body  except cls: handler]: an exception of another class goes
    through. *)
Definition try_except_class {A} (cls : string) (body : sh A) (handler : sh A)
  : sh A :=
  fun w =>
    match body w with
    | (Return a, w') => (Return a, w')
    | (Raise e, w') =>
        if String.eqb (exn_class e) cls then handler w' else (Raise e, w')
    end.

(** [for x in xs: body(x)] *)
Fixpoint for_each {A} (xs : list A) (body : A -> sh unit) : sh unit :=
  match xs with
  | [] => sh_ret tt
  | x :: rest => sh_bind (body x) (fun _ => for_each rest body)
  end.

(** [str(n)] for an integer and for a boolean. *)
Definition str_int (n : Z) : string :=
  if (n <? 0)%Z
  then "-" ++ string_of_list_ascii (decimal (Z.abs_nat n))
  else string_of_list_ascii (decimal (Z.to_nat n)).

Definition str_bool (b : bool) : string := if b then "True" else "False".

(** [xs[0]] on a list. *)
Definition first_item {A} (xs : list A) : outcome A :=
  match xs with
  | x :: _ => Return x
  | [] => Raise (IndexError "list index out of range")
  end.

(** [d[key]] on a dictionary. *)
Definition getitem (d : gmap string string) (key : string) : outcome string :=
  match d !! key with
  | Some v => Return v
  | None => Raise (KeyError key)
  end.

(** [instance['PublicIpAddress']] *)
Definition public_ip (i : instance) : outcome string :=
  match PublicIpAddress i with
  | Some ip => Return ip
  | None => Raise (KeyError "PublicIpAddress")
  end.

Section Script.

Variable C : cloud.

(** Lines 38-42. *)
Definition rules : list rule :=
  [Rule "HTTP" 80 80 "0.0.0.0/0";
   Rule "SSH" 22 22 "0.0.0.0/0";
   Rule "HTTPS" 443 443 "0.0.0.0/0"].

(** Lines 45-49, for one rule. *)
Definition open_port (group_id : string) (r : rule) : sh unit :=
  act (AuthorizeIngress group_id "tcp" (from_port r) (to_port r) (cidr_ipv4 r))
      (authorize_ingress C group_id "tcp" (from_port r) (to_port r) (cidr_ipv4 r));;
  logging_info ("Opened " ++ rule_type r ++ " traffic on port " ++
                str_int (from_port r) ++ ".").

(** Lines 24-66. *)
Definition check_or_create_security_group : sh string :=
  security_groups ← act DescribeSecurityGroups (describe_security_groups C);
  let group_ids :=
    map GroupId
        (List.filter (fun sg => String.eqb (GroupName sg) SECURITY_GROUP_NAME)
                     security_groups) in
  match group_ids with
  | [] =>
      logging_info "Creating security group...";;
      group_id ← act (CreateSecurityGroup SECURITY_GROUP_NAME
                                          "Security group for EC2 instance")
                     (create_security_group C SECURITY_GROUP_NAME
                                            "Security group for EC2 instance");
      for_each rules (open_port group_id);;
      act (AuthorizeEgress group_id) (authorize_egress C group_id);;
      logging_info "Allowed all outbound traffic.";;
      mret group_id
  | group_id :: _ =>
      logging_info "Security group already exists.";;
      mret group_id
  end.

(** Lines 78-82. *)
Definition deploy_commands (docker_image : string) : list string :=
  ["docker pull " ++ docker_image;
   "docker stop $(docker ps -q)";
   "docker run -d -p 80:7001 " ++ docker_image].

(** Lines 69-88. *)
Definition ssh_and_deploy_docker (key_path instance_ip docker_image : string)
  : sh unit :=
  act (LoadKey key_path) (rsa_key C key_path);;
  act (Connect instance_ip "ec2-user") (ssh_connect C instance_ip "ec2-user");;
  let commands := deploy_commands docker_image in
  for_each commands (fun command =>
    out ← act (ExecCommand command) (exec_command C command);
    print (fst out ++ " " ++ snd out));;
  act CloseClient (Return tt).

(** Lines 91-98. *)
Definition wait_for_ec2_running (instance_id : string) : sh unit :=
  logging_info ("Waiting for EC2 instance " ++ instance_id ++
                " to be in a running state...");;
  act (WaitInstanceRunning [instance_id]) (wait_instance_running C [instance_id]);;
  logging_info ("EC2 instance " ++ instance_id ++ " is now running.").

(** Lines 108 and 171: the name of the image in the repository. *)
Definition image_name (repo : string) : string :=
  repo ++ "/" ++ DOCKER_IMAGE_NAME ++ ":" ++ DOCKER_IMAGE_TAG.

Definition nl : string := String (ascii_of_nat 10) EmptyString.

(** Lines 110-117. *)
Definition user_data_script (docker_image : string) : string :=
  "#!/bin/bash" ++ nl ++
  "    yum update -y" ++ nl ++
  "    yum install -y docker" ++ nl ++
  "    service docker start" ++ nl ++
  "    usermod -a -G docker ec2-user" ++ nl ++
  "    docker pull " ++ docker_image ++ nl ++
  "    docker run -d -p 80:7001 " ++ docker_image ++ nl ++
  "    ".

(** Lines 121-135. *)
Definition launch_request (key_name security_group_id user_data : string)
  : launch :=
  {| ImageId := "ami-080c09858e04800a1";
     InstanceType := "t2.micro";
     MaxCount := 1;
     MinCount := 1;
     SecurityGroupIds := [security_group_id];
     UserData := user_data;
     KeyName := key_name;
     NameTag := EC2_INSTANCE_NAME |}.

Definition running_or_pending (state : string) : bool :=
  String.eqb state "running" || String.eqb state "pending".

Definition is_running (i : instance) : bool := String.eqb (State i) "running".

(** Lines 101-148. *)
Definition check_or_create_ec2_instance
    (key_name key_path repo security_group_id : string) : sh unit :=
  response ← act (DescribeInstances (Some REGION) EC2_INSTANCE_NAME)
                 (describe_instances C (Some REGION) EC2_INSTANCE_NAME);
  let instance_states := map State (concat response) in
  let docker_image := image_name repo in
  let user_data := user_data_script docker_image in
  if negb (existsb running_or_pending instance_states) then
    logging_info "Creating EC2 instance...";;
    let request := launch_request key_name security_group_id user_data in
    created ← act (RunInstances request) (run_instances C request);
    first ← lift (first_item created);
    let instance_id := InstanceId first in
    wait_for_ec2_running instance_id
  else
    logging_info "EC2 instance already exists. Redeploying the container...";;
    let running_instances := List.filter is_running (concat response) in
    match running_instances with
    | first :: _ =>
        instance_ip ← lift (public_ip first);
        ssh_and_deploy_docker key_path instance_ip docker_image
    | [] => logging_error "No running instances found."
    end.

Definition local_image : string := DOCKER_IMAGE_NAME ++ ":" ++ DOCKER_IMAGE_TAG.

(** Lines 158-163: the build arguments of the published image, and the
    command that carries them. *)
Definition publish_build_args (mongo_host mongo_username mongo_password : string)
  : list (string * string) :=
  [("DB_HOST", mongo_host); ("DB_USERNAME", mongo_username);
   ("DB_PASSWORD", mongo_password); ("USE_SRV", str_bool true)].

Definition publish_build_command
    (mongo_host mongo_username mongo_password : string) : string :=
  "docker build --no-cache --platform linux/amd64 " ++
  "--build-arg DB_HOST=" ++ mongo_host ++ " " ++
  "--build-arg DB_USERNAME=" ++ mongo_username ++ " " ++
  "--build-arg DB_PASSWORD=" ++ mongo_password ++ " " ++
  "--build-arg USE_SRV=" ++ str_bool true ++ " " ++
  "-t " ++ local_image ++ " .".

(** The four commands of lines 157-176, in their order. *)
Definition publish_commands (dockerhub_username dockerhub_password repo
    mongo_host mongo_username mongo_password : string) : list string :=
  [publish_build_command mongo_host mongo_username mongo_password;
   "docker login -u " ++ dockerhub_username ++ " -p " ++ dockerhub_password;
   "docker tag " ++ local_image ++ " " ++ image_name repo;
   "docker push " ++ image_name repo].

(** [subprocess.run(command, shell=True, check=True)] *)
Definition run (command : string) : sh unit :=
  act (SubprocessRun command) (subprocess_run C command).

(** Lines 151-177. *)
Definition publish_docker_image (dockerhub_username dockerhub_password repo
    mongo_host mongo_username mongo_password : string) : sh unit :=
  logging_info "Building Docker image...";;
  run (publish_build_command mongo_host mongo_username mongo_password);;
  run ("docker login -u " ++ dockerhub_username ++ " -p " ++ dockerhub_password);;
  let docker_image_dockerhub_tag := image_name repo in
  run ("docker tag " ++ local_image ++ " " ++ docker_image_dockerhub_tag);;
  run ("docker push " ++ docker_image_dockerhub_tag);;
  logging_info ("Docker image pushed to: " ++ docker_image_dockerhub_tag).

(** Lines 188-192. *)
Definition local_build_args (mongo_host : string) (mongo_port : Z)
    (use_srv : bool) : list (string * string) :=
  [("DB_HOST", mongo_host); ("DB_PORT", str_int mongo_port);
   ("USE_SRV", str_bool use_srv)].

Definition local_build_command (mongo_host : string) (mongo_port : Z)
    (use_srv : bool) : string :=
  "docker build --no-cache --platform linux/amd64 " ++
  "--build-arg DB_HOST=" ++ mongo_host ++ " " ++
  "--build-arg DB_PORT=" ++ str_int mongo_port ++ " " ++
  "--build-arg USE_SRV=" ++ str_bool use_srv ++ " " ++
  "-t " ++ local_image ++ " .".

Definition local_run_command (port : string) : string :=
  "docker run -p " ++ port ++ ":7001 " ++ local_image.

(** Lines 180-203. *)
Definition start_service (mongo_host : string) (mongo_port : Z) (port : string)
    (use_srv : bool) : sh unit :=
  try_except_class "CalledProcessError"
    (logging_info "Building Docker image...";;
     run (local_build_command mongo_host mongo_port use_srv);;
     logging_info "Running Docker container...";;
     run (local_run_command port);;
     logging_info ("Docker service can be accessed through http://localhost:" ++
                   port ++ "/calculate-shadow"))
    (logging_error "Error occurred while building or running the Docker container.").

(** Lines 227-231: the first resource whose path is the root. *)
Fixpoint find_root (resources : list resource) : option string :=
  match resources with
  | [] => None
  | r :: rest =>
      if String.eqb (resource_path r) "/" then Some (resource_id r)
      else find_root rest
  end.

(** Lines 206-325. *)
Definition create_api_gateway : sh unit :=
  response ← act (DescribeInstances (Some REGION) EC2_INSTANCE_NAME)
                 (describe_instances C (Some REGION) EC2_INSTANCE_NAME);
  let running_instances := List.filter is_running (concat response) in
  first ← lift (first_item running_instances);
  instance_ip ← lift (public_ip first);
  let ec2_endpoint := "http://" ++ instance_ip ++ ":80/calculate-shadow" in
  logging_info "Creating API Gateway...";;
  api ← act (CreateRestApi API_GATEWAY_NAME) (create_rest_api C API_GATEWAY_NAME);
  resources ← act (GetResources api) (get_resources C api);
  let root_id := find_root resources in
  logging_info "Creating resource...";;
  res ← act (CreateResource api root_id RESOURCE_PATH)
            (create_resource C api root_id RESOURCE_PATH);
  logging_info "Creating HTTP method...";;
  act (PutMethod api res HTTP_METHOD "NONE") (put_method C api res);;
  act (PutMethodResponse api res HTTP_METHOD "200") (put_method_response C api res);;
  logging_info "Setting up integration request...";;
  act (PutIntegration api res HTTP_METHOD "HTTP" HTTP_METHOD ec2_endpoint)
      (put_integration C api res ec2_endpoint);;
  act (PutIntegrationResponse api res HTTP_METHOD "200")
      (put_integration_response C api res);;
  logging_info "Deploying API...";;
  act (CreateDeployment api "prod") (create_deployment C api);;
  logging_info "Creating Usage Plan...";;
  usage_plan ← act (CreateUsagePlan "RateLimitedPlan" api "prod" 10 1000)
                   (create_usage_plan C api);
  logging_info "Creating API Key...";;
  api_key ← act (CreateApiKey "RateLimitedAPIKey") (create_api_key C);
  logging_info "Associating API Key with Usage Plan...";;
  act (CreateUsagePlanKey usage_plan api_key "API_KEY")
      (create_usage_plan_key C usage_plan api_key);;
  logging_info ("API Gateway setup complete. Invoke URL: https://" ++ api ++
                ".execute-api." ++ REGION ++ ".amazonaws.com/prod").

(** Line 363: the id of the first API of that name, or [None]. *)
Fixpoint find_api (items : list rest_api) : option string :=
  match items with
  | [] => None
  | item :: rest =>
      if String.eqb (api_name item) API_GATEWAY_NAME then Some (api_id item)
      else find_api rest
  end.

(** Lines 342-358. *)
Definition terminate_named_instance : sh unit :=
  try_except
    (response ← act (DescribeInstances None EC2_INSTANCE_NAME)
                    (describe_instances C None EC2_INSTANCE_NAME);
     match response with
     | reservation :: _ =>
         first ← lift (first_item reservation);
         let instance_id := InstanceId first in
         act (TerminateInstances [instance_id])
             (terminate_instances C [instance_id]);;
         print ("EC2 instance with name " ++ EC2_INSTANCE_NAME ++ " (ID: " ++
                instance_id ++ ") is being terminated.")
     | [] => print ("No EC2 instance found with name " ++ EC2_INSTANCE_NAME ++ ".")
     end)
    (fun e => print ("Error terminating EC2 instance with name " ++
                     EC2_INSTANCE_NAME ++ ": " ++ exn_str e)).

(** Lines 361-370.  An empty id counts as no id at line 364. *)
Definition delete_named_api : sh unit :=
  try_except
    (items ← act GetRestApis (get_rest_apis C);
     match find_api items with
     | Some id =>
         if String.eqb id "" then
           print ("No API Gateway found with name " ++ API_GATEWAY_NAME ++ ".")
         else
           act (DeleteRestApi id) (delete_rest_api C id);;
           print ("API Gateway with name " ++ API_GATEWAY_NAME ++ " (ID: " ++
                  id ++ ") has been deleted.")
     | None => print ("No API Gateway found with name " ++ API_GATEWAY_NAME ++ ".")
     end)
    (fun e => print ("Error deleting API Gateway with name " ++
                     API_GATEWAY_NAME ++ ": " ++ exn_str e)).

(** Lines 328-370. *)
Definition delete_resources : sh unit :=
  act (NewClient "ec2") (boto3_client C "ec2");;
  act (NewClient "apigateway") (boto3_client C "apigateway");;
  terminate_named_instance;;
  delete_named_api.

(** The parsed command line (lines 376-388). *)
Record args := Args {
  mongo_host : string;
  mongo_port : Z;
  port : string;
  local : bool;
  purge : bool }.

(** How [main] ends: it returns, or [exit] ends the interpreter. *)
Inductive termination := Completed | Exit (code : Z).

(** Lines 373-409. *)
Definition main (a : args) : sh termination :=
  if purge a then
    delete_resources;;
    mret (Exit 0)
  else if local a then
    let db_host := mongo_host a in
    let db_port := mongo_port a in
    let port := port a in
    start_service db_host db_port port false;;
    mret Completed
  else
    configs ← act (OpenConfig "./config.json") (read_config C);
    security_group_id ← check_or_create_security_group;
    dockerhub_username ← lift (getitem configs "dockerhub_username");
    dockerhub_password ← lift (getitem configs "dockerhub_password");
    dockerhub_repo ← lift (getitem configs "dockerhub_repo");
    mongo_host ← lift (getitem configs "mongo_host");
    mongo_username ← lift (getitem configs "mongo_username");
    mongo_password ← lift (getitem configs "mongo_password");
    publish_docker_image dockerhub_username dockerhub_password dockerhub_repo
                         mongo_host mongo_username mongo_password;;
    aws_key_name ← lift (getitem configs "aws_key_name");
    aws_key_path ← lift (getitem configs "aws_key_path");
    dockerhub_repo ← lift (getitem configs "dockerhub_repo");
    check_or_create_ec2_instance aws_key_name aws_key_path dockerhub_repo
                                 security_group_id;;
    logging_info "Setup complete.";;
    mret Completed.

End Script.

(** ** Auxiliary notions for the statements about the script *)

(** The items of [xs] that a loop gets to when it stops at the first one on
    which [f] raises, that one included, and the exception, if any. *)
Fixpoint run_until_failure {A} (f : A -> outcome unit) (xs : list A)
  : list A * option exn :=
  match xs with
  | [] => ([], None)
  | x :: rest =>
      match f x with
      | Raise e => ([x], Some e)
      | Return _ =>
          let '(tried, err) := run_until_failure f rest in (x :: tried, err)
      end
  end.

(** The call that opens the port of a rule. *)
Definition ingress_action (group_id : string) (r : rule) : action :=
  AuthorizeIngress group_id "tcp" (from_port r) (to_port r) (cidr_ipv4 r).

Definition has_name (sg : security_group) : bool :=
  String.eqb (GroupName sg) SECURITY_GROUP_NAME.

Definition is_run_instances (a : action) : bool :=
  match a with RunInstances _ => true | _ => false end.

Definition is_subprocess_run (a : action) : bool :=
  match a with SubprocessRun _ => true | _ => false end.

(** The calls that change something at AWS. *)
Definition changes_aws (a : action) : bool :=
  match a with
  | CreateSecurityGroup _ _ | AuthorizeIngress _ _ _ _ _ | AuthorizeEgress _
  | RunInstances _ | TerminateInstances _ | DeleteRestApi _ | CreateRestApi _
  | CreateResource _ _ _ | PutMethod _ _ _ _ | PutMethodResponse _ _ _ _
  | PutIntegration _ _ _ _ _ _ | PutIntegrationResponse _ _ _ _
  | CreateDeployment _ _ | CreateUsagePlan _ _ _ _ _ | CreateApiKey _
  | CreateUsagePlanKey _ _ _ => true
  | _ => false
  end.

(** The calls that only [create_api_gateway] makes, on the client of the
    API gateway (lines 214-323). *)
Definition builds_gateway (a : action) : bool :=
  match a with
  | CreateRestApi _ | GetResources _ | CreateResource _ _ _ | PutMethod _ _ _ _
  | PutMethodResponse _ _ _ _ | PutIntegration _ _ _ _ _ _
  | PutIntegrationResponse _ _ _ _ | CreateDeployment _ _
  | CreateUsagePlan _ _ _ _ _ | CreateApiKey _ | CreateUsagePlanKey _ _ _ => true
  | _ => false
  end.

(** The calls that are not among them. *)
Definition spares_gateway (a : action) : bool := negb (builds_gateway a).

(** [only P m]: whatever the world it starts in and however it ends, [m]
    keeps the calls made before it and adds calls that satisfy [P]. *)
Definition only {A} (P : action -> bool) (m : sh A) : Prop :=
  forall w, exists made,
    actions (snd (m w)) = (actions w ++ made)%list /\ forallb P made = true.

(** The calls made since [w]. *)
Definition actions_since (w w' : world) : list action :=
  drop (length (actions w)) (actions w').

(** A [docker build] command with its build arguments, as lines 158-163
    and 188-192 write it. *)
Definition build_command (build_args : list (string * string)) : string :=
  "docker build --no-cache --platform linux/amd64 " ++
  fold_right (fun kv rest => "--build-arg " ++ fst kv ++ "=" ++ snd kv ++ " " ++ rest)
             ("-t " ++ local_image ++ " .") build_args.


(** ** A small account

    A cloud in which every call succeeds but the shell command
    [failing_command], with the security groups and the reservations
    given. *)
Definition called_process_error : exn :=
  Exception "CalledProcessError" "Command returned non-zero exit status 1.".

Definition complete_config : gmap string string :=
  list_to_map
    [("dockerhub_username", "alice"); ("dockerhub_password", "secret");
     ("dockerhub_repo", "alice"); ("mongo_host", "cluster0.example.net");
     ("mongo_username", "shadow"); ("mongo_password", "pw");
     ("aws_key_name", "key"); ("aws_key_path", "./key.pem")].

Definition account (groups : list security_group)
    (reservations : list (list instance)) (failing_command : string)
    (configs : gmap string string) : cloud :=
  {| describe_security_groups := Return groups;
     create_security_group := fun _ _ => Return "sg-new";
     authorize_ingress := fun _ _ _ _ _ => Return tt;
     authorize_egress := fun _ => Return tt;
     describe_instances := fun _ _ => Return reservations;
     run_instances := fun _ => Return [Instance "i-new" "pending" None];
     wait_instance_running := fun _ => Return tt;
     terminate_instances := fun _ => Return tt;
     rsa_key := fun _ => Return tt;
     ssh_connect := fun _ _ => Return tt;
     exec_command :=
       fun c => if String.eqb c failing_command
                then Raise (Exception "SSHException" "SSH session not active")
                else Return ("", "");
     subprocess_run :=
       fun c => if String.eqb c failing_command
                then Raise called_process_error else Return tt;
     read_config := Return configs;
     boto3_client := fun _ => Return tt;
     get_rest_apis := Return [RestApi "api-1" API_GATEWAY_NAME];
     delete_rest_api := fun _ => Return tt;
     create_rest_api := fun _ => Return "api-new";
     get_resources := fun _ => Return [Resource "root" "/"];
     create_resource := fun _ _ _ => Return "res-new";
     put_method := fun _ _ => Return tt;
     put_method_response := fun _ _ => Return tt;
     put_integration := fun _ _ _ => Return tt;
     put_integration_response := fun _ _ => Return tt;
     create_deployment := fun _ => Return tt;
     create_usage_plan := fun _ => Return "plan-new";
     create_api_key := Return "key-new";
     create_usage_plan_key := fun _ _ => Return tt |}.

(** An account with nothing in it and no command that fails. *)
Definition empty_account : cloud := account [] [] "" complete_config.

End Deploy.

(** * Properties *)

(** ** Binary64 arithmetic *)

Lemma nan_is_nan (x : float) : Prim2SF x = S754_nan -> is_nan x = true.
Proof.
  intros H. unfold is_nan. rewrite FloatAxioms.eqb_spec, H. reflexivity.
Qed.

Lemma SF64sub_diag (x : spec_float) :
  SF64sub x x = S754_nan \/ exists s, SF64sub x x = S754_zero s.
Proof.
  destruct x as [s| s| |s m e]; unfold SF64sub, SFsub.
  - right. destruct s; eauto.
  - left. destruct s; reflexivity.
  - left. reflexivity.
  - right. exists false. cbv zeta.
    match goal with
    | |- binary_normalize _ _ ?z _ _ = _ =>
        replace z with 0%Z by (symmetry; apply Z.sub_diag)
    end.
    reflexivity.
Qed.

Lemma SF64div_diag_undefined (z : spec_float) :
  (z = S754_nan \/ exists s, z = S754_zero s) -> SF64div z z = S754_nan.
Proof. intros [-> | [s ->]]; reflexivity. Qed.

(** Zero divided by zero, as the normalization computes it on a terrain
    whose samples are all equal to [v]: the result is NaN. *)
Lemma normalize_equal_sample_eq (v : float) :
  ((v - v) / (v - v))%float = nan.
Proof.
  apply Prim2SF_inj. rewrite FloatAxioms.div_spec, FloatAxioms.sub_spec.
  rewrite SF64div_diag_undefined by apply SF64sub_diag. reflexivity.
Qed.

Lemma nan_to_num1_not_nan (x : float) : is_nan (nan_to_num1 0 x) = false.
Proof.
  unfold nan_to_num1.
  destruct (is_nan x) eqn:Hx; [reflexivity|].
  destruct (x =? infinity)%float; [reflexivity|].
  destruct (x =? neg_infinity)%float; [reflexivity|].
  exact Hx.
Qed.

Lemma nan_to_num1_nan (x : float) : is_nan x = true -> nan_to_num1 0 x = 0%float.
Proof. unfold nan_to_num1. intros ->. reflexivity. Qed.

Lemma abs_infinity (x : float) :
  (x =? infinity)%float = true \/ (x =? neg_infinity)%float = true ->
  is_infinity x = true.
Proof.
  unfold is_infinity.
  rewrite !FloatAxioms.eqb_spec, FloatAxioms.abs_spec.
  change (Prim2SF infinity) with (S754_infinity false).
  change (Prim2SF neg_infinity) with (S754_infinity true).
  destruct (Prim2SF x) as [sx|sx| |sx mx ex]; cbn;
    intros [H|H]; try discriminate H; reflexivity.
Qed.

Lemma nan_to_num1_finite (x : float) : is_finite x = true -> nan_to_num1 0 x = x.
Proof.
  unfold is_finite, nan_to_num1. intros H.
  apply negb_true_iff, orb_false_iff in H as [Hn Hi]. rewrite Hn.
  destruct (x =? infinity)%float eqn:H1.
  { rewrite abs_infinity in Hi by (left; exact H1). discriminate Hi. }
  destruct (x =? neg_infinity)%float eqn:H2.
  { rewrite abs_infinity in Hi by (right; exact H2). discriminate Hi. }
  reflexivity.
Qed.

Example nan_to_num_samples :
  map (nan_to_num1 0) [nan; 1.5; infinity; neg_infinity; (-0)]%float
  = [0; 1.5; float_max; - float_max; -0]%float.
Proof. reflexivity. Qed.

Example zero_by_zero : is_nan (0 / 0)%float = true.
Proof. reflexivity. Qed.

Example np_min_max_samples :
  np_min (Ndarray 2 2 [3; 1; 2; 4]%float) = Return 1%float /\
  np_max (Ndarray 2 2 [3; 1; 2; 4]%float) = Return 4%float /\
  succeeded (np_min (Ndarray 0 3 [])) = false.
Proof. repeat split; reflexivity. Qed.

Lemma np_minimum_diag (v : float) : np_minimum v v = v.
Proof. unfold np_minimum. destruct (is_nan v), (v <? v)%float; reflexivity. Qed.

Lemma np_maximum_diag (v : float) : np_maximum v v = v.
Proof. unfold np_maximum. destruct (is_nan v), (v <? v)%float; reflexivity. Qed.

Lemma fold_minimum_repeat (v : float) (n : nat) :
  fold_left np_minimum (repeat v n) v = v.
Proof. induction n as [|n IH]; simpl; [reflexivity|]. rewrite np_minimum_diag. exact IH. Qed.

Lemma fold_maximum_repeat (v : float) (n : nat) :
  fold_left np_maximum (repeat v n) v = v.
Proof. induction n as [|n IH]; simpl; [reflexivity|]. rewrite np_maximum_diag. exact IH. Qed.

Lemma map_repeat_const {A B} (f : A -> B) (x : A) (n : nat) :
  map f (repeat x n) = repeat (f x) n.
Proof. induction n as [|n IH]; simpl; [reflexivity|]. now rewrite IH. Qed.

(** The array of wall directions, turned to radians, is the zero array. *)
Lemma zero_directions_in_radians (r c : nat) :
  np_div_scalar (np_mul_scalar (np_zeros r c) np_pi) 180%float = np_zeros r c.
Proof.
  unfold np_div_scalar, np_mul_scalar, np_map, np_zeros. simpl.
  rewrite !map_repeat_const. reflexivity.
Qed.

(** ** The format of the time stamp *)

Lemma prints_on_spec (w bound n : nat) :
  prints_on w bound = true -> n < bound ->
  digits_of_width w (zfill w (decimal n)) = true /\
  read_decimal (zfill w (decimal n)) = n.
Proof.
  unfold prints_on. rewrite forallb_forall. intros H Hn.
  assert (Hin : In n (seq 0 bound)) by (apply in_seq; lia).
  apply H in Hin. apply andb_prop in Hin as [Hd Hr].
  split; [exact Hd | apply Nat.eqb_eq, Hr].
Qed.

Lemma two_digits (n : nat) :
  n < 100 ->
  exists a b, zfill 2 (decimal n) = [a; b] /\ is_digit a = true /\
              is_digit b = true /\ read_decimal [a; b] = n.
Proof.
  intros Hn.
  destruct (prints_on_spec 2 100 n) as [H Hr];
    [vm_compute; reflexivity | exact Hn |].
  unfold digits_of_width in H. apply andb_prop in H as [Hl Hd].
  apply Nat.eqb_eq in Hl.
  destruct (zfill 2 (decimal n)) as [|a [|b [|c l]]]; try discriminate Hl.
  simpl in Hd. apply andb_prop in Hd as [Ha Hd]. apply andb_prop in Hd as [Hb _].
  exists a, b. auto.
Qed.

Lemma digit_is_digit (n : nat) : is_digit (ascii_of_nat (48 + n mod 10)) = true.
Proof.
  pose proof (Nat.mod_upper_bound n 10 ltac:(lia)) as H.
  destruct (n mod 10) as [|[|[|[|[|[|[|[|[|[|d]]]]]]]]]]; try reflexivity; lia.
Qed.

Lemma digit_value (n : nat) :
  nat_of_ascii (ascii_of_nat (48 + n mod 10)) - 48 = n mod 10.
Proof.
  pose proof (Nat.mod_upper_bound n 10 ltac:(lia)) as H.
  rewrite nat_ascii_embedding; lia.
Qed.

Lemma decimal_fuel_step (fuel n : nat) (acc : list ascii) :
  decimal_fuel (S fuel) n acc
  = if n / 10 =? 0 then ascii_of_nat (48 + n mod 10) :: acc
    else decimal_fuel fuel (n / 10) (ascii_of_nat (48 + n mod 10) :: acc).
Proof. reflexivity. Qed.

Lemma div10_bounds (n lo hi : nat) :
  10 * lo <= n < 10 * hi -> lo <= n / 10 < hi.
Proof.
  intros H. split.
  - apply Nat.div_le_lower_bound; lia.
  - apply Nat.Div0.div_lt_upper_bound; lia.
Qed.

Lemma year_digits (n : nat) :
  1000 <= n < 100 * 100 ->
  exists a b c d, decimal n = [a; b; c; d] /\
    is_digit a = true /\ is_digit b = true /\ is_digit c = true /\
    is_digit d = true /\ read_decimal [a; b; c; d] = n.
Proof.
  intros Hn.
  pose proof (div10_bounds n 100 1000 ltac:(lia)) as B1.
  pose proof (div10_bounds (n / 10) 10 100 ltac:(lia)) as B2.
  pose proof (div10_bounds (n / 10 / 10) 1 10 ltac:(lia)) as B3.
  pose proof (div10_bounds (n / 10 / 10 / 10) 0 1 ltac:(lia)) as B4.
  pose proof (Nat.div_mod_eq n 10) as E1.
  pose proof (Nat.div_mod_eq (n / 10) 10) as E2.
  pose proof (Nat.div_mod_eq (n / 10 / 10) 10) as E3.
  pose proof (Nat.div_mod_eq (n / 10 / 10 / 10) 10) as E4.
  exists (ascii_of_nat (48 + (n / 10 / 10 / 10) mod 10)),
    (ascii_of_nat (48 + (n / 10 / 10) mod 10)),
    (ascii_of_nat (48 + (n / 10) mod 10)),
    (ascii_of_nat (48 + n mod 10)).
  split.
  - unfold decimal.
    replace (S n) with (S (S (S (S (n - 3))))) by lia.
    rewrite !decimal_fuel_step.
    destruct (Nat.eqb_spec (n / 10) 0) as [H|_]; [lia|].
    destruct (Nat.eqb_spec (n / 10 / 10) 0) as [H|_]; [lia|].
    destruct (Nat.eqb_spec (n / 10 / 10 / 10) 0) as [H|_]; [lia|].
    destruct (Nat.eqb_spec (n / 10 / 10 / 10 / 10) 0) as [_|H]; [|lia].
    reflexivity.
  - repeat (split; [apply digit_is_digit|]).
    unfold read_decimal. cbn [fold_left]. rewrite !digit_value. lia.
Qed.

Example strftime_noon : strftime (Demo.noon 7) = "2024-03-21 12:00:07".
Proof. reflexivity. Qed.

Example strftime_first_day :
  strftime (Datetime 1970 1 1 0 0 0 0) = "1970-01-01 00:00:00".
Proof. reflexivity. Qed.

Example strftime_year_999 :
  strftime (Datetime 999 1 1 0 0 0 0) = "999-01-01 00:00:00".
Proof. reflexivity. Qed.

Example timestamp_fields_noon :
  timestamp_fields "2024-03-21 12:00:07" = Some (2024, 3, 21, 12, 0, 7).
Proof. reflexivity. Qed.

Example timestamp_fields_short_year :
  timestamp_fields "999-01-01 00:00:00" = None.
Proof. reflexivity. Qed.

(** A valid [datetime] of a year from 1000 on is formatted as
    [YYYY-MM-DD HH:MM:SS], and the digits write its six fields. *)
Lemma strftime_format (t : datetime) :
  valid_datetime t -> 1000 <= year t ->
  is_timestamp_format (strftime t) = true /\
  timestamp_fields (strftime t)
    = Some (year t, month t, day t, hour t, minute t, second t).
Proof.
  intros (Hy & Hm & Hd & Hh & Hmi & Hs & _) Hy4.
  destruct (year_digits (year t))
    as (y1 & y2 & y3 & y4 & Ey & ? & ? & ? & ? & Ry); [lia|].
  destruct (two_digits (month t)) as (m1 & m2 & Em & ? & ? & Rm); [lia|].
  destruct (two_digits (day t)) as (d1 & d2 & Ed & ? & ? & Rd); [lia|].
  destruct (two_digits (hour t)) as (h1 & h2 & Eh & ? & ? & Rh); [lia|].
  destruct (two_digits (minute t)) as (n1 & n2 & En & ? & ? & Rn); [lia|].
  destruct (two_digits (second t)) as (s1 & s2 & Es & ? & ? & Rs); [lia|].
  assert (Hf : is_timestamp_format (strftime t) = true).
  { unfold is_timestamp_format, strftime.
    rewrite list_ascii_of_string_of_list_ascii, Ey, Em, Ed, Eh, En, Es.
    cbn [app forallb].
    repeat match goal with H : is_digit _ = true |- _ => rewrite H; clear H end.
    reflexivity. }
  split; [exact Hf|].
  unfold timestamp_fields. rewrite Hf. unfold strftime.
  rewrite list_ascii_of_string_of_list_ascii, Ey, Em, Ed, Eh, En, Es.
  cbn [app]. rewrite Ry, Rm, Rd, Rh, Rn, Rs. reflexivity.
Qed.

(** ** Base64 *)

Lemma b64_index_char (i : N) :
  (i < 64)%N ->
  b64_index (b64_char i) = Some i /\ Ascii.eqb (b64_char i) "=" = false.
Proof.
  intros Hi.
  assert (H : b64_table_inverts = true) by (vm_compute; reflexivity).
  unfold b64_table_inverts in H. rewrite forallb_forall in H.
  specialize (H (N.to_nat i)). rewrite N2Nat.id in H.
  assert (Hin : In (N.to_nat i) (seq 0 64)) by (apply in_seq; lia).
  apply H in Hin. apply andb_prop in Hin as [H1 H2].
  destruct (b64_index (b64_char i)) as [j|]; [|discriminate H1].
  apply N.eqb_eq in H1. subst j. split; [reflexivity|].
  now apply negb_true_iff.
Qed.

Lemma byte_bound (a : byte) : (Byte.to_N a < 256)%N.
Proof. pose proof (Byte.to_N_bounded a). lia. Qed.

Ltac n_divmod := zify; Z.to_euclidean_division_equations; lia.

Lemma b64_first (a b : N) :
  (a < 256)%N -> (b < 256)%N ->
  ((a / 4) * 4 + ((a mod 4) * 16 + b / 16) / 16 = a)%N.
Proof. intros Ha Hb. n_divmod. Qed.

Lemma b64_second (a b c : N) :
  (a < 256)%N -> (b < 256)%N -> (c < 256)%N ->
  ((((a mod 4) * 16 + b / 16) mod 16) * 16 + ((b mod 16) * 4 + c / 64) / 4 = b)%N.
Proof. intros Ha Hb Hc. n_divmod. Qed.

Lemma b64_third (b c : N) :
  (b < 256)%N -> (c < 256)%N ->
  ((((b mod 16) * 4 + c / 64) mod 4) * 64 + c mod 64 = c)%N.
Proof. intros Hb Hc. n_divmod. Qed.

Lemma b64_indices (a b c : N) :
  (a < 256)%N -> (b < 256)%N -> (c < 256)%N ->
  (a / 4 < 64 /\ (a mod 4) * 16 + b / 16 < 64 /\
   (b mod 16) * 4 + c / 64 < 64 /\ c mod 64 < 64)%N.
Proof. intros Ha Hb Hc. n_divmod. Qed.

Lemma list_ind3 {A} (P : list A -> Prop) :
  P [] -> (forall a, P [a]) -> (forall a b, P [a; b]) ->
  (forall a b c l, P l -> P (a :: b :: c :: l)) ->
  forall l, P l.
Proof.
  intros H0 H1 H2 H3.
  assert (H : forall l, P l /\ (forall a, P (a :: l)) /\ (forall a b, P (a :: b :: l))).
  { induction l as [|x l (IH0 & IH1 & IH2)]; [now auto|].
    split; [apply IH1|]. split; [intros a; apply IH2|]. intros a b. apply H3, IH0. }
  intros l. apply H.
Qed.

Lemma b64decode_chars_group (c0 c1 c2 c3 r : ascii) (R : list ascii) :
  b64decode_chars (c0 :: c1 :: c2 :: c3 :: r :: R) =
  (i0 ← b64_index c0; i1 ← b64_index c1; i2 ← b64_index c2; i3 ← b64_index c3;
   a ← Byte.of_N (i0 * 4 + i1 / 16)%N;
   b ← Byte.of_N ((i1 mod 16) * 16 + i2 / 4)%N;
   c ← Byte.of_N ((i2 mod 4) * 64 + i3)%N;
   tail ← b64decode_chars (r :: R); Some (a :: b :: c :: tail)).
Proof. reflexivity. Qed.

Arguments b64_char : simpl never.
Arguments b64_index : simpl never.

(** Decoding undoes encoding: a payload holds exactly the bytes it was made
    from. *)
Lemma b64decode_encode_chars (bs : bytes) :
  b64decode_chars (b64encode_chars bs) = Some bs.
Proof.
  induction bs as [|a|a b|a b c rest IH] using list_ind3.
  - reflexivity.
  - pose proof (byte_bound a) as Ha.
    destruct (b64_indices (Byte.to_N a) 0 0) as (I0 & I1 & _); [lia..|].
    destruct (b64_index_char _ I0) as [E0 _].
    destruct (b64_index_char _ I1) as [E1 _].
    cbn. rewrite E0, E1. cbn.
    rewrite (b64_first (Byte.to_N a) 0) by lia.
    rewrite Byte.of_to_N. reflexivity.
  - pose proof (byte_bound a) as Ha. pose proof (byte_bound b) as Hb.
    destruct (b64_indices (Byte.to_N a) (Byte.to_N b) 0) as (I0 & I1 & I2 & _); [lia..|].
    destruct (b64_index_char _ I0) as [E0 _].
    destruct (b64_index_char _ I1) as [E1 _].
    destruct (b64_index_char _ I2) as [E2 N2].
    cbn. rewrite N2, E0, E1, E2. cbn.
    rewrite (b64_first (Byte.to_N a) (Byte.to_N b)) by lia.
    rewrite (b64_second (Byte.to_N a) (Byte.to_N b) 0) by lia.
    rewrite !Byte.of_to_N. reflexivity.
  - pose proof (byte_bound a) as Ha. pose proof (byte_bound b) as Hb.
    pose proof (byte_bound c) as Hc.
    destruct (b64_indices (Byte.to_N a) (Byte.to_N b) (Byte.to_N c))
      as (I0 & I1 & I2 & I3); [lia..|].
    destruct (b64_index_char _ I0) as [E0 _].
    destruct (b64_index_char _ I1) as [E1 _].
    destruct (b64_index_char _ I2) as [E2 _].
    destruct (b64_index_char _ I3) as [E3 N3].
    change (b64encode_chars (a :: b :: c :: rest))
      with (b64_group (Byte.to_N a) (Byte.to_N b) (Byte.to_N c) ++ b64encode_chars rest)%list.
    unfold b64_group. cbn [app].
    destruct (b64encode_chars rest) as [|r R] eqn:ER.
    + cbn. rewrite N3, E0, E1, E2, E3. cbn.
      rewrite (b64_first (Byte.to_N a) (Byte.to_N b)) by lia.
      rewrite (b64_second (Byte.to_N a) (Byte.to_N b) (Byte.to_N c)) by lia.
      rewrite (b64_third (Byte.to_N b) (Byte.to_N c)) by lia.
      rewrite !Byte.of_to_N. cbn.
      destruct rest as [|x [|y [|z l]]]; [reflexivity|discriminate ER..].
    + rewrite b64decode_chars_group, E0, E1, E2, E3. cbn [mbind option_bind].
      rewrite (b64_first (Byte.to_N a) (Byte.to_N b)) by lia.
      rewrite (b64_second (Byte.to_N a) (Byte.to_N b) (Byte.to_N c)) by lia.
      rewrite (b64_third (Byte.to_N b) (Byte.to_N c)) by lia.
      rewrite !Byte.of_to_N. cbn [mbind option_bind].
      rewrite IH. reflexivity.
Qed.

Example b64encode_Man : b64encode [x4d; x61; x6e] = "TWFu".
Proof. reflexivity. Qed.

Example b64encode_Ma : b64encode [x4d; x61] = "TWE=".
Proof. reflexivity. Qed.

Example b64encode_M : b64encode [x4d] = "TQ==".
Proof. reflexivity. Qed.

Example b64encode_png_signature : b64encode Demo.png_signature = "iVBORw0KGgo=".
Proof. reflexivity. Qed.

Lemma b64decode_b64encode (bs : bytes) : b64decode (b64encode bs) = Some bs.
Proof.
  unfold b64decode, b64encode.
  rewrite list_ascii_of_string_of_list_ascii. apply b64decode_encode_chars.
Qed.

(** ** The stages of a request, one by one *)

Section Stages.

Variable E : collaborators.

Ltac run :=
  unfold mbind, py_mbind, mret, py_mret, py_bind, py_ret, py_get, py_lift,
         external, logging_info, logging_error, try_except.

(** The first stage: one call of the calculator, then, when the frame has
    both columns, one call of the algorithm with the zero arrays. *)
Lemma calculate_shadow_matrix_eq (t : datetime) (s : process) :
  calculate_shadow_matrix E t s =
  let s1 := record_call (CallSolarposition t (latitude s) (longitude s)) s in
  match outcome_bind (get_solarposition E t (latitude s) (longitude s))
                     sun_geometry with
  | Raise e => (Raise e, s1)
  | Return (altitude, azimuth) =>
      let walls := np_zeros (shape0 (dsm s)) (shape1 (dsm s)) in
      let dirwalls := np_div_scalar (np_mul_scalar walls np_pi) 180%float in
      (outcome_bind
         (shadowingfunction_wallheight_13 E (dsm s) azimuth altitude 1 walls dirwalls)
         unpack5,
       record_call (CallShadowing (dsm s) azimuth altitude 1 walls dirwalls) s1)
  end.
Proof.
  unfold calculate_shadow_matrix, sun_geometry. run. cbn.
  destruct (get_solarposition E t (latitude s) (longitude s)) as [df|e]; cbn;
    [|reflexivity].
  destruct (df_getitem df "elevation") as [el|e]; cbn; [|reflexivity].
  destruct (series_first el) as [alt|e]; cbn; [|reflexivity].
  destruct (df_getitem df "azimuth") as [azs|e]; cbn; [|reflexivity].
  destruct (series_first azs) as [az|e]; cbn; [|reflexivity].
  destruct (shadowingfunction_wallheight_13 E _ _ _ _ _ _) as [outs|e]; cbn;
    reflexivity.
Qed.

Lemma generate_heatmap_eq (m : ndarray) (s : process) :
  generate_heatmap E m s =
  (outcome_map b64encode (savefig_heatmap E m), record_call (CallHeatmap m) s).
Proof.
  unfold generate_heatmap. run.
  destruct (savefig_heatmap E m); reflexivity.
Qed.

Lemma generate_surface_plot_eq (m : ndarray) (s : process) :
  generate_surface_plot E m s =
  match normalize (dsm s) with
  | Raise e => (Raise e, s)
  | Return nz =>
      let '(X, Y) := surface_grid m in
      (outcome_map b64encode (savefig_surface E X Y m (viridis_rgb E nz)),
       record_call (CallPlotSurface X Y m (viridis_rgb E nz)) s)
  end.
Proof.
  unfold generate_surface_plot, surface_grid. run. cbn.
  destruct (normalize (dsm s)) as [nz|e]; [|reflexivity].
  destruct (savefig_surface E _ _ m _); reflexivity.
Qed.

Lemma compress_data_eq (m : ndarray) (s : process) :
  compress_data E m s =
  match pickle_dumps E m with
  | Raise e => (Raise e, record_call (CallPickleDumps m) s)
  | Return b =>
      (gzip_compress E b,
       record_call (CallGzipCompress b) (record_call (CallPickleDumps m) s))
  end.
Proof.
  unfold compress_data. run.
  destruct (pickle_dumps E m) as [b|e]; cbn; [|reflexivity].
  destruct (gzip_compress E b); reflexivity.
Qed.

(** The archival always returns: whatever its body raises is handled. *)
Lemma archive_eq (t : datetime) (m : ndarray) (s : process) :
  archive E t m s = (Return tt, after_archive E t m s).
Proof.
  unfold archive, archive_body, after_archive, save_shadow_matrix, insert_one,
    archived_document.
  run. rewrite compress_data_eq.
  destruct (pickle_dumps E m) as [b|e]; cbn; [|reflexivity].
  destruct (gzip_compress E b) as [z|e]; cbn; [|reflexivity].
  destruct (mongo_insert E (shadow_matrices s) _) as [u|e]; cbn; reflexivity.
Qed.

Lemma calculate_shadow_matrix_frame (t : datetime) (s s1 : process) o :
  calculate_shadow_matrix E t s = (o, s1) ->
  dsm s1 = dsm s /\ latitude s1 = latitude s /\ longitude s1 = longitude s /\
  ticks s1 = ticks s /\ shadow_matrices s1 = shadow_matrices s /\
  logged s1 = logged s.
Proof.
  rewrite calculate_shadow_matrix_eq. cbv zeta.
  destruct (outcome_bind _ sun_geometry) as [[alt az]|e];
    intros [= _ <-]; cbn; auto 10.
Qed.

Lemma after_archive_frame (t : datetime) (m : ndarray) (s : process) :
  dsm (after_archive E t m s) = dsm s /\
  latitude (after_archive E t m s) = latitude s /\
  longitude (after_archive E t m s) = longitude s /\
  ticks (after_archive E t m s) = ticks s.
Proof.
  unfold after_archive.
  destruct (pickle_dumps E m) as [b|e]; cbn; [|auto].
  destruct (gzip_compress E b) as [z|e]; cbn; [|auto].
  destruct (mongo_insert E _ _); cbn; auto.
Qed.

(** The handler in closed form. *)
Lemma calculate_shadow_eq (s : process) :
  calculate_shadow E s =
  let t := clock E (ticks s) in
  match calculate_shadow_matrix E t (record_call CallNow (tick s)) with
  | (Raise e, s1) => (Raise e, s1)
  | (Return m, s1) =>
      let s3 := record_call (CallHeatmap m) (after_archive E t m s1) in
      match savefig_heatmap E m with
      | Raise e => (Raise e, s3)
      | Return png1 =>
          match normalize (dsm s) with
          | Raise e => (Raise e, s3)
          | Return nz =>
              let '(X, Y) := surface_grid m in
              let img := viridis_rgb E nz in
              (outcome_map
                 (fun png2 => success_response t (b64encode png1) (b64encode png2))
                 (savefig_surface E X Y m img),
               record_call (CallPlotSurface X Y m img) s3)
          end
      end
  end.
Proof.
  unfold calculate_shadow, datetime_now.
  unfold mbind, py_mbind, py_bind at 1 2. cbv zeta.
  destruct (calculate_shadow_matrix E _ _) as [[m|e] s1] eqn:Hm; [|reflexivity].
  apply calculate_shadow_matrix_frame in Hm as (Hd & _).
  unfold py_bind at 1. rewrite archive_eq.
  unfold py_bind at 1. rewrite generate_heatmap_eq.
  destruct (savefig_heatmap E m) as [png1|e]; cbn [outcome_map outcome_bind];
    [|reflexivity].
  unfold py_bind at 1. rewrite generate_surface_plot_eq.
  cbn [dsm record_call].
  destruct (after_archive_frame (clock E (ticks s)) m s1) as (-> & _).
  rewrite Hd. cbn [dsm record_call tick].
  destruct (normalize (dsm s)) as [nz|e]; [|reflexivity].
  destruct (surface_grid m) as [X Y].
  destruct (savefig_surface E X Y m _) as [png2|e]; reflexivity.
Qed.

End Stages.

(** ** The terrain *)

Example main_on_flat_terrain :
  main (Return []) (Return Demo.flat_terrain) = Return Demo.started.
Proof. reflexivity. Qed.

Example main_without_terrain (e : exn) :
  main (Return []) (Raise e) = Raise e.
Proof. reflexivity. Qed.

(** A request reads the clock once and leaves the globals as they are. *)
Lemma calculate_shadow_frame (E : collaborators) (s : process) :
  let s' := snd (calculate_shadow E s) in
  dsm s' = dsm s /\ latitude s' = latitude s /\ longitude s' = longitude s /\
  ticks s' = S (ticks s).
Proof.
  rewrite calculate_shadow_eq. cbv zeta.
  destruct (calculate_shadow_matrix E _ _) as [[m|e] s1] eqn:Hm;
    apply calculate_shadow_matrix_frame in Hm as (Hd & Hla & Hlo & Ht & _);
    cbn [dsm latitude longitude ticks record_call tick] in *; [|auto].
  destruct (after_archive_frame E (clock E (ticks s)) m s1) as (Ad & Ala & Alo & At).
  assert (dsm (after_archive E (clock E (ticks s)) m s1) = dsm s /\
          latitude (after_archive E (clock E (ticks s)) m s1) = latitude s /\
          longitude (after_archive E (clock E (ticks s)) m s1) = longitude s /\
          ticks (after_archive E (clock E (ticks s)) m s1) = S (ticks s)) as Hf
    by (rewrite Ad, Ala, Alo, At; auto).
  destruct (savefig_heatmap E m); [|exact Hf].
  destruct (normalize (dsm s)); [|exact Hf].
  destruct (surface_grid m). exact Hf.
Qed.

Lemma serve_dsm (E : collaborators) (n : nat) (s : process) :
  dsm (snd (serve E n s)) = dsm s.
Proof.
  revert s. induction n as [|n IH]; intros s; [reflexivity|].
  cbn [serve].
  pose proof (calculate_shadow_frame E s) as (Hd & _).
  destruct (calculate_shadow E s) as [r s1]. cbn [snd] in Hd.
  specialize (IH s1). destruct (serve E n s1) as [rs s2]. cbn [snd] in *.
  congruence.
Qed.

(** C9. At the start of the process every NaN sample of the loaded height
    field is replaced by zero: the terrain keeps the shape of the file, none
    of its samples is NaN, a sample that was NaN is zero, and a sample that
    was finite is kept.  The requests served afterwards, however many, leave
    the terrain as it is. *)
Theorem terrain_has_no_nan (E : collaborators) (stored : list document)
    (loaded : ndarray) (n : nat) :
  exists s,
    main (Return stored) (Return loaded) = Return s /\
    shape (dsm s) = shape loaded /\
    Forall (fun y => is_nan y = false) (flat (dsm s)) /\
    Forall2 (fun x y => (is_nan x = true -> y = 0%float) /\
                        (is_finite x = true -> y = x))
            (flat loaded) (flat (dsm s)) /\
    dsm (snd (serve E n s)) = dsm s.
Proof.
  eexists. split; [reflexivity|]. cbn [dsm].
  split; [reflexivity|]. split; [|split; [|apply serve_dsm]].
  - unfold np_nan_to_num, np_map. cbn [flat].
    induction (flat loaded) as [|x l IH]; cbn [map]; constructor;
      [apply nan_to_num1_not_nan | exact IH].
  - unfold np_nan_to_num, np_map. cbn [flat].
    induction (flat loaded) as [|x l IH]; cbn [map]; constructor; [|exact IH].
    split; [apply nan_to_num1_nan | apply nan_to_num1_finite].
Qed.

(** ** The shadow engine adapter *)

Lemma calls_since_app (s s' : process) (made : list call) :
  calls s' = (calls s ++ made)%list -> calls_since s s' = made.
Proof. unfold calls_since. intros ->. apply drop_app_length. Qed.


(** C4. When the geometry of the request resolves to [altitude] and
    [azimuth], the adapter builds two arrays of the terrain's shape that
    hold zero in every cell, calls the algorithm once, with the terrain,
    the azimuth, the elevation, the scale 1, the wall heights and the wall
    directions turned to radians (multiplied by pi and divided by 180,
    which on zeros is the product by pi/180 and leaves them zero), and
    returns the first of its five outputs. *)
Theorem adapter_calls_algorithm_on_zero_walls (E : collaborators)
    (t : datetime) (s : process) (altitude azimuth : float) :
  outcome_bind (get_solarposition E t (latitude s) (longitude s)) sun_geometry
    = Return (altitude, azimuth) ->
  let walls := np_zeros (shape0 (dsm s)) (shape1 (dsm s)) in
  let dirwalls := np_zeros (shape0 (dsm s)) (shape1 (dsm s)) in
  let radians := np_div_scalar (np_mul_scalar dirwalls np_pi) 180%float in
  shape walls = shape (dsm s) /\ shape dirwalls = shape (dsm s) /\
  flat walls = repeat 0%float (shape0 (dsm s) * shape1 (dsm s)) /\
  flat dirwalls = repeat 0%float (shape0 (dsm s) * shape1 (dsm s)) /\
  radians = np_mul_scalar dirwalls (np_pi / 180)%float /\
  radians = dirwalls /\
  calls_since s (snd (calculate_shadow_matrix E t s)) =
    [CallSolarposition t (latitude s) (longitude s);
     CallShadowing (dsm s) azimuth altitude 1 walls radians] /\
  fst (calculate_shadow_matrix E t s) =
    outcome_bind
      (shadowingfunction_wallheight_13 E (dsm s) azimuth altitude 1 walls radians)
      unpack5 /\
  forall m o2 o3 o4 o5,
    shadowingfunction_wallheight_13 E (dsm s) azimuth altitude 1 walls radians
      = Return [m; o2; o3; o4; o5] ->
    fst (calculate_shadow_matrix E t s) = Return m.
Proof.
  intros Hgeo walls dirwalls radians.
  assert (Hzero : radians = dirwalls) by apply zero_directions_in_radians.
  assert (Hscaled : radians = np_mul_scalar dirwalls (np_pi / 180)%float).
  { rewrite Hzero. unfold dirwalls, np_mul_scalar, np_map, np_zeros.
    cbn [shape0 shape1 flat]. rewrite map_repeat_const. reflexivity. }
  repeat (split; [reflexivity || exact Hzero || exact Hscaled|]).
  rewrite calculate_shadow_matrix_eq, Hgeo. cbv zeta. cbn [fst snd].
  split; [|split].
  - apply calls_since_app. cbn [calls record_call].
    rewrite <- app_assoc. reflexivity.
  - reflexivity.
  - intros m o2 o3 o4 o5 H. unfold radians, dirwalls, walls in H.
    rewrite H. reflexivity.
Qed.

(** C5. If the algorithm returns a first output of the shape of its height
    field, then, after any number of requests served on a terrain of [R]
    rows and [C] columns, the matrix that the computation returns has [R]
    rows and [C] columns; and it does return one whenever the geometry
    resolves and the algorithm gives its five outputs. *)
Theorem shadow_matrix_has_terrain_shape (E : collaborators) (s : process)
    (R C n : nat) (t : datetime) :
  (forall a azimuth altitude scale walls dirwalls outs m,
      shadowingfunction_wallheight_13 E a azimuth altitude scale walls dirwalls
        = Return outs ->
      head outs = Some m -> shape m = shape a) ->
  shape (dsm s) = (R, C) ->
  let sn := snd (serve E n s) in
  (forall m s1, calculate_shadow_matrix E t sn = (Return m, s1) ->
                shape m = (R, C)) /\
  (forall altitude azimuth m o2 o3 o4 o5,
      outcome_bind (get_solarposition E t (latitude sn) (longitude sn))
                   sun_geometry = Return (altitude, azimuth) ->
      shadowingfunction_wallheight_13 E (dsm sn) azimuth altitude 1
        (np_zeros R C)
        (np_div_scalar (np_mul_scalar (np_zeros R C) np_pi) 180%float)
        = Return [m; o2; o3; o4; o5] ->
      fst (calculate_shadow_matrix E t sn) = Return m /\ shape m = (R, C)).
Proof.
  intros Hshape Hdsm sn.
  assert (Hsn : dsm sn = dsm s) by apply serve_dsm.
  assert (H0 : shape0 (dsm sn) = R /\ shape1 (dsm sn) = C).
  { rewrite Hsn. unfold shape in Hdsm. now inversion Hdsm. }
  destruct H0 as [H0 H1].
  split.
  - intros m s1. rewrite calculate_shadow_matrix_eq. cbv zeta.
    destruct (outcome_bind _ sun_geometry) as [[alt az]|e]; [|discriminate].
    destruct (shadowingfunction_wallheight_13 E _ _ _ _ _ _) as [outs|e] eqn:Hs;
      [|discriminate].
    cbn [outcome_bind]. intros [= Hu _].
    rewrite <- Hdsm, <- Hsn. apply (Hshape _ _ _ _ _ _ _ _ Hs).
    destruct outs as [|m0 [|? [|? [|? [|? [|? ?]]]]]]; try discriminate Hu.
    cbn in Hu. injection Hu as ->. reflexivity.
  - intros alt az m o2 o3 o4 o5 Hgeo Hs.
    rewrite calculate_shadow_matrix_eq, Hgeo. cbv zeta. cbn [fst].
    rewrite H0, H1, Hs. split; [reflexivity|].
    rewrite <- Hdsm, <- Hsn. apply (Hshape _ _ _ _ _ _ _ _ Hs). reflexivity.
Qed.

(** ** Failures before the archival *)



Lemma no_archival_call_in_computation (E : collaborators) (s : process)
    (o : outcome ndarray) (s1 : process) :
  calculate_shadow_matrix E (clock E (ticks s)) (record_call CallNow (tick s))
    = (o, s1) ->
  exists made, calls s1 = (calls s ++ made)%list /\
               existsb is_archival_call made = false /\
               shadow_matrices s1 = shadow_matrices s /\ logged s1 = logged s.
Proof.
  rewrite calculate_shadow_matrix_eq. cbv zeta.
  destruct (outcome_bind _ sun_geometry) as [[alt az]|e]; intros [= _ <-];
    cbn [calls record_call tick shadow_matrices logged];
    rewrite <- ?app_assoc; eexists; (split; [reflexivity|]); cbn; auto.
Qed.

(** C2. A request goes one of two ways.  Either the computation of the
    shadow matrix raises (in the calculator, in the reading of its frame,
    in the algorithm or in the unpacking of its outputs): then the handler
    raises the same exception, no response is made, the store and the log
    are as before and none of the calls made is a call of the archival.  Or
    the matrix is computed, and the first call of the archival, the
    serialization of that matrix, comes after all the calls of the
    computation. *)
Theorem archival_only_after_computation (E : collaborators) (s : process) :
  let t := clock E (ticks s) in
  let s0 := record_call CallNow (tick s) in
  (exists e s1,
      calculate_shadow_matrix E t s0 = (Raise e, s1) /\
      calculate_shadow E s = (Raise e, s1) /\
      succeeded (fst (calculate_shadow E s)) = false /\
      shadow_matrices s1 = shadow_matrices s /\
      logged s1 = logged s /\
      existsb is_archival_call (calls_since s s1) = false) \/
  (exists m s1 rest,
      calculate_shadow_matrix E t s0 = (Return m, s1) /\
      existsb is_archival_call (calls_since s s1) = false /\
      shadow_matrices s1 = shadow_matrices s /\
      calls_since s (snd (calculate_shadow E s))
        = (calls_since s s1 ++ CallPickleDumps m :: rest)%list).
Proof.
  intros t s0.
  destruct (calculate_shadow_matrix E t s0) as [[m|e] s1] eqn:Hm;
    destruct (no_archival_call_in_computation E s _ s1 Hm)
      as (made & Hcalls & Hnone & Hstore & Hlog);
    pose proof (calls_since_app s s1 made Hcalls) as Hsince.
  - right. exists m, s1.
    rewrite calculate_shadow_eq. cbv zeta. fold t. fold s0. rewrite Hm.
    rewrite Hsince.
    assert (Ha : exists rest,
               calls (after_archive E t m s1)
               = (calls s ++ made ++ CallPickleDumps m :: rest)%list).
    { unfold after_archive.
      destruct (pickle_dumps E m) as [b|e];
        [destruct (gzip_compress E b) as [z|e];
         [destruct (mongo_insert E _ _) as [u|e]|]|];
        cbn [calls record_call record_log store_document]; rewrite Hcalls;
        rewrite <- ?app_assoc; cbn [app]; eexists; reflexivity. }
    destruct Ha as [rest Ha].
    destruct (savefig_heatmap E m) as [png1|e];
      [destruct (normalize (dsm s)) as [nz|e];
       [destruct (surface_grid m) as [X Y]|]|];
      eexists; (split; [reflexivity|]); (split; [exact Hnone|]);
      (split; [exact Hstore|]); apply calls_since_app;
      cbn [snd calls record_call]; rewrite Ha; rewrite <- ?app_assoc;
      cbn [app]; reflexivity.
  - left. exists e, s1.
    assert (Hc : calculate_shadow E s = (Raise e, s1)).
    { rewrite calculate_shadow_eq. cbv zeta. fold t. fold s0. rewrite Hm. reflexivity. }
    rewrite Hc, Hsince. auto 10.
Qed.

(** ** The archival *)

(** The body of the [try] statement changes the store only when all of it
    succeeds. *)
Lemma archive_body_raises (E : collaborators) (t : datetime) (m : ndarray)
    (s : process) (e : exn) :
  fst (archive_body E t m s) = Raise e ->
  shadow_matrices (snd (archive_body E t m s)) = shadow_matrices s /\
  (pickle_dumps E m = Raise e \/
   (exists b, pickle_dumps E m = Return b /\ gzip_compress E b = Raise e) \/
   (exists b z, pickle_dumps E m = Return b /\ gzip_compress E b = Return z /\
                mongo_insert E (shadow_matrices s) (archived_document t z) = Raise e)).
Proof.
  unfold archive_body, save_shadow_matrix, insert_one, logging_info.
  unfold mbind, py_mbind, py_bind. rewrite compress_data_eq.
  destruct (pickle_dumps E m) as [b|e1]; cbn.
  - destruct (gzip_compress E b) as [z|e2] eqn:Hz; cbn.
    + fold (archived_document t z).
      destruct (mongo_insert E (shadow_matrices s) _) as [u|e3] eqn:Hi; cbn.
      * discriminate.
      * intros [= ->]. split; [reflexivity|]. right. right. eauto.
    + intros [= ->]. split; [reflexivity|]. right. left. eauto.
  - intros [= ->]. auto.
Qed.

(** What the handler answers does not depend on the archival. *)
Lemma response_ignores_archival (E E' : collaborators) (s : process) :
  same_outside_archival E E' ->
  fst (calculate_shadow E s) = fst (calculate_shadow E' s).
Proof.
  intros (Hclock & Hsolar & Hshadow & Hheat & Hvir & Hsurf).
  rewrite !calculate_shadow_eq. cbv zeta.
  rewrite !calculate_shadow_matrix_eq. cbv zeta.
  unfold viridis_rgb.
  rewrite Hclock, Hsolar, Hshadow, Hheat, Hvir, Hsurf.
  cbn [latitude longitude dsm record_call tick].
  destruct (outcome_bind _ sun_geometry) as [[alt az]|e]; [|reflexivity].
  destruct (outcome_bind _ unpack5) as [m|e]; [|reflexivity].
  destruct (savefig_heatmap E' m) as [png1|e]; [|reflexivity].
  destruct (normalize (dsm s)) as [nz|e]; [|reflexivity].
  destruct (surface_grid m) as [X Y]. reflexivity.
Qed.

(** C1. When the matrix has been computed and the archival raises, in the
    serialization, in the compression or in the insertion, the exception is
    caught: the archival returns, its last log record is the error with the
    text of the exception, and the store is as it was.  The outcome of the
    request (the response with its time stamp and its two images, or the
    exception of a renderer) is the same as in any deployment that differs
    in the archival only, one whose archival succeeds included. *)
Theorem archival_failure_is_swallowed (E E' : collaborators) (s : process)
    (m : ndarray) (s1 : process) (e : exn) :
  let t := clock E (ticks s) in
  same_outside_archival E E' ->
  calculate_shadow_matrix E t (record_call CallNow (tick s)) = (Return m, s1) ->
  fst (archive_body E t m s1) = Raise e ->
  archive E t m s1
    = (Return tt, record_log ERROR (failed_to_save e) (snd (archive_body E t m s1))) /\
  last (logged (snd (archive E t m s1))) = Some (ERROR, failed_to_save e) /\
  shadow_matrices (snd (archive E t m s1)) = shadow_matrices s /\
  fst (calculate_shadow E s) = fst (calculate_shadow E' s).
Proof.
  intros t Hsame Hm Hbody.
  assert (Ha : archive E t m s1
               = (Return tt, record_log ERROR (failed_to_save e)
                                        (snd (archive_body E t m s1)))).
  { unfold archive, try_except, logging_error.
    destruct (archive_body E t m s1) as [[u|e'] s2]; cbn [fst snd] in *;
      [discriminate Hbody|].
    injection Hbody as ->. reflexivity. }
  split; [exact Ha|]. rewrite Ha. cbn [snd logged record_log shadow_matrices].
  split; [apply last_snoc|].
  split; [|apply response_ignores_archival, Hsame].
  destruct (archive_body_raises E t m s1 e Hbody) as [-> _].
  now apply calculate_shadow_matrix_frame in Hm.
Qed.

(** ** The response *)

Lemma success_response_fields (t : datetime) (heatmap surface_plot : string) :
  let r := success_response t heatmap surface_plot in
  status r = 200 /\
  headers r !! "Content-Type" = Some "application/json" /\
  dom (json r) = ({[ "timestamp"; "heatmap"; "surface_plot" ]} : gset string) /\
  json r !! "timestamp" = Some (strftime t) /\
  json r !! "heatmap" = Some heatmap /\
  json r !! "surface_plot" = Some surface_plot.
Proof.
  cbv zeta. unfold success_response, set_header, jsonify. cbn [status headers json].
  split; [reflexivity|]. split; [apply lookup_insert_eq|].
  split; [rewrite !dom_insert_L, dom_empty_L; set_solver|].
  split; [apply lookup_insert_eq|].
  split.
  - rewrite lookup_insert_ne by discriminate. apply lookup_insert_eq.
  - rewrite !lookup_insert_ne by discriminate. apply lookup_insert_eq.
Qed.

(** What a successful request has gone through. *)
Lemma calculate_shadow_success (E : collaborators) (s : process) (r : response)
    (s' : process) :
  calculate_shadow E s = (Return r, s') ->
  let t := clock E (ticks s) in
  exists m s1 nz png1 png2,
    calculate_shadow_matrix E t (record_call CallNow (tick s)) = (Return m, s1) /\
    normalize (dsm s) = Return nz /\
    savefig_heatmap E m = Return png1 /\
    savefig_surface E (fst (surface_grid m)) (snd (surface_grid m)) m
                    (viridis_rgb E nz) = Return png2 /\
    r = success_response t (b64encode png1) (b64encode png2) /\
    s' = record_call (CallPlotSurface (fst (surface_grid m)) (snd (surface_grid m))
                                      m (viridis_rgb E nz))
           (record_call (CallHeatmap m) (after_archive E t m s1)).
Proof.
  rewrite calculate_shadow_eq. cbv zeta.
  destruct (calculate_shadow_matrix E _ _) as [[m|e] s1] eqn:Hm; [|discriminate].
  destruct (savefig_heatmap E m) as [png1|e] eqn:H1; [|discriminate].
  destruct (normalize (dsm s)) as [nz|e] eqn:Hn; [|discriminate].
  destruct (surface_grid m) as [X Y] eqn:Hg.
  destruct (savefig_surface E X Y m _) as [png2|e] eqn:H2; [|discriminate].
  cbn [outcome_map outcome_bind]. intros [= <- <-].
  exists m, s1, nz, png1, png2. rewrite Hg. cbn [fst snd].
  repeat (split; [assumption || reflexivity|]). reflexivity.
Qed.

(** C3. The response of a successful request has status 200 and the
    content type [application/json]; its JSON object has the three keys
    [timestamp], [heatmap] and [surface_plot] and no other.  The time stamp
    is the clock reading of the request, a reading of a year of four
    digits, written [YYYY-MM-DD HH:MM:SS]: the digits of the text write the
    year, the month, the day, the hour, the minute and the second of the
    reading.  The two images are the base64 text of the PNG bytes that the
    two renderings of the computed matrix saved, and decode to these
    bytes. *)
Theorem success_response_shape (E : collaborators) (s : process) (r : response)
    (s' : process) :
  let t := clock E (ticks s) in
  calculate_shadow E s = (Return r, s') ->
  valid_datetime t -> 1000 <= year t ->
  status r = 200 /\
  headers r !! "Content-Type" = Some "application/json" /\
  dom (json r) = ({[ "timestamp"; "heatmap"; "surface_plot" ]} : gset string) /\
  (exists ts,
     json r !! "timestamp" = Some ts /\ ts = strftime t /\
     is_timestamp_format ts = true /\
     timestamp_fields ts
       = Some (year t, month t, day t, hour t, minute t, second t)) /\
  exists m X Y img png1 png2,
    fst (calculate_shadow_matrix E t (record_call CallNow (tick s))) = Return m /\
    savefig_heatmap E m = Return png1 /\
    savefig_surface E X Y m img = Return png2 /\
    json r !! "heatmap" = Some (b64encode png1) /\
    json r !! "surface_plot" = Some (b64encode png2) /\
    b64decode (b64encode png1) = Some png1 /\
    b64decode (b64encode png2) = Some png2.
Proof.
  intros t Hrun Hvalid Hyear.
  destruct (calculate_shadow_success E s r s' Hrun)
    as (m & s1 & nz & png1 & png2 & Hm & _ & H1 & H2 & -> & _).
  fold t in Hm |- *.
  destruct (success_response_fields t (b64encode png1) (b64encode png2))
    as (Hst & Hct & Hdom & Hts & Hh & Hsp).
  destruct (strftime_format t Hvalid Hyear) as (Hformat & Hfields).
  repeat (split; [assumption|]).
  split; [exists (strftime t); auto|].
  exists m, (fst (surface_grid m)), (snd (surface_grid m)), (viridis_rgb E nz),
    png1, png2.
  rewrite Hm. cbn [fst]. auto 10 using b64decode_b64encode.
Qed.

(** ** One time stamp and one matrix *)

Lemma after_archive_calls (E : collaborators) (t : datetime) (m : ndarray)
    (s : process) :
  exists archival,
    calls (after_archive E t m s)
      = (calls s ++ CallPickleDumps m :: archival)%list /\
    (archival = [] \/
     (exists b, pickle_dumps E m = Return b /\ archival = [CallGzipCompress b]) \/
     (exists b z, pickle_dumps E m = Return b /\ gzip_compress E b = Return z /\
        archival = [CallGzipCompress b;
                    CallInsertOne "shadow_matrices" (archived_document t z)])) /\
    (shadow_matrices (after_archive E t m s) = shadow_matrices s \/
     exists b z, pickle_dumps E m = Return b /\ gzip_compress E b = Return z /\
       shadow_matrices (after_archive E t m s)
         = (shadow_matrices s ++ [archived_document t z])%list).
Proof.
  unfold after_archive.
  destruct (pickle_dumps E m) as [b|e].
  - destruct (gzip_compress E b) as [z|e] eqn:Hz.
    + destruct (mongo_insert E _ _) as [u|e];
        cbn [calls record_call record_log store_document shadow_matrices];
        rewrite <- ?app_assoc; cbn [app]; eexists; (split; [reflexivity|]).
      * split; [right; right; exists b, z; auto|].
        right. exists b, z. auto.
      * split; [right; right; exists b, z; auto|]. left. reflexivity.
    + cbn [calls record_call record_log store_document shadow_matrices].
      rewrite <- ?app_assoc. cbn [app]. eexists. split; [reflexivity|].
      split; [right; left; exists b; auto|]. left. reflexivity.
  - cbn [calls record_call record_log store_document shadow_matrices].
    eexists. split; [reflexivity|]. auto.
Qed.

Lemma calculate_shadow_matrix_returns (E : collaborators) (t : datetime)
    (s : process) (m : ndarray) (s1 : process) :
  calculate_shadow_matrix E t s = (Return m, s1) ->
  exists altitude azimuth,
    let walls := np_zeros (shape0 (dsm s)) (shape1 (dsm s)) in
    let radians := np_div_scalar (np_mul_scalar walls np_pi) 180%float in
    s1 = record_call (CallShadowing (dsm s) azimuth altitude 1 walls radians)
           (record_call (CallSolarposition t (latitude s) (longitude s)) s).
Proof.
  rewrite calculate_shadow_matrix_eq. cbv zeta.
  destruct (outcome_bind _ sun_geometry) as [[alt az]|e]; [|discriminate].
  intros [= _ <-]. exists alt, az. reflexivity.
Qed.

(** The archival in closed form: the calls it makes and what it adds to
    the store, by the outcomes of the serializer, the compressor and the
    store. *)
Lemma after_archive_trace (E : collaborators) (t : datetime) (m : ndarray)
    (s : process) :
  calls (after_archive E t m s)
    = (calls s ++ CallPickleDumps m ::
       match pickle_dumps E m with
       | Raise _ => []
       | Return b =>
           CallGzipCompress b ::
           match gzip_compress E b with
           | Raise _ => []
           | Return z => [CallInsertOne "shadow_matrices" (archived_document t z)]
           end
       end)%list /\
  shadow_matrices (after_archive E t m s)
    = (shadow_matrices s ++
       match pickle_dumps E m with
       | Raise _ => []
       | Return b =>
           match gzip_compress E b with
           | Raise _ => []
           | Return z =>
               match mongo_insert E (shadow_matrices s) (archived_document t z) with
               | Raise _ => []
               | Return _ => [archived_document t z]
               end
           end
       end)%list.
Proof.
  unfold after_archive.
  destruct (pickle_dumps E m) as [b|e].
  - destruct (gzip_compress E b) as [z|e].
    + destruct (mongo_insert E _ _) as [u|e];
        cbn [calls record_call record_log store_document shadow_matrices];
        rewrite <- ?app_assoc, ?app_nil_r; split; reflexivity.
    + cbn [calls record_call record_log store_document shadow_matrices].
      rewrite <- ?app_assoc, ?app_nil_r. split; reflexivity.
  - cbn [calls record_call record_log store_document shadow_matrices].
    rewrite ?app_nil_r. split; reflexivity.
Qed.

(** C10. A successful request reads the clock once and calls the calculator
    and the algorithm once.  The reading [t] is the time stamp given to the
    calculator, put in the archived document and formatted in the response;
    the matrix [m] that the computation returned is the one handed to the
    serializer, to the heatmap and to the surface plot, in this order, and
    the two images of the response are what the renderers saved for [m].
    The archival works on the bytes that the serializer returns for [m]:
    the compressor is called on them when the serializer returned, the
    store is handed the document of [t] and of the compressed bytes when
    the compressor returned, and the collection gains exactly this document
    when the store accepted it, and nothing otherwise.  The renderers
    receive [m] itself whatever the archival did. *)
Theorem one_timestamp_one_matrix (E : collaborators) (s : process)
    (r : response) (s' : process) :
  let t := clock E (ticks s) in
  calculate_shadow E s = (Return r, s') ->
  exists m altitude azimuth X Y img png1 png2,
    ticks s' = S (ticks s) /\
    fst (calculate_shadow_matrix E t (record_call CallNow (tick s))) = Return m /\
    calls_since s s' =
      ([CallNow;
        CallSolarposition t (latitude s) (longitude s);
        CallShadowing (dsm s) azimuth altitude 1
          (np_zeros (shape0 (dsm s)) (shape1 (dsm s)))
          (np_div_scalar
             (np_mul_scalar (np_zeros (shape0 (dsm s)) (shape1 (dsm s))) np_pi)
             180%float);
        CallPickleDumps m]
       ++ match pickle_dumps E m with
          | Raise _ => []
          | Return b =>
              CallGzipCompress b ::
              match gzip_compress E b with
              | Raise _ => []
              | Return z =>
                  [CallInsertOne "shadow_matrices" (archived_document t z)]
              end
          end
       ++ [CallHeatmap m; CallPlotSurface X Y m img])%list /\
    shadow_matrices s' =
      (shadow_matrices s ++
       match pickle_dumps E m with
       | Raise _ => []
       | Return b =>
           match gzip_compress E b with
           | Raise _ => []
           | Return z =>
               match mongo_insert E (shadow_matrices s) (archived_document t z) with
               | Raise _ => []
               | Return _ => [archived_document t z]
               end
           end
       end)%list /\
    savefig_heatmap E m = Return png1 /\
    savefig_surface E X Y m img = Return png2 /\
    json r !! "heatmap" = Some (b64encode png1) /\
    json r !! "surface_plot" = Some (b64encode png2) /\
    json r !! "timestamp" = Some (strftime t).
Proof.
  intros t Hrun.
  destruct (calculate_shadow_success E s r s' Hrun)
    as (m & s1 & nz & png1 & png2 & Hm & _ & H1 & H2 & -> & ->).
  fold t in Hm |- *.
  pose proof (calculate_shadow_frame E s) as (_ & _ & _ & Hticks).
  rewrite Hrun in Hticks. cbn [snd] in Hticks.
  destruct (calculate_shadow_matrix_returns E t _ m s1 Hm) as (alt & az & Hs1).
  cbv zeta in Hs1. cbn [dsm latitude longitude record_call tick] in Hs1.
  destruct (after_archive_trace E t m s1) as (Hcalls & Hstore).
  assert (Hstore1 : shadow_matrices s1 = shadow_matrices s)
    by (rewrite Hs1; reflexivity).
  rewrite Hstore1 in Hstore.
  destruct (success_response_fields t (b64encode png1) (b64encode png2))
    as (_ & _ & _ & Hts & Hh & Hsp).
  exists m, alt, az, (fst (surface_grid m)), (snd (surface_grid m)),
    (viridis_rgb E nz), png1, png2.
  split; [exact Hticks|]. split; [rewrite Hm; reflexivity|].
  split.
  { apply calls_since_app. cbn [calls record_call]. rewrite Hcalls, Hs1.
    cbn [calls record_call tick]. rewrite <- !app_assoc. reflexivity. }
  split; [exact Hstore|]. auto 10.
Qed.

(** ** The archived payload *)

Lemma archived_document_fields (t : datetime) (z : bytes) :
  archived_document t z !! "shadow_matrix" = Some (BsonBinary z) /\
  archived_document t z !! "timestamp" = Some (BsonDatetime t) /\
  dom (archived_document t z) = ({[ "timestamp"; "shadow_matrix" ]} : gset string).
Proof.
  unfold archived_document. split; [|split].
  - rewrite lookup_insert_ne by discriminate. apply lookup_insert_eq.
  - apply lookup_insert_eq.
  - rewrite !dom_insert_L, dom_empty_L. set_solver.
Qed.

(** C6. Let the compressor and the serializer have inverses, as gzip and
    pickle do: whatever [gzip.compress] returns decompresses to its input
    and whatever [pickle.dumps] returns loads as the object it was given.
    Then the payload that [compress_data] returns for a matrix is
    decompressed and deserialized to this matrix, sample by sample; and the
    document that the archival hands to the collection [shadow_matrices]
    holds this payload under [shadow_matrix] and the time stamp of the
    request under [timestamp], and is appended to the collection when the
    store accepts it. *)
Theorem archived_payload_restores_matrix (E : collaborators)
    (gzip_decompress : bytes -> outcome bytes)
    (pickle_loads : bytes -> outcome ndarray)
    (t : datetime) (m : ndarray) (s : process) (z : bytes) (s1 : process) :
  (forall b c, gzip_compress E b = Return c -> gzip_decompress c = Return b) ->
  (forall a b, pickle_dumps E a = Return b -> pickle_loads b = Return a) ->
  compress_data E m s = (Return z, s1) ->
  outcome_bind (gzip_decompress z) pickle_loads = Return m /\
  archived_document t z !! "shadow_matrix" = Some (BsonBinary z) /\
  archived_document t z !! "timestamp" = Some (BsonDatetime t) /\
  dom (archived_document t z) = ({[ "timestamp"; "shadow_matrix" ]} : gset string) /\
  last (calls (snd (archive E t m s)))
    = Some (CallInsertOne "shadow_matrices" (archived_document t z)) /\
  (forall u, mongo_insert E (shadow_matrices s) (archived_document t z) = Return u ->
             shadow_matrices (snd (archive E t m s))
             = (shadow_matrices s ++ [archived_document t z])%list).
Proof.
  intros Hgzip Hpickle. rewrite compress_data_eq.
  destruct (pickle_dumps E m) as [b|e] eqn:Hb; [|discriminate].
  intros [= Hz _].
  split; [rewrite (Hgzip b z Hz); cbn [outcome_bind]; apply (Hpickle m b Hb)|].
  destruct (archived_document_fields t z) as (H1 & H2 & H3).
  repeat (split; [assumption|]).
  rewrite archive_eq. cbn [snd]. unfold after_archive. rewrite Hb, Hz.
  split.
  - destruct (mongo_insert E _ _); cbn [calls record_call record_log store_document];
      apply last_snoc.
  - intros u ->. reflexivity.
Qed.

(** The toy codecs of the small deployment can be undone. *)
Lemma demo_sample_code (x : float) (c : byte) :
  Demo.sample_code x = Some c -> Demo.sample_of_code c = Some x.
Proof.
  unfold Demo.sample_code.
  destruct (Leibniz.eqb x 0) eqn:H0.
  - intros [= <-]. apply FloatAxioms.Leibniz.eqb_spec in H0 as ->. reflexivity.
  - destruct (Leibniz.eqb x 1) eqn:H1; [|discriminate].
    intros [= <-]. apply FloatAxioms.Leibniz.eqb_spec in H1 as ->. reflexivity.
Qed.

Lemma demo_samples (l : list float) (body : bytes) :
  mapM Demo.sample_code l = Some body -> mapM Demo.sample_of_code body = Some l.
Proof.
  rewrite !mapM_Some. intros H.
  induction H as [|x c l body Hx _ IH]; constructor; [|exact IH].
  apply demo_sample_code, Hx.
Qed.

Lemma demo_loads_dumps (a : ndarray) (b : bytes) :
  Demo.dumps a = Return b -> Demo.loads b = Return a.
Proof.
  unfold Demo.dumps.
  destruct (Byte.of_N (N.of_nat (shape0 a))) as [r|] eqn:Hr; [|discriminate].
  destruct (Byte.of_N (N.of_nat (shape1 a))) as [c|] eqn:Hc; [|discriminate].
  destruct (mapM Demo.sample_code (flat a)) as [body|] eqn:Hbody; [|discriminate].
  intros [= <-]. unfold Demo.loads.
  rewrite (demo_samples _ _ Hbody).
  apply Byte.to_of_N in Hr, Hc. rewrite Hr, Hc, !Nat2N.id.
  destruct a; reflexivity.
Qed.

Lemma demo_decompress_compress (b c : bytes) :
  Demo.compress b = Return c -> Demo.decompress c = Return b.
Proof. intros [= <-]. reflexivity. Qed.

(** ** The degenerate terrain *)

Example normalize_relief :
  normalize (Ndarray 2 2 [0; 1; 2; 4]%float)
  = Return (Ndarray 2 2 [0; 0.25; 0.5; 1]%float).
Proof. reflexivity. Qed.

Example surface_grid_2_by_3 :
  surface_grid (np_zeros 2 3)
  = (Ndarray 2 3 [0; 1; 2; 0; 1; 2]%float, Ndarray 2 3 [0; 0; 0; 1; 1; 1]%float).
Proof. reflexivity. Qed.

(** Line 75 on a terrain whose samples are all equal: the minimum and the
    maximum are that sample, every difference is zero and every quotient is
    NaN; nothing is raised. *)
Lemma normalize_degenerate (a : ndarray) (v : float) (n : nat) :
  flat a = repeat v (S n) ->
  normalize a = Return (Ndarray (shape0 a) (shape1 a) (repeat nan (S n))).
Proof.
  intros H. unfold normalize, np_min, np_max. rewrite H. cbn [repeat].
  rewrite fold_minimum_repeat, fold_maximum_repeat. cbn [outcome_bind].
  unfold np_div_scalar, np_sub_scalar, np_map. cbn [shape0 shape1 flat].
  rewrite H, !map_repeat_const, normalize_equal_sample_eq. reflexivity.
Qed.

(** C8, as the code has it.  On a terrain whose samples are all equal the
    normalization divides zero by zero, which in the arithmetic of the
    arrays raises nothing and gives NaN for every sample.  The surface plot
    is drawn with the colour that the colormap has for NaN, and its outcome
    is the outcome of the plotting calls; the request succeeds whenever
    the computation, the heatmap and these calls succeed. *)
Theorem degenerate_terrain_is_rendered (E : collaborators) (s : process)
    (v : float) (n : nat) (m : ndarray) :
  flat (dsm s) = repeat v (S n) ->
  let t := clock E (ticks s) in
  let nans := Ndarray (shape0 (dsm s)) (shape1 (dsm s)) (repeat nan (S n)) in
  let X := fst (surface_grid m) in
  let Y := snd (surface_grid m) in
  normalize (dsm s) = Return nans /\
  pixels (viridis_rgb E nans)
    = repeat (let '(r, g, b, _) := cm_viridis E nan in (r, g, b)) (S n) /\
  generate_surface_plot E m s
    = (outcome_map b64encode (savefig_surface E X Y m (viridis_rgb E nans)),
       record_call (CallPlotSurface X Y m (viridis_rgb E nans)) s) /\
  forall s1 png1 png2,
    calculate_shadow_matrix E t (record_call CallNow (tick s)) = (Return m, s1) ->
    savefig_heatmap E m = Return png1 ->
    savefig_surface E X Y m (viridis_rgb E nans) = Return png2 ->
    fst (calculate_shadow E s)
      = Return (success_response t (b64encode png1) (b64encode png2)).
Proof.
  intros H t nans X Y.
  pose proof (normalize_degenerate (dsm s) v n H) as Hn. fold nans in Hn.
  split; [exact Hn|]. split; [apply map_repeat_const|]. split.
  - rewrite generate_surface_plot_eq, Hn. unfold X, Y.
    destruct (surface_grid m); reflexivity.
  - intros s1 png1 png2 Hm H1 H2.
    rewrite calculate_shadow_eq. cbv zeta. fold t. rewrite Hm, H1, Hn.
    unfold X, Y in H2. destruct (surface_grid m) as [X0 Y0]. cbn [fst snd] in H2.
    rewrite H2. reflexivity.
Qed.

(** ** The small deployment at work *)

Lemma demo_shadowing_keeps_shape (a : ndarray) (azimuth altitude : float)
    (scale : Z) (walls dirwalls : ndarray) (outs : list ndarray) (m : ndarray) :
  Demo.shadowing a azimuth altitude scale walls dirwalls = Return outs ->
  head outs = Some m -> shape m = shape a.
Proof. intros [= <-] [= <-]. reflexivity. Qed.

Lemma noon_is_valid (n : nat) : n < 60 -> valid_datetime (Demo.noon n).
Proof.
  intros Hn. unfold valid_datetime, Demo.noon.
  cbn [year month day hour minute second microsecond]. lia.
Qed.

(** The store is out of reach: the error is logged, the response is the one
    of the deployment whose store works. *)
Lemma archival_failure_is_swallowed_witness :
  same_outside_archival Demo.outage Demo.demo /\
  fst (archive_body Demo.outage (Demo.noon 0) (np_zeros 3 3) Demo.computed)
    = Raise Demo.store_down /\
  last (logged (snd (archive Demo.outage (Demo.noon 0) (np_zeros 3 3) Demo.computed)))
    = Some (ERROR, failed_to_save Demo.store_down) /\
  fst (calculate_shadow Demo.outage Demo.started)
    = fst (calculate_shadow Demo.demo Demo.started).
Proof.
  assert (H1 : same_outside_archival Demo.outage Demo.demo)
    by (repeat split; reflexivity).
  assert (H2 : calculate_shadow_matrix Demo.outage (clock Demo.outage (ticks Demo.started))
                 (record_call CallNow (tick Demo.started))
               = (Return (np_zeros 3 3), Demo.computed))
    by (vm_compute; reflexivity).
  assert (H3 : fst (archive_body Demo.outage (clock Demo.outage (ticks Demo.started))
                                 (np_zeros 3 3) Demo.computed)
               = Raise Demo.store_down)
    by (vm_compute; reflexivity).
  destruct (archival_failure_is_swallowed Demo.outage Demo.demo Demo.started
              (np_zeros 3 3) Demo.computed Demo.store_down H1 H2 H3)
    as (_ & Hlog & _ & Hsame).
  split; [exact H1|]. split; [exact H3|]. split; [exact Hlog | exact Hsame].
Defined.

Lemma success_response_shape_witness :
  calculate_shadow Demo.demo Demo.started
    = (Return Demo.first_response, snd (calculate_shadow Demo.demo Demo.started)) /\
  valid_datetime (Demo.noon 0) /\
  dom (json Demo.first_response)
    = ({[ "timestamp"; "heatmap"; "surface_plot" ]} : gset string) /\
  json Demo.first_response !! "timestamp" = Some "2024-03-21 12:00:00" /\
  timestamp_fields "2024-03-21 12:00:00" = Some (2024, 3, 21, 12, 0, 0).
Proof.
  assert (H1 : calculate_shadow Demo.demo Demo.started
               = (Return Demo.first_response,
                  snd (calculate_shadow Demo.demo Demo.started)))
    by (vm_compute; reflexivity).
  assert (H2 : valid_datetime (Demo.noon 0)) by (apply noon_is_valid; lia).
  assert (H3 : 1000 <= year (Demo.noon 0)) by (cbn [year Demo.noon]; lia).
  destruct (success_response_shape Demo.demo Demo.started Demo.first_response
              _ H1 H2 H3) as (_ & _ & Hdom & (ts & Hts & -> & _ & Hfields) & _).
  split; [exact H1|]. split; [exact H2|]. split; [exact Hdom|].
  split; [exact Hts | exact Hfields].
Defined.

Lemma adapter_calls_algorithm_witness :
  outcome_bind (get_solarposition Demo.demo (Demo.noon 0)
                  (latitude Demo.started) (longitude Demo.started))
               sun_geometry = Return (45%float, 180%float) /\
  calls_since Demo.started
              (snd (calculate_shadow_matrix Demo.demo (Demo.noon 0) Demo.started))
    = [CallSolarposition (Demo.noon 0) (latitude Demo.started) (longitude Demo.started);
       CallShadowing (dsm Demo.started) 180 45 1 (np_zeros 3 3) (np_zeros 3 3)] /\
  fst (calculate_shadow_matrix Demo.demo (Demo.noon 0) Demo.started)
    = Return (np_zeros 3 3).
Proof.
  assert (H : outcome_bind (get_solarposition Demo.demo (Demo.noon 0)
                              (latitude Demo.started) (longitude Demo.started))
                           sun_geometry = Return (45%float, 180%float))
    by (vm_compute; reflexivity).
  destruct (adapter_calls_algorithm_on_zero_walls Demo.demo (Demo.noon 0)
              Demo.started 45 180 H) as (_ & _ & _ & _ & _ & _ & Hc & _ & Hf).
  split; [exact H|]. split; [exact Hc|].
  apply (Hf _ (np_zeros 3 3) (np_zeros 3 3) (np_zeros 3 3) (np_zeros 3 3)).
  reflexivity.
Defined.

Lemma shadow_matrix_has_terrain_shape_witness :
  shape (dsm Demo.started) = (3, 3) /\
  fst (calculate_shadow_matrix Demo.demo (Demo.noon 2)
         (snd (serve Demo.demo 2 Demo.started))) = Return (np_zeros 3 3) /\
  shape (np_zeros 3 3) = (3, 3).
Proof.
  assert (H : shape (dsm Demo.started) = (3, 3)) by reflexivity.
  split; [exact H|].
  destruct (shadow_matrix_has_terrain_shape Demo.demo Demo.started 3 3 2
              (Demo.noon 2) demo_shadowing_keeps_shape H) as [_ Hs].
  apply (Hs 45%float 180%float (np_zeros 3 3) (np_zeros 3 3) (np_zeros 3 3)
            (np_zeros 3 3) (np_zeros 3 3)); vm_compute; reflexivity.
Defined.

Lemma archived_payload_restores_matrix_witness :
  fst (compress_data Demo.demo (np_zeros 3 3) Demo.computed)
    = Return [x1f; x8b; x03; x03; x00; x00; x00; x00; x00; x00; x00; x00; x00] /\
  outcome_bind
    (Demo.decompress [x1f; x8b; x03; x03; x00; x00; x00; x00; x00; x00; x00; x00; x00])
    Demo.loads = Return (np_zeros 3 3) /\
  shadow_matrices (snd (archive Demo.demo (Demo.noon 0) (np_zeros 3 3) Demo.computed))
    = [archived_document (Demo.noon 0)
         [x1f; x8b; x03; x03; x00; x00; x00; x00; x00; x00; x00; x00; x00]].
Proof.
  assert (H : compress_data Demo.demo (np_zeros 3 3) Demo.computed
              = (Return [x1f; x8b; x03; x03; x00; x00; x00; x00; x00; x00; x00; x00; x00],
                 snd (compress_data Demo.demo (np_zeros 3 3) Demo.computed)))
    by (vm_compute; reflexivity).
  destruct (archived_payload_restores_matrix Demo.demo Demo.decompress Demo.loads
              (Demo.noon 0) (np_zeros 3 3) Demo.computed _ _
              demo_decompress_compress demo_loads_dumps H)
    as (Hback & _ & _ & _ & _ & Hstored).
  split; [rewrite H; reflexivity|]. split; [exact Hback|].
  apply (Hstored tt). reflexivity.
Defined.


Lemma degenerate_terrain_is_rendered_witness :
  flat (dsm Demo.started) = repeat 0%float 9 /\
  normalize (dsm Demo.started) = Return (Ndarray 3 3 (repeat nan 9)) /\
  fst (calculate_shadow Demo.demo Demo.started) = Return Demo.first_response.
Proof.
  assert (H : flat (dsm Demo.started) = repeat 0%float 9) by reflexivity.
  destruct (degenerate_terrain_is_rendered Demo.demo Demo.started 0%float 8
              (np_zeros 3 3) H) as (Hn & _ & _ & Hr).
  split; [exact H|]. split; [exact Hn|].
  apply (Hr Demo.computed (Demo.png_signature ++ [x00])%list
            (Demo.png_signature ++ [x01])%list); vm_compute; reflexivity.
Defined.

Lemma one_timestamp_one_matrix_witness :
  calculate_shadow Demo.demo Demo.started
    = (Return Demo.first_response, snd (calculate_shadow Demo.demo Demo.started)) /\
  ticks (snd (calculate_shadow Demo.demo Demo.started)) = 1 /\
  shadow_matrices (snd (calculate_shadow Demo.demo Demo.started))
    = [archived_document (Demo.noon 0)
         [x1f; x8b; x03; x03; x00; x00; x00; x00; x00; x00; x00; x00; x00]] /\
  json Demo.first_response !! "timestamp" = Some "2024-03-21 12:00:00".
Proof.
  assert (H : calculate_shadow Demo.demo Demo.started
              = (Return Demo.first_response,
                 snd (calculate_shadow Demo.demo Demo.started)))
    by (vm_compute; reflexivity).
  destruct (one_timestamp_one_matrix Demo.demo Demo.started Demo.first_response
              _ H)
    as (m & alt & az & X & Y & img & png1 & png2 & Ht & Hm & _ & Hs & _ & _ & _
        & _ & Hj).
  assert (Hzero : Return (np_zeros 3 3) = Return m :> outcome ndarray)
    by (rewrite <- Hm; vm_compute; reflexivity).
  injection Hzero as <-.
  split; [exact H|]. split; [exact Ht|]. split; [|exact Hj].
  rewrite Hs. vm_compute. reflexivity.
Defined.


(** C8, as the specification states it, fails on the flat terrain of three
    rows and three columns: its samples are all equal, the normalization
    returns (an array of NaN), and the request is answered with a success
    response. *)
Lemma flat_terrain_request_succeeds :
  flat (dsm Demo.started) = repeat 0%float 9 /\
  succeeded (normalize (dsm Demo.started)) = true /\
  succeeded (fst (generate_surface_plot Demo.demo (np_zeros 3 3) Demo.computed))
    = true /\
  succeeded (fst (calculate_shadow Demo.demo Demo.started)) = true /\
  status Demo.first_response = 200 /\
  fst (calculate_shadow Demo.demo Demo.started) = Return Demo.first_response.
Proof. repeat split; vm_compute; reflexivity. Qed.

(** * Further properties of [analysis.py] *)

(** ** Requests do not see each other *)

Lemma calculate_shadow_outcome_agrees (E : collaborators) (s s' : process) :
  dsm s = dsm s' -> latitude s = latitude s' -> longitude s = longitude s' ->
  ticks s = ticks s' ->
  fst (calculate_shadow E s) = fst (calculate_shadow E s').
Proof.
  intros Hd Hla Hlo Ht.
  rewrite !calculate_shadow_eq. cbv zeta.
  rewrite !calculate_shadow_matrix_eq. cbv zeta.
  cbn [latitude longitude dsm record_call tick].
  rewrite <- Hd, <- Hla, <- Hlo, <- Ht.
  destruct (outcome_bind _ sun_geometry) as [[alt az]|e]; [|reflexivity].
  destruct (outcome_bind _ unpack5) as [m|e]; [|reflexivity].
  destruct (savefig_heatmap E m) as [png1|e]; [|reflexivity].
  destruct (normalize (dsm s)) as [nz|e]; [|reflexivity].
  destruct (surface_grid m) as [X Y]. reflexivity.
Qed.

(** X1. What the server answers to a sequence of requests depends on the
    terrain, the location and the clock only: two processes that agree on
    these give the same outcomes, request by request, whatever their
    stores, their logs and the requests they served before hold. *)
Theorem responses_ignore_store_and_log (E : collaborators) (n : nat)
    (s s' : process) :
  dsm s = dsm s' -> latitude s = latitude s' -> longitude s = longitude s' ->
  ticks s = ticks s' ->
  fst (serve E n s) = fst (serve E n s').
Proof.
  revert s s'. induction n as [|n IH]; intros s s' Hd Hla Hlo Ht; [reflexivity|].
  cbn [serve].
  pose proof (calculate_shadow_outcome_agrees E s s' Hd Hla Hlo Ht) as Hr.
  pose proof (calculate_shadow_frame E s) as (Fd & Fla & Flo & Ft).
  pose proof (calculate_shadow_frame E s') as (Fd' & Fla' & Flo' & Ft').
  destruct (calculate_shadow E s) as [r s1].
  destruct (calculate_shadow E s') as [r' s1'].
  cbn [fst snd] in *. subst r'.
  assert (Hrec : fst (serve E n s1) = fst (serve E n s1'))
    by (apply IH; congruence).
  destruct (serve E n s1) as [rs s2]. destruct (serve E n s1') as [rs' s2'].
  cbn [fst] in *. now subst rs'.
Qed.

Lemma responses_ignore_store_and_log_witness :
  shadow_matrices Faults.busy <> shadow_matrices Demo.started /\
  fst (serve Demo.demo 2 Demo.started) = fst (serve Demo.demo 2 Faults.busy).
Proof.
  split; [discriminate|].
  apply (responses_ignore_store_and_log Demo.demo 2 Demo.started Faults.busy);
    reflexivity.
Defined.

(** ** The store only grows *)

Lemma after_archive_store (E : collaborators) (t : datetime) (m : ndarray)
    (s : process) :
  exists added,
    shadow_matrices (after_archive E t m s) = (shadow_matrices s ++ added)%list /\
    length added <= 1.
Proof.
  destruct (after_archive_calls E t m s) as (_ & _ & _ & [H|(b & z & _ & _ & H)]).
  - exists []. rewrite H, app_nil_r. split; [reflexivity | cbn; lia].
  - eexists. split; [exact H | cbn; lia].
Qed.

Lemma calculate_shadow_store (E : collaborators) (s : process) :
  exists added,
    shadow_matrices (snd (calculate_shadow E s))
      = (shadow_matrices s ++ added)%list /\
    length added <= 1.
Proof.
  rewrite calculate_shadow_eq. cbv zeta.
  destruct (calculate_shadow_matrix E _ _) as [[m|e] s1] eqn:Hm;
    apply calculate_shadow_matrix_frame in Hm as (_ & _ & _ & _ & Hs & _);
    cbn [shadow_matrices record_call tick] in Hs.
  - destruct (after_archive_store E (clock E (ticks s)) m s1) as (added & Ha & Hl).
    rewrite Hs in Ha.
    destruct (savefig_heatmap E m);
      [destruct (normalize (dsm s)); [destruct (surface_grid m)|]|];
      exists added; split; assumption.
  - exists []. cbn [snd]. rewrite Hs, app_nil_r. split; [reflexivity | cbn; lia].
Qed.

(** X2. The collection is only appended to: after any number of requests
    it holds the documents it held before, in their order, followed by at
    most one new document for each request. *)
Theorem store_is_append_only (E : collaborators) (n : nat) (s : process) :
  exists added,
    shadow_matrices (snd (serve E n s)) = (shadow_matrices s ++ added)%list /\
    length added <= n.
Proof.
  revert s. induction n as [|n IH]; intros s.
  - exists []. cbn. rewrite app_nil_r. split; [reflexivity | lia].
  - cbn [serve].
    destruct (calculate_shadow_store E s) as (a1 & H1 & L1).
    destruct (calculate_shadow E s) as [r s1]. cbn [snd] in H1.
    destruct (IH s1) as (a2 & H2 & L2).
    destruct (serve E n s1) as [rs s2]. cbn [snd] in *.
    exists (a1 ++ a2)%list. rewrite H2, H1, <- app_assoc.
    split; [reflexivity|]. rewrite length_app. lia.
Qed.

(** ** What the archival leaves behind *)


(** X4. The archival comes before the renderings and is not undone: when
    the store has accepted the document and the heatmap then raises, the
    request fails with the exception of the heatmap, the surface plot is
    not attempted, and the document stays in the collection. *)
Theorem failed_request_keeps_archived_document (E : collaborators)
    (s : process) (m : ndarray) (s1 : process) (b z : bytes) (e : exn) :
  let t := clock E (ticks s) in
  calculate_shadow_matrix E t (record_call CallNow (tick s)) = (Return m, s1) ->
  pickle_dumps E m = Return b ->
  gzip_compress E b = Return z ->
  mongo_insert E (shadow_matrices s) (archived_document t z) = Return tt ->
  savefig_heatmap E m = Raise e ->
  fst (calculate_shadow E s) = Raise e /\
  shadow_matrices (snd (calculate_shadow E s))
    = (shadow_matrices s ++ [archived_document t z])%list /\
  last (calls (snd (calculate_shadow E s))) = Some (CallHeatmap m).
Proof.
  intros t Hm Hb Hz Hi He.
  rewrite calculate_shadow_eq. cbv zeta. fold t. rewrite Hm, He. cbn [fst snd].
  apply calculate_shadow_matrix_frame in Hm as (_ & _ & _ & _ & Hs & _).
  cbn [shadow_matrices record_call tick] in Hs.
  unfold after_archive. rewrite Hb, Hz, Hs, Hi.
  cbn [shadow_matrices calls record_call record_log store_document].
  rewrite Hs.
  split; [reflexivity|]. split; [reflexivity|]. apply last_snoc.
Qed.

Lemma failed_request_keeps_archived_document_witness :
  fst (calculate_shadow Faults.blind Demo.started) = Raise Faults.no_display /\
  length (shadow_matrices (snd (calculate_shadow Faults.blind Demo.started))) = 1.
Proof.
  destruct (failed_request_keeps_archived_document Faults.blind Demo.started
              (np_zeros 3 3) Demo.computed
              [x03; x03; x00; x00; x00; x00; x00; x00; x00; x00; x00]
              [x1f; x8b; x03; x03; x00; x00; x00; x00; x00; x00; x00; x00; x00]
              Faults.no_display)
    as (Hr & Hs & _); try (vm_compute; reflexivity).
  split; [exact Hr|]. rewrite Hs. reflexivity.
Defined.

(** ** The outputs of the algorithm *)

Lemma unpack5_other_length (outs : list ndarray) :
  length outs <> 5 ->
  exists msg, unpack5 outs = Raise (ValueError msg).
Proof.
  intros H.
  destruct outs as [|o1 [|o2 [|o3 [|o4 [|o5 [|o6 l]]]]]]; cbn;
    try (eexists; reflexivity).
  exfalso. apply H. reflexivity.
Qed.

(** X5. When the algorithm returns a number of outputs other than five,
    the unpacking of line 40 raises a [ValueError]: the request fails with
    it right after the call of the algorithm, and nothing is archived. *)
Theorem wrong_number_of_outputs_fails_request (E : collaborators) (s : process)
    (altitude azimuth : float) (outs : list ndarray) :
  let t := clock E (ticks s) in
  let walls := np_zeros (shape0 (dsm s)) (shape1 (dsm s)) in
  let radians := np_div_scalar (np_mul_scalar walls np_pi) 180%float in
  outcome_bind (get_solarposition E t (latitude s) (longitude s)) sun_geometry
    = Return (altitude, azimuth) ->
  shadowingfunction_wallheight_13 E (dsm s) azimuth altitude 1 walls radians
    = Return outs ->
  length outs <> 5 ->
  exists msg,
    fst (calculate_shadow E s) = Raise (ValueError msg) /\
    calls_since s (snd (calculate_shadow E s))
      = [CallNow; CallSolarposition t (latitude s) (longitude s);
         CallShadowing (dsm s) azimuth altitude 1 walls radians] /\
    shadow_matrices (snd (calculate_shadow E s)) = shadow_matrices s.
Proof.
  intros t walls radians Hgeo Hout Hlen.
  destruct (unpack5_other_length outs Hlen) as [msg Hmsg].
  exists msg.
  rewrite calculate_shadow_eq. cbv zeta.
  rewrite calculate_shadow_matrix_eq. cbv zeta.
  cbn [latitude longitude dsm record_call tick].
  fold t. rewrite Hgeo. fold walls. fold radians. rewrite Hout.
  cbn [outcome_bind]. rewrite Hmsg. cbn [fst snd].
  split; [reflexivity|]. split; [|reflexivity].
  apply calls_since_app. cbn [calls record_call tick].
  rewrite <- !app_assoc. reflexivity.
Qed.

Lemma wrong_number_of_outputs_witness :
  fst (calculate_shadow Faults.three_outputs Demo.started)
    = Raise (ValueError "not enough values to unpack (expected 5, got 3)") /\
  shadow_matrices (snd (calculate_shadow Faults.three_outputs Demo.started)) = [].
Proof.
  destruct (wrong_number_of_outputs_fails_request Faults.three_outputs
              Demo.started 45%float 180%float
              [dsm Demo.started; dsm Demo.started; dsm Demo.started])
    as (msg & Hr & _ & Hs); try (vm_compute; reflexivity).
  { cbn. lia. }
  split; [vm_compute; reflexivity | exact Hs].
Defined.

(** ** The terrain and its normalization *)

(** X6. The normalization of line 75 raises on a terrain without samples
    and on no other: there the minimum does not exist and [np.min] raises a
    [ValueError]; on every terrain with a sample, whatever the samples are,
    it returns an array of the shape of the terrain with as many samples. *)
Theorem normalize_fails_only_on_empty_terrain (a : ndarray) :
  (flat a = [] -> normalize a = Raise (zero_size "minimum")) /\
  (flat a <> [] ->
   exists nz, normalize a = Return nz /\ shape nz = shape a /\
              length (flat nz) = length (flat a)).
Proof.
  unfold normalize, np_min, np_max. split.
  - intros ->. reflexivity.
  - intros H. destruct (flat a) as [|x xs] eqn:Hf; [contradiction|].
    cbn [outcome_bind]. eexists. split; [reflexivity|].
    split; [reflexivity|].
    unfold np_div_scalar, np_sub_scalar, np_map. cbn [flat].
    rewrite !length_map, Hf. reflexivity.
Qed.

(** X7. On a terrain without samples a request whose matrix is computed
    and whose heatmap is rendered fails in the surface plot, with the
    [ValueError] of the minimum; the plotting call is not made, while the
    archival and the heatmap have been. *)
Theorem empty_terrain_fails_in_surface_plot (E : collaborators) (s : process)
    (m : ndarray) (s1 : process) (png : bytes) :
  let t := clock E (ticks s) in
  flat (dsm s) = [] ->
  calculate_shadow_matrix E t (record_call CallNow (tick s)) = (Return m, s1) ->
  savefig_heatmap E m = Return png ->
  fst (calculate_shadow E s) = Raise (zero_size "minimum") /\
  last (calls (snd (calculate_shadow E s))) = Some (CallHeatmap m) /\
  In (CallPickleDumps m) (calls_since s (snd (calculate_shadow E s))).
Proof.
  intros t Hempty Hm Hpng.
  assert (Hn : normalize (dsm s) = Raise (zero_size "minimum"))
    by (unfold normalize, np_min; rewrite Hempty; reflexivity).
  rewrite calculate_shadow_eq. cbv zeta. fold t. rewrite Hm, Hpng, Hn.
  cbn [fst snd calls record_call].
  split; [reflexivity|]. split; [apply last_snoc|].
  destruct (after_archive_calls E t m s1) as (archival & Hc & _).
  destruct (no_archival_call_in_computation E s _ s1 Hm) as (made & Hs1 & _).
  rewrite (calls_since_app s _ (made ++ CallPickleDumps m :: archival
                                     ++ [CallHeatmap m])).
  - apply in_or_app. right. left. reflexivity.
  - cbn [calls record_call]. rewrite Hc, Hs1, <- !app_assoc. reflexivity.
Qed.

Lemma empty_terrain_fails_in_surface_plot_witness :
  flat (dsm Faults.no_terrain) = [] /\
  fst (calculate_shadow Demo.demo Faults.no_terrain)
    = Raise (ValueError
               "zero-size array to reduction operation minimum which has no identity").
Proof.
  assert (H : flat (dsm Faults.no_terrain) = []) by reflexivity.
  assert (Hm : calculate_shadow_matrix Demo.demo
                 (clock Demo.demo (ticks Faults.no_terrain))
                 (record_call CallNow (tick Faults.no_terrain))
               = (Return (np_zeros 0 3),
                  snd (calculate_shadow_matrix Demo.demo (Demo.noon 0)
                         (record_call CallNow (tick Faults.no_terrain)))))
    by (vm_compute; reflexivity).
  assert (Hp : savefig_heatmap Demo.demo (np_zeros 0 3)
               = Return (Demo.png_signature ++ [x00])%list) by reflexivity.
  split; [exact H|].
  exact (proj1 (empty_terrain_fails_in_surface_plot Demo.demo Faults.no_terrain
                  _ _ _ H Hm Hp)).
Defined.

Lemma nan_to_num1_is_finite (x : float) : is_finite (nan_to_num1 0 x) = true.
Proof.
  unfold nan_to_num1.
  destruct (is_nan x) eqn:Hn; [reflexivity|].
  destruct (x =? infinity)%float eqn:Hp; [reflexivity|].
  destruct (x =? neg_infinity)%float eqn:Hm; [reflexivity|].
  unfold is_finite. rewrite Hn. cbn [orb]. apply negb_true_iff.
  unfold is_infinity.
  rewrite FloatAxioms.eqb_spec in Hp, Hm |- *. rewrite FloatAxioms.abs_spec.
  change (Prim2SF infinity) with (S754_infinity false) in *.
  change (Prim2SF neg_infinity) with (S754_infinity true) in *.
  destruct (Prim2SF x) as [sx|sx| |sx mx ex]; try reflexivity.
  destruct sx; [discriminate Hm | discriminate Hp].
Qed.

(** X8. After the load every sample of the terrain is a finite number: NaN
    has become zero and the two infinities the largest and the smallest
    finite numbers.  A terrain that has been through the replacement is left
    as it is by a second one. *)
Theorem loaded_terrain_is_finite (stored : list document) (loaded : ndarray) :
  exists s,
    main (Return stored) (Return loaded) = Return s /\
    Forall (fun y => is_finite y = true) (flat (dsm s)) /\
    np_nan_to_num (dsm s) 0%float = dsm s.
Proof.
  eexists. split; [reflexivity|]. cbn [dsm].
  unfold np_nan_to_num, np_map. cbn [shape0 shape1 flat]. split.
  - induction (flat loaded) as [|x l IH]; cbn [map]; constructor;
      [apply nan_to_num1_is_finite | exact IH].
  - f_equal. rewrite map_map.
    induction (flat loaded) as [|x l IH]; cbn [map]; [reflexivity|].
    rewrite IH. f_equal. apply nan_to_num1_finite, nan_to_num1_is_finite.
Qed.

(** ** The time stamp of the response *)

(** X9. The time stamp of the response tells the second of the request
    and nothing finer: two valid clock readings of years of four digits
    are formatted alike exactly when they fall in the same second, whatever
    their microseconds. *)
Theorem strftime_tells_the_second (t t' : datetime) :
  valid_datetime t -> valid_datetime t' ->
  1000 <= year t -> 1000 <= year t' ->
  (strftime t = strftime t' <-> same_second t t').
Proof.
  intros Hv Hv' Hy4 Hy4'.
  split.
  - intros Heq.
    destruct (strftime_format t Hv Hy4) as (_ & F).
    destruct (strftime_format t' Hv' Hy4') as (_ & F').
    rewrite Heq, F' in F. injection F as Ey Em Ed Eh En Es.
    unfold same_second. auto 7.
  - intros (Ey & Em & Ed & Eh & En & Es). unfold strftime.
    now rewrite Ey, Em, Ed, Eh, En, Es.
Qed.

Lemma strftime_tells_the_second_witness :
  strftime (Datetime 2024 3 21 12 0 7 0) = strftime (Datetime 2024 3 21 12 0 7 4999) /\
  same_second (Demo.noon 7) (Datetime 2024 3 21 12 0 7 4999).
Proof.
  assert (H1 : valid_datetime (Demo.noon 7)) by (apply noon_is_valid; lia).
  assert (H2 : valid_datetime (Datetime 2024 3 21 12 0 7 4999)).
  { unfold valid_datetime.
    cbn [year month day hour minute second microsecond]. lia. }
  assert (H3 : same_second (Demo.noon 7) (Datetime 2024 3 21 12 0 7 4999))
    by (repeat split).
  assert (H4 : 1000 <= year (Demo.noon 7)) by (cbn [year Demo.noon]; lia).
  assert (H5 : 1000 <= year (Datetime 2024 3 21 12 0 7 4999))
    by (cbn [year]; lia).
  split; [|exact H3].
  exact (proj2 (strftime_tells_the_second _ _ H1 H2 H4 H5) H3).
Defined.

(** * Properties of [deploy.py] *)

Ltac sh_run :=
  unfold Deploy.run;
  unfold mbind, Deploy.sh_mbind, mret, Deploy.sh_mret, Deploy.sh_bind,
         Deploy.sh_ret, Deploy.act, Deploy.lift, Deploy.logging_info,
         Deploy.logging_error, Deploy.print.

Lemma sh_bind_act_return {A B} (a : Deploy.action) (x : A)
    (k : A -> Deploy.sh B) (w : Deploy.world) :
  Deploy.sh_bind (Deploy.act a (Return x)) k w
  = k x (Deploy.World (Deploy.logged w) (Deploy.printed w)
                      (Deploy.actions w ++ [a])).
Proof. reflexivity. Qed.

Lemma sh_bind_act_raise {A B} (a : Deploy.action) (e : exn)
    (k : A -> Deploy.sh B) (w : Deploy.world) :
  Deploy.sh_bind (Deploy.act a (Raise e)) k w
  = (Raise e, Deploy.World (Deploy.logged w) (Deploy.printed w)
                           (Deploy.actions w ++ [a])).
Proof. reflexivity. Qed.

Lemma sh_bind_lift_return {A B} (x : A) (k : A -> Deploy.sh B)
    (w : Deploy.world) :
  Deploy.sh_bind (Deploy.lift (Return x)) k w = k x w.
Proof. reflexivity. Qed.

Lemma sh_bind_lift_raise {A B} (e : exn) (k : A -> Deploy.sh B)
    (w : Deploy.world) :
  Deploy.sh_bind (Deploy.lift (Raise e)) k w = (Raise e, w).
Proof. reflexivity. Qed.

Lemma sh_bind_logging_info {B} (msg : string) (k : unit -> Deploy.sh B)
    (w : Deploy.world) :
  Deploy.sh_bind (Deploy.logging_info msg) k w
  = k tt (Deploy.World (Deploy.logged w ++ [(INFO, msg)]) (Deploy.printed w)
                       (Deploy.actions w)).
Proof. reflexivity. Qed.

(** One statement of a run: the result of the call is known, the world is
    brought back to the form [actions w ++ made]. *)
Ltac sh_simpl :=
  cbv beta iota zeta;
  cbn [Deploy.logged Deploy.printed Deploy.actions];
  rewrite <- ?app_assoc; cbn [app].

Ltac sh_step :=
  first [ rewrite sh_bind_logging_info
        | rewrite sh_bind_act_return
        | rewrite sh_bind_act_raise
        | rewrite sh_bind_lift_return
        | rewrite sh_bind_lift_raise ];
  sh_simpl.

Lemma actions_since_app (w w' : Deploy.world) (made : list Deploy.action) :
  Deploy.actions w' = (Deploy.actions w ++ made)%list ->
  Deploy.actions_since w w' = made.
Proof. unfold Deploy.actions_since. intros ->. apply drop_app_length. Qed.

Lemma filter_find {A} (f : A -> bool) (l : list A) (x : A) :
  List.find f l = Some x -> exists more, List.filter f l = x :: more.
Proof.
  induction l as [|y l IH]; cbn; [discriminate|].
  destruct (f y); [intros [= ->]; eauto | exact IH].
Qed.

Lemma filter_find_none {A} (f : A -> bool) (l : list A) :
  List.find f l = None -> List.filter f l = [].
Proof.
  induction l as [|y l IH]; cbn; [reflexivity|].
  destruct (f y); [discriminate | exact IH].
Qed.

(** ** The security group *)

(** X10. When the account has a security group of the name of the script,
    [check_or_create_security_group] returns the id of the first such group
    and asks AWS nothing but the list of the groups: it creates no group
    and opens no port, whatever rules the group has. *)
Theorem existing_security_group_is_reused (C : Deploy.cloud) (w : Deploy.world)
    (groups : list Deploy.security_group) (sg : Deploy.security_group) :
  Deploy.describe_security_groups C = Return groups ->
  List.find Deploy.has_name groups = Some sg ->
  let w' := snd (Deploy.check_or_create_security_group C w) in
  fst (Deploy.check_or_create_security_group C w) = Return (Deploy.GroupId sg) /\
  Deploy.actions_since w w' = [Deploy.DescribeSecurityGroups] /\
  existsb Deploy.changes_aws (Deploy.actions_since w w') = false /\
  Deploy.logged w' = (Deploy.logged w ++ [(INFO, "Security group already exists.")])%list.
Proof.
  intros Hd Hf. cbv zeta.
  destruct (filter_find _ _ _ Hf) as [more Hmore].
  unfold Deploy.check_or_create_security_group. sh_run. rewrite Hd.
  fold Deploy.has_name. rewrite Hmore. cbn [map fst snd Deploy.logged].
  split; [reflexivity|].
  rewrite (actions_since_app w _ [Deploy.DescribeSecurityGroups]) by reflexivity.
  repeat split.
Qed.

Lemma existing_security_group_is_reused_witness :
  let C := Deploy.account
             [Deploy.SecurityGroup "sg-0" "default";
              Deploy.SecurityGroup "sg-7" Deploy.SECURITY_GROUP_NAME;
              Deploy.SecurityGroup "sg-9" Deploy.SECURITY_GROUP_NAME]
             [] "" Deploy.complete_config in
  fst (Deploy.check_or_create_security_group C Deploy.fresh) = Return "sg-7" /\
  Deploy.actions (snd (Deploy.check_or_create_security_group C Deploy.fresh))
    = [Deploy.DescribeSecurityGroups].
Proof.
  intros C.
  destruct (existing_security_group_is_reused C Deploy.fresh _
              (Deploy.SecurityGroup "sg-7" Deploy.SECURITY_GROUP_NAME)
              eq_refl eq_refl) as (Hr & Ha & _).
  split; [exact Hr | exact Ha].
Defined.

Lemma open_ports_trace (C : Deploy.cloud) (gid : string)
    (rs : list Deploy.rule) (w : Deploy.world) :
  let opened :=
    Deploy.run_until_failure
      (fun r => Deploy.authorize_ingress C gid "tcp" (Deploy.from_port r)
                  (Deploy.to_port r) (Deploy.cidr_ipv4 r)) rs in
  exists logs,
    Deploy.for_each rs (Deploy.open_port C gid) w
    = (match snd opened with Some e => Raise e | None => Return tt end,
       Deploy.World (Deploy.logged w ++ logs) (Deploy.printed w)
         (Deploy.actions w ++ map (Deploy.ingress_action gid) (fst opened))).
Proof.
  cbv zeta. revert w. induction rs as [|r rs IH]; intros w.
  - exists []. cbn. rewrite !app_nil_r. destruct w; reflexivity.
  - cbn [Deploy.for_each Deploy.run_until_failure].
    unfold Deploy.sh_bind at 1. unfold Deploy.open_port at 1.
    unfold mbind, Deploy.sh_mbind, Deploy.sh_bind at 1. unfold Deploy.act at 1.
    destruct (Deploy.authorize_ingress C gid "tcp" _ _ _) as [u|e].
    + unfold Deploy.logging_info at 1.
      match goal with
      | |- context [Deploy.for_each rs _ ?w1] =>
          destruct (IH w1) as (logs & Hrec)
      end.
      rewrite Hrec. cbn [Deploy.logged Deploy.printed Deploy.actions].
      destruct (Deploy.run_until_failure _ rs) as [tried err].
      cbn [fst snd map]. eexists.
      rewrite <- !app_assoc. reflexivity.
    + exists []. cbn [fst snd map]. rewrite app_nil_r. reflexivity.
Qed.

(** X11. When no group has the name, the group is created and its ports
    are opened in the order 80, 22, 443, each after the one before has been
    opened; the outbound rule is set only when the three ports are open, and
    the id of the new group is returned only when the outbound rule is set.
    If one of these calls raises, the script raises with it and leaves the
    group as it is then: it does not delete it. *)
Theorem new_security_group_is_opened_in_order (C : Deploy.cloud)
    (w : Deploy.world) (groups : list Deploy.security_group) (gid : string) :
  Deploy.describe_security_groups C = Return groups ->
  List.find Deploy.has_name groups = None ->
  Deploy.create_security_group C Deploy.SECURITY_GROUP_NAME
    "Security group for EC2 instance" = Return gid ->
  let w' := snd (Deploy.check_or_create_security_group C w) in
  let opened :=
    Deploy.run_until_failure
      (fun r => Deploy.authorize_ingress C gid "tcp" (Deploy.from_port r)
                  (Deploy.to_port r) (Deploy.cidr_ipv4 r))
      Deploy.rules in
  Deploy.actions_since w w' =
    ([Deploy.DescribeSecurityGroups;
      Deploy.CreateSecurityGroup Deploy.SECURITY_GROUP_NAME
                                 "Security group for EC2 instance"]
     ++ map (Deploy.ingress_action gid) (fst opened)
     ++ match snd opened with
        | None => [Deploy.AuthorizeEgress gid]
        | Some _ => []
        end)%list /\
  fst (Deploy.check_or_create_security_group C w) =
    match snd opened with
    | Some e => Raise e
    | None => outcome_map (fun _ => gid) (Deploy.authorize_egress C gid)
    end.
Proof.
  intros Hd Hf Hc. cbv zeta.
  pose proof (filter_find_none _ _ Hf) as Hnone.
  set (opened := Deploy.run_until_failure _ Deploy.rules).
  assert (Hrun : exists logs,
             Deploy.check_or_create_security_group C w
             = (match snd opened with
                | Some e => Raise e
                | None => outcome_map (fun _ => gid) (Deploy.authorize_egress C gid)
                end,
                Deploy.World (Deploy.logged w ++ logs) (Deploy.printed w)
                  (Deploy.actions w ++
                   [Deploy.DescribeSecurityGroups;
                    Deploy.CreateSecurityGroup Deploy.SECURITY_GROUP_NAME
                                               "Security group for EC2 instance"]
                   ++ map (Deploy.ingress_action gid) (fst opened)
                   ++ match snd opened with
                      | None => [Deploy.AuthorizeEgress gid]
                      | Some _ => []
                      end))).
  { unfold Deploy.check_or_create_security_group. sh_run. rewrite Hd.
    fold Deploy.has_name. rewrite Hnone. cbn [map]. rewrite Hc.
    cbn [Deploy.logged Deploy.printed Deploy.actions].
    match goal with
    | |- context [Deploy.for_each Deploy.rules _ ?w1] =>
        destruct (open_ports_trace C gid Deploy.rules w1) as (logs & Hloop)
    end.
    rewrite Hloop. fold opened.
    cbn [Deploy.logged Deploy.printed Deploy.actions].
    destruct (snd opened) as [e|].
    - exists ((INFO, "Creating security group...") :: logs).
      rewrite <- !app_assoc, app_nil_r. reflexivity.
    - destruct (Deploy.authorize_egress C gid); cbn [outcome_map outcome_bind].
      + exists ((INFO, "Creating security group...") :: logs
                ++ [(INFO, "Allowed all outbound traffic.")])%list.
        cbn [Deploy.logged Deploy.printed Deploy.actions].
        rewrite <- !app_assoc. reflexivity.
      + exists ((INFO, "Creating security group...") :: logs).
        rewrite <- !app_assoc. reflexivity. }
  destruct Hrun as (logs & ->). cbn [fst snd].
  split; [|reflexivity]. apply actions_since_app. reflexivity.
Qed.

Lemma new_security_group_is_opened_in_order_witness :
  fst (Deploy.check_or_create_security_group Deploy.empty_account Deploy.fresh)
    = Return "sg-new" /\
  Deploy.actions
    (snd (Deploy.check_or_create_security_group Deploy.empty_account Deploy.fresh))
    = [Deploy.DescribeSecurityGroups;
       Deploy.CreateSecurityGroup Deploy.SECURITY_GROUP_NAME
                                  "Security group for EC2 instance";
       Deploy.AuthorizeIngress "sg-new" "tcp" 80 80 "0.0.0.0/0";
       Deploy.AuthorizeIngress "sg-new" "tcp" 22 22 "0.0.0.0/0";
       Deploy.AuthorizeIngress "sg-new" "tcp" 443 443 "0.0.0.0/0";
       Deploy.AuthorizeEgress "sg-new"].
Proof.
  destruct (new_security_group_is_opened_in_order Deploy.empty_account
              Deploy.fresh [] "sg-new" eq_refl eq_refl eq_refl) as (Ha & Hr).
  split; [exact Hr | exact Ha].
Defined.

(** ** The redeployment over SSH *)

(** X12. Once the key is loaded and the connection is made, the three
    commands are sent in the order pull, stop, run; a command is sent when
    those before it were sent without exception, whatever they wrote to
    their outputs.  The client is closed exactly when the three commands
    were sent: an exception of [exec_command] leaves the script with the
    connection open. *)
Theorem redeployment_sends_commands_in_order (C : Deploy.cloud)
    (w : Deploy.world) (key_path instance_ip docker_image : string) :
  Deploy.rsa_key C key_path = Return tt ->
  Deploy.ssh_connect C instance_ip "ec2-user" = Return tt ->
  let run := Deploy.ssh_and_deploy_docker C key_path instance_ip docker_image w in
  let sent :=
    Deploy.run_until_failure
      (fun c => outcome_map (fun _ => tt) (Deploy.exec_command C c))
      ["docker pull " ++ docker_image; "docker stop $(docker ps -q)";
       "docker run -d -p 80:7001 " ++ docker_image] in
  Deploy.actions_since w (snd run) =
    ([Deploy.LoadKey key_path; Deploy.Connect instance_ip "ec2-user"]
     ++ map Deploy.ExecCommand (fst sent)
     ++ match snd sent with
        | None => [Deploy.CloseClient]
        | Some _ => []
        end)%list /\
  fst run = match snd sent with Some e => Raise e | None => Return tt end.
Proof.
  intros Hk Hc. cbv zeta.
  unfold Deploy.ssh_and_deploy_docker, Deploy.deploy_commands. sh_run.
  rewrite Hk, Hc.
  unfold Deploy.for_each, Deploy.run_until_failure. sh_run.
  destruct (Deploy.exec_command C ("docker pull " ++ docker_image)) as [o1|e];
    [destruct (Deploy.exec_command C "docker stop $(docker ps -q)") as [o2|e];
     [destruct (Deploy.exec_command C ("docker run -d -p 80:7001 " ++ docker_image))
        as [o3|e]|]|];
    cbn [fst snd map app outcome_map outcome_bind Deploy.actions];
    (split; [apply actions_since_app; cbn [Deploy.actions];
             rewrite <- ?app_assoc; reflexivity | reflexivity]).
Qed.

Lemma redeployment_sends_commands_in_order_witness :
  let C := Deploy.account [] [] "docker stop $(docker ps -q)"
                          Deploy.complete_config in
  Deploy.actions
    (snd (Deploy.ssh_and_deploy_docker C "./key.pem" "1.2.3.4" "alice/img"
            Deploy.fresh))
    = [Deploy.LoadKey "./key.pem"; Deploy.Connect "1.2.3.4" "ec2-user";
       Deploy.ExecCommand "docker pull alice/img";
       Deploy.ExecCommand "docker stop $(docker ps -q)"] /\
  succeeded (fst (Deploy.ssh_and_deploy_docker C "./key.pem" "1.2.3.4"
                    "alice/img" Deploy.fresh)) = false.
Proof.
  intros C.
  destruct (redeployment_sends_commands_in_order C Deploy.fresh "./key.pem"
              "1.2.3.4" "alice/img" eq_refl eq_refl) as (Ha & Hr).
  split; [exact Ha | rewrite Hr; reflexivity].
Defined.

Lemma redeployment_actions (C : Deploy.cloud)
    (key_path instance_ip docker_image : string) (w : Deploy.world) :
  exists made,
    Deploy.actions (snd (Deploy.ssh_and_deploy_docker C key_path instance_ip
                           docker_image w))
      = (Deploy.actions w ++ made)%list /\
    existsb Deploy.is_run_instances made = false.
Proof.
  unfold Deploy.ssh_and_deploy_docker, Deploy.deploy_commands. sh_run.
  unfold Deploy.for_each. sh_run.
  destruct (Deploy.rsa_key C key_path);
    [destruct (Deploy.ssh_connect C instance_ip "ec2-user");
     [destruct (Deploy.exec_command C ("docker pull " ++ docker_image));
      [destruct (Deploy.exec_command C "docker stop $(docker ps -q)");
       [destruct (Deploy.exec_command C ("docker run -d -p 80:7001 " ++ docker_image))
       |]|]|]|];
    cbn [snd Deploy.actions]; rewrite <- ?app_assoc;
    eexists; (split; [reflexivity|]); reflexivity.
Qed.

(** ** The instance *)

(** X13. An instance is launched exactly when no instance of the name is
    running or pending: stopped and terminated instances do not count.  The
    launch asks for one instance, in the security group given, with the key
    given, and with a start script that pulls and runs the image of the
    repository; when an instance is running or pending, no instance is
    launched. *)
Theorem instance_is_launched_when_none_runs_or_pends (C : Deploy.cloud)
    (w : Deploy.world) (key_name key_path repo security_group_id : string)
    (reservations : list (list Deploy.instance)) :
  Deploy.describe_instances C (Some Deploy.REGION) Deploy.EC2_INSTANCE_NAME
    = Return reservations ->
  let w' := snd (Deploy.check_or_create_ec2_instance C key_name key_path repo
                   security_group_id w) in
  let request :=
    Deploy.launch_request key_name security_group_id
      (Deploy.user_data_script (Deploy.image_name repo)) in
  if existsb Deploy.running_or_pending (map Deploy.State (concat reservations))
  then existsb Deploy.is_run_instances (Deploy.actions_since w w') = false
  else
    firstn 2 (Deploy.actions_since w w')
      = [Deploy.DescribeInstances (Some Deploy.REGION) Deploy.EC2_INSTANCE_NAME;
         Deploy.RunInstances request] /\
    Deploy.MinCount request = 1%Z /\ Deploy.MaxCount request = 1%Z /\
    Deploy.SecurityGroupIds request = [security_group_id].
Proof.
  intros Hd. cbv zeta.
  unfold Deploy.check_or_create_ec2_instance. sh_run. rewrite Hd.
  destruct (existsb _ _) eqn:Hex; cbn [negb].
  - destruct (List.filter Deploy.is_running (concat reservations)) as [|i l].
    + cbn [snd]. rewrite (actions_since_app w _ [Deploy.DescribeInstances
          (Some Deploy.REGION) Deploy.EC2_INSTANCE_NAME]) by reflexivity.
      reflexivity.
    + destruct (Deploy.public_ip i) as [ip|e].
      * destruct (redeployment_actions C key_path ip (Deploy.image_name repo)
                    (Deploy.World
                       (Deploy.logged w ++
                        [(INFO, "EC2 instance already exists. Redeploying the container...")])
                       (Deploy.printed w)
                       (Deploy.actions w ++
                        [Deploy.DescribeInstances (Some Deploy.REGION)
                                                  Deploy.EC2_INSTANCE_NAME])))
          as (made & Hmade & Hnone).
        cbn [Deploy.actions] in Hmade.
        cbn [Deploy.logged Deploy.printed Deploy.actions].
        rewrite (actions_since_app w _
                   (Deploy.DescribeInstances (Some Deploy.REGION)
                      Deploy.EC2_INSTANCE_NAME :: made))
          by (rewrite Hmade, <- app_assoc; reflexivity).
        cbn [existsb Deploy.is_run_instances orb]. exact Hnone.
      * cbn [snd]. rewrite (actions_since_app w _ [Deploy.DescribeInstances
          (Some Deploy.REGION) Deploy.EC2_INSTANCE_NAME]) by reflexivity.
        reflexivity.
  - split; [|repeat split].
    destruct (Deploy.run_instances C _) as [created|e]; cbn [snd].
    + destruct (Deploy.first_item created) as [i|e]; cbn [snd].
      * unfold Deploy.wait_for_ec2_running. sh_run.
        destruct (Deploy.wait_instance_running C _); cbn [snd];
          erewrite actions_since_app
            by (cbn [Deploy.actions]; rewrite <- ?app_assoc; reflexivity);
          reflexivity.
      * erewrite actions_since_app
          by (cbn [Deploy.actions]; rewrite <- ?app_assoc; reflexivity).
        reflexivity.
    + erewrite actions_since_app
        by (cbn [Deploy.actions]; rewrite <- ?app_assoc; reflexivity).
      reflexivity.
Qed.

Lemma instance_is_launched_witness :
  let C := Deploy.account [] [[Deploy.Instance "i-0" "terminated" None];
                              [Deploy.Instance "i-1" "stopped" None]]
                          "" Deploy.complete_config in
  Deploy.actions
    (snd (Deploy.check_or_create_ec2_instance C "key" "./key.pem" "alice" "sg-1"
            Deploy.fresh))
  = [Deploy.DescribeInstances (Some Deploy.REGION) Deploy.EC2_INSTANCE_NAME;
     Deploy.RunInstances
       (Deploy.launch_request "key" "sg-1"
          (Deploy.user_data_script "alice/shadow-analysis:latest"));
     Deploy.WaitInstanceRunning ["i-new"]] /\
  firstn 2 (Deploy.actions_since Deploy.fresh
              (snd (Deploy.check_or_create_ec2_instance C "key" "./key.pem"
                      "alice" "sg-1" Deploy.fresh)))
  = [Deploy.DescribeInstances (Some Deploy.REGION) Deploy.EC2_INSTANCE_NAME;
     Deploy.RunInstances
       (Deploy.launch_request "key" "sg-1"
          (Deploy.user_data_script "alice/shadow-analysis:latest"))].
Proof.
  intros C. split; [reflexivity|].
  exact (proj1 (instance_is_launched_when_none_runs_or_pends C Deploy.fresh
                  "key" "./key.pem" "alice" "sg-1" _ eq_refl)).
Defined.

(** X14. When an instance of the name is pending and none is running, the
    script neither launches an instance nor deploys the container: it asks
    for the instances, logs the error [No running instances found.] and
    returns as if the step had been done. *)
Theorem pending_instance_is_left_alone (C : Deploy.cloud) (w : Deploy.world)
    (key_name key_path repo security_group_id : string)
    (reservations : list (list Deploy.instance)) :
  Deploy.describe_instances C (Some Deploy.REGION) Deploy.EC2_INSTANCE_NAME
    = Return reservations ->
  existsb (fun i => String.eqb (Deploy.State i) "pending") (concat reservations)
    = true ->
  existsb Deploy.is_running (concat reservations) = false ->
  Deploy.check_or_create_ec2_instance C key_name key_path repo security_group_id w
  = (Return tt,
     Deploy.World
       (Deploy.logged w ++
        [(INFO, "EC2 instance already exists. Redeploying the container...");
         (ERROR, "No running instances found.")])
       (Deploy.printed w)
       (Deploy.actions w ++
        [Deploy.DescribeInstances (Some Deploy.REGION) Deploy.EC2_INSTANCE_NAME])).
Proof.
  intros Hd Hp Hr.
  assert (Hex : existsb Deploy.running_or_pending
                        (map Deploy.State (concat reservations)) = true).
  { clear Hr. induction (concat reservations) as [|i l IH]; [discriminate Hp|].
    cbn in Hp |- *. unfold Deploy.running_or_pending at 1.
    destruct (String.eqb (Deploy.State i) "pending").
    - now rewrite orb_true_r.
    - cbn in Hp. rewrite (IH Hp). apply orb_true_r. }
  assert (Hnone : List.filter Deploy.is_running (concat reservations) = []).
  { clear Hp Hex. induction (concat reservations) as [|i l IH]; [reflexivity|].
    cbn in Hr |- *. destruct (Deploy.is_running i); [discriminate Hr|].
    apply IH, Hr. }
  unfold Deploy.check_or_create_ec2_instance. sh_run.
  rewrite Hd, Hex, Hnone. cbn [negb Deploy.logged Deploy.printed Deploy.actions].
  rewrite <- app_assoc. reflexivity.
Qed.

Lemma pending_instance_is_left_alone_witness :
  let C := Deploy.account [] [[Deploy.Instance "i-1" "pending" None]] ""
                          Deploy.complete_config in
  Deploy.check_or_create_ec2_instance C "key" "./key.pem" "alice" "sg-1"
                                      Deploy.fresh
  = (Return tt,
     Deploy.World
       [(INFO, "EC2 instance already exists. Redeploying the container...");
        (ERROR, "No running instances found.")]
       []
       [Deploy.DescribeInstances (Some Deploy.REGION) Deploy.EC2_INSTANCE_NAME]).
Proof.
  intros C.
  exact (pending_instance_is_left_alone C Deploy.fresh "key" "./key.pem" "alice"
           "sg-1" [[Deploy.Instance "i-1" "pending" None]]
           eq_refl eq_refl eq_refl).
Defined.

(** X15. When an instance of the name is running, the container is
    redeployed on the first running instance, at its public address and as
    [ec2-user], with the image of the repository; an instance that is
    running without public address makes the script raise a [KeyError]
    before any connection is tried. *)
Theorem container_is_redeployed_on_first_running_instance (C : Deploy.cloud)
    (w : Deploy.world) (key_name key_path repo security_group_id : string)
    (reservations : list (list Deploy.instance)) (first : Deploy.instance) :
  Deploy.describe_instances C (Some Deploy.REGION) Deploy.EC2_INSTANCE_NAME
    = Return reservations ->
  List.find Deploy.is_running (concat reservations) = Some first ->
  let w1 :=
    Deploy.World
      (Deploy.logged w ++
       [(INFO, "EC2 instance already exists. Redeploying the container...")])
      (Deploy.printed w)
      (Deploy.actions w ++
       [Deploy.DescribeInstances (Some Deploy.REGION) Deploy.EC2_INSTANCE_NAME]) in
  Deploy.check_or_create_ec2_instance C key_name key_path repo security_group_id w
  = match Deploy.PublicIpAddress first with
    | Some ip =>
        Deploy.ssh_and_deploy_docker C key_path ip (Deploy.image_name repo) w1
    | None => (Raise (KeyError "PublicIpAddress"), w1)
    end.
Proof.
  intros Hd Hf. cbv zeta.
  destruct (filter_find _ _ _ Hf) as [more Hmore].
  assert (Hex : existsb Deploy.running_or_pending
                        (map Deploy.State (concat reservations)) = true).
  { clear Hmore. induction (concat reservations) as [|i l IH]; [discriminate Hf|].
    cbn in Hf |- *. unfold Deploy.running_or_pending at 1.
    unfold Deploy.is_running at 1 in Hf.
    destruct (String.eqb (Deploy.State i) "running"); [reflexivity|].
    rewrite (IH Hf). apply orb_true_r. }
  unfold Deploy.check_or_create_ec2_instance. sh_run.
  rewrite Hd, Hex, Hmore. cbn [negb Deploy.logged Deploy.printed Deploy.actions].
  unfold Deploy.public_ip.
  destruct (Deploy.PublicIpAddress first); reflexivity.
Qed.

Lemma container_is_redeployed_witness :
  let C := Deploy.account []
             [[Deploy.Instance "i-0" "terminated" None];
              [Deploy.Instance "i-1" "running" (Some "1.2.3.4");
               Deploy.Instance "i-2" "running" (Some "5.6.7.8")]]
             "" Deploy.complete_config in
  Deploy.actions
    (snd (Deploy.check_or_create_ec2_instance C "key" "./key.pem" "alice" "sg-1"
            Deploy.fresh))
  = [Deploy.DescribeInstances (Some Deploy.REGION) Deploy.EC2_INSTANCE_NAME;
     Deploy.LoadKey "./key.pem"; Deploy.Connect "1.2.3.4" "ec2-user";
     Deploy.ExecCommand "docker pull alice/shadow-analysis:latest";
     Deploy.ExecCommand "docker stop $(docker ps -q)";
     Deploy.ExecCommand "docker run -d -p 80:7001 alice/shadow-analysis:latest";
     Deploy.CloseClient].
Proof.
  intros C.
  rewrite (container_is_redeployed_on_first_running_instance C Deploy.fresh
             "key" "./key.pem" "alice" "sg-1" _
             (Deploy.Instance "i-1" "running" (Some "1.2.3.4")) eq_refl eq_refl).
  reflexivity.
Defined.

(** ** The shell commands *)

(** X16. The image is published by four commands, run in the order build,
    login, tag, push: a command runs only when all those before it
    returned, and the script raises the exception of the first one that
    fails.  The record that the image was pushed is logged exactly when the
    four commands returned. *)
Theorem image_is_pushed_after_build_login_tag (C : Deploy.cloud)
    (w : Deploy.world)
    (dockerhub_username dockerhub_password repo : string)
    (mongo_host mongo_username mongo_password : string) :
  let run :=
    Deploy.publish_docker_image C dockerhub_username dockerhub_password repo
                                mongo_host mongo_username mongo_password w in
  let ran :=
    Deploy.run_until_failure (Deploy.subprocess_run C)
      (Deploy.publish_commands dockerhub_username dockerhub_password repo
                               mongo_host mongo_username mongo_password) in
  Deploy.actions_since w (snd run) = map Deploy.SubprocessRun (fst ran) /\
  fst run = match snd ran with Some e => Raise e | None => Return tt end /\
  Deploy.logged (snd run) =
    (Deploy.logged w ++ (INFO, "Building Docker image...") ::
     match snd ran with
     | Some _ => []
     | None =>
         [(INFO, ("Docker image pushed to: " ++ Deploy.image_name repo)%string)]
     end)%list.
Proof.
  cbv zeta. unfold Deploy.publish_docker_image, Deploy.publish_commands,
    Deploy.run_until_failure. sh_run.
  destruct (Deploy.subprocess_run C (Deploy.publish_build_command _ _ _));
    [destruct (Deploy.subprocess_run C ("docker login -u " ++ _));
     [destruct (Deploy.subprocess_run C ("docker tag " ++ _));
      [destruct (Deploy.subprocess_run C ("docker push " ++ _))|]|]|];
    cbn [fst snd map Deploy.actions Deploy.logged];
    (split; [apply actions_since_app; cbn [Deploy.actions];
             rewrite <- ?app_assoc; reflexivity |]);
    (split; [reflexivity|]); rewrite <- ?app_assoc; reflexivity.
Qed.

(** X17. The local start never raises a [CalledProcessError]: when the
    build or the run of the container fails with one, the error is logged
    and the function returns.  The container is run only when the build
    returned, and an exception of another class goes through. *)
Theorem local_start_swallows_command_failures (C : Deploy.cloud)
    (w : Deploy.world) (mongo_host : string) (mongo_port : Z) (port : string)
    (use_srv : bool) :
  let run := Deploy.start_service C mongo_host mongo_port port use_srv w in
  let ran :=
    Deploy.run_until_failure (Deploy.subprocess_run C)
      [Deploy.local_build_command mongo_host mongo_port use_srv;
       Deploy.local_run_command port] in
  Deploy.actions_since w (snd run) = map Deploy.SubprocessRun (fst ran) /\
  fst run = match snd ran with
            | Some e => if String.eqb (exn_class e) "CalledProcessError"
                        then Return tt else Raise e
            | None => Return tt
            end /\
  (In (ERROR, "Error occurred while building or running the Docker container.")
      (drop (length (Deploy.logged w)) (Deploy.logged (snd run))) <->
   exists e, snd ran = Some e /\ exn_class e = "CalledProcessError").
Proof.
  cbv zeta. unfold Deploy.start_service, Deploy.try_except_class,
    Deploy.run_until_failure. sh_run.
  destruct (Deploy.subprocess_run C (Deploy.local_build_command _ _ _)) as [u|e];
    [destruct (Deploy.subprocess_run C (Deploy.local_run_command port)) as [u'|e]|];
    cbn [fst snd map Deploy.actions Deploy.logged];
    try destruct (String.eqb (exn_class e) "CalledProcessError") eqn:Hcls;
    cbn [fst snd map Deploy.actions Deploy.logged];
    (split; [apply actions_since_app; cbn [Deploy.actions];
             rewrite <- ?app_assoc; reflexivity |]);
    (split; [reflexivity|]);
    rewrite <- ?app_assoc, drop_app_length; cbn [app];
    (split; [intros Hin | intros (e0 & He0 & Hc0)]);
    try (apply String.eqb_eq in Hcls);
    try (exists e; split; [reflexivity | assumption]);
    try discriminate He0;
    try (cbn in Hin; intuition discriminate);
    try (cbn; auto);
    try (injection He0 as <-; apply String.eqb_neq in Hcls; contradiction).
Qed.

(** ** The purge *)

Lemma terminate_named_instance_returns (C : Deploy.cloud) (w : Deploy.world) :
  exists terminated line,
    Deploy.terminate_named_instance C w
    = (Return tt,
       Deploy.World (Deploy.logged w) (Deploy.printed w ++ [line])
         (Deploy.actions w ++
          Deploy.DescribeInstances None Deploy.EC2_INSTANCE_NAME :: terminated)) /\
    (terminated = [] \/
     exists i more rest,
       Deploy.describe_instances C None Deploy.EC2_INSTANCE_NAME
         = Return ((i :: more) :: rest) /\
       terminated = [Deploy.TerminateInstances [Deploy.InstanceId i]]).
Proof.
  unfold Deploy.terminate_named_instance, Deploy.try_except. sh_run.
  destruct (Deploy.describe_instances C None Deploy.EC2_INSTANCE_NAME)
    as [[|[|i more] rest]|e] eqn:Hd; cbn [Deploy.first_item].
  - exists []; eexists; split; [reflexivity | left; reflexivity].
  - exists []; eexists; split; [reflexivity | left; reflexivity].
  - destruct (Deploy.terminate_instances C [Deploy.InstanceId i]);
      cbn [Deploy.logged Deploy.printed Deploy.actions];
      rewrite <- ?app_assoc;
      exists [Deploy.TerminateInstances [Deploy.InstanceId i]]; eexists;
      (split; [reflexivity | right; exists i, more, rest; split; reflexivity]).
  - exists []; eexists; split; [reflexivity | left; reflexivity].
Qed.

Lemma delete_named_api_returns (C : Deploy.cloud) (w : Deploy.world) :
  exists deleted line,
    Deploy.delete_named_api C w
    = (Return tt,
       Deploy.World (Deploy.logged w) (Deploy.printed w ++ [line])
         (Deploy.actions w ++ Deploy.GetRestApis :: deleted)) /\
    (deleted = [] \/
     exists items id,
       Deploy.get_rest_apis C = Return items /\
       Deploy.find_api items = Some id /\ id <> "" /\
       deleted = [Deploy.DeleteRestApi id]).
Proof.
  unfold Deploy.delete_named_api, Deploy.try_except. sh_run.
  destruct (Deploy.get_rest_apis C) as [items|e] eqn:Hg.
  - destruct (Deploy.find_api items) as [id|] eqn:Hf.
    + destruct (String.eqb id "") eqn:Hid.
      * exists []; eexists; split; [reflexivity | left; reflexivity].
      * apply String.eqb_neq in Hid.
        destruct (Deploy.delete_rest_api C id);
          cbn [Deploy.logged Deploy.printed Deploy.actions];
          rewrite <- ?app_assoc;
          exists [Deploy.DeleteRestApi id]; eexists;
          (split; [reflexivity | right; exists items, id; auto]).
    + exists []; eexists; split; [reflexivity | left; reflexivity].
  - exists []; eexists; split; [reflexivity | left; reflexivity].
Qed.

Lemma delete_resources_returns (C : Deploy.cloud) (w : Deploy.world) :
  Deploy.boto3_client C "ec2" = Return tt ->
  Deploy.boto3_client C "apigateway" = Return tt ->
  exists terminated deleted line1 line2,
    Deploy.delete_resources C w
    = (Return tt,
       Deploy.World (Deploy.logged w) (Deploy.printed w ++ [line1; line2])
         (Deploy.actions w ++
          [Deploy.NewClient "ec2"; Deploy.NewClient "apigateway";
           Deploy.DescribeInstances None Deploy.EC2_INSTANCE_NAME]
          ++ terminated ++ Deploy.GetRestApis :: deleted)) /\
    (terminated = [] \/
     exists i more rest,
       Deploy.describe_instances C None Deploy.EC2_INSTANCE_NAME
         = Return ((i :: more) :: rest) /\
       terminated = [Deploy.TerminateInstances [Deploy.InstanceId i]]) /\
    (deleted = [] \/
     exists items id,
       Deploy.get_rest_apis C = Return items /\
       Deploy.find_api items = Some id /\ id <> "" /\
       deleted = [Deploy.DeleteRestApi id]).
Proof.
  intros H1 H2. unfold Deploy.delete_resources. sh_run. rewrite H1, H2.
  match goal with
  | |- context [Deploy.terminate_named_instance C ?w1] =>
      destruct (terminate_named_instance_returns C w1) as (t & l1 & Ht & Hterm)
  end.
  rewrite Ht.
  match goal with
  | |- context [Deploy.delete_named_api C ?w2] =>
      destruct (delete_named_api_returns C w2) as (d & l2 & Hdel & Hdeleted)
  end.
  rewrite Hdel. cbn [Deploy.logged Deploy.printed Deploy.actions].
  exists t, d, l1, l2. split; [|split; assumption].
  rewrite <- !app_assoc. reflexivity.
Qed.

(** X18. Once its two clients are made, [delete_resources] returns
    whatever AWS answers or raises.  It asks for the instances, then for
    the APIs, and the second question is asked whatever the first led to.
    It terminates at most one instance, the first instance of the first
    reservation, whatever its state and however many there are, and it
    deletes at most one API, the first of the name of the script. *)
Theorem purge_returns_and_deletes_at_most_one_of_each (C : Deploy.cloud)
    (w : Deploy.world) :
  Deploy.boto3_client C "ec2" = Return tt ->
  Deploy.boto3_client C "apigateway" = Return tt ->
  let run := Deploy.delete_resources C w in
  fst run = Return tt /\
  exists terminated deleted,
    Deploy.actions_since w (snd run)
      = ([Deploy.NewClient "ec2"; Deploy.NewClient "apigateway";
          Deploy.DescribeInstances None Deploy.EC2_INSTANCE_NAME]
         ++ terminated ++ Deploy.GetRestApis :: deleted)%list /\
    (terminated = [] \/
     exists i more rest,
       Deploy.describe_instances C None Deploy.EC2_INSTANCE_NAME
         = Return ((i :: more) :: rest) /\
       terminated = [Deploy.TerminateInstances [Deploy.InstanceId i]]) /\
    (deleted = [] \/
     exists items id,
       Deploy.get_rest_apis C = Return items /\
       Deploy.find_api items = Some id /\ id <> "" /\
       deleted = [Deploy.DeleteRestApi id]) /\
    length (Deploy.printed (snd run)) = length (Deploy.printed w) + 2.
Proof.
  intros H1 H2. cbv zeta.
  destruct (delete_resources_returns C w H1 H2)
    as (t & d & l1 & l2 & Hrun & Ht & Hd).
  rewrite Hrun. cbn [fst snd]. split; [reflexivity|].
  exists t, d. split; [apply actions_since_app; reflexivity|].
  split; [exact Ht|]. split; [exact Hd|].
  cbn [Deploy.printed]. rewrite length_app. reflexivity.
Qed.

Lemma purge_witness :
  let C := Deploy.account []
             [[Deploy.Instance "i-0" "terminated" None;
               Deploy.Instance "i-1" "running" (Some "1.2.3.4")]]
             "" Deploy.complete_config in
  Deploy.boto3_client C "ec2" = Return tt /\
  fst (Deploy.delete_resources C Deploy.fresh) = Return tt /\
  Deploy.actions (snd (Deploy.delete_resources C Deploy.fresh))
    = [Deploy.NewClient "ec2"; Deploy.NewClient "apigateway";
       Deploy.DescribeInstances None Deploy.EC2_INSTANCE_NAME;
       Deploy.TerminateInstances ["i-0"];
       Deploy.GetRestApis; Deploy.DeleteRestApi "api-1"].
Proof.
  intros C.
  destruct (purge_returns_and_deletes_at_most_one_of_each C Deploy.fresh
              eq_refl eq_refl) as (Hr & _).
  split; [reflexivity|]. split; [exact Hr | reflexivity].
Defined.

(** ** The whole run *)

(** X19. With [--purge] the script deletes and does nothing else, whatever
    [--local] says: once the two clients are made, it ends with exit status
    0, it has run no shell command, and the configuration file has not been
    opened. *)
Theorem purge_comes_first (C : Deploy.cloud) (a : Deploy.args)
    (w : Deploy.world) :
  Deploy.purge a = true ->
  Deploy.boto3_client C "ec2" = Return tt ->
  Deploy.boto3_client C "apigateway" = Return tt ->
  Deploy.main C a w = (Return (Deploy.Exit 0), snd (Deploy.delete_resources C w)) /\
  existsb Deploy.is_subprocess_run
          (Deploy.actions_since w (snd (Deploy.main C a w))) = false /\
  ~ In (Deploy.OpenConfig "./config.json")
       (Deploy.actions_since w (snd (Deploy.main C a w))).
Proof.
  intros Hp H1 H2.
  destruct (delete_resources_returns C w H1 H2)
    as (t & d & l1 & l2 & Hrun & Ht & Hd).
  assert (Hmain : Deploy.main C a w
                  = (Return (Deploy.Exit 0), snd (Deploy.delete_resources C w))).
  { unfold Deploy.main. rewrite Hp. sh_run. rewrite Hrun. reflexivity. }
  split; [exact Hmain|]. rewrite Hmain, Hrun. cbn [snd].
  erewrite actions_since_app by reflexivity.
  destruct Ht as [-> | (i & more & rest & _ & ->)];
    destruct Hd as [-> | (items & id & _ & _ & _ & ->)];
    (split; [reflexivity|]); cbn; intuition discriminate.
Qed.

Lemma purge_comes_first_witness :
  Deploy.main Deploy.empty_account (Deploy.Args "localhost" 27017 "7001" true true)
              Deploy.fresh
  = (Return (Deploy.Exit 0),
     Deploy.World []
       ["No EC2 instance found with name shadow-analysis-ec2.";
        "API Gateway with name shadow-analysis-api-gateway (ID: api-1) has been deleted."]
       [Deploy.NewClient "ec2"; Deploy.NewClient "apigateway";
        Deploy.DescribeInstances None Deploy.EC2_INSTANCE_NAME;
        Deploy.GetRestApis; Deploy.DeleteRestApi "api-1"]).
Proof.
  rewrite (proj1 (purge_comes_first Deploy.empty_account
                    (Deploy.Args "localhost" 27017 "7001" true true)
                    Deploy.fresh eq_refl eq_refl eq_refl)).
  reflexivity.
Defined.

Lemma getitem_present (d : gmap string string) (key v : string) :
  d !! key = Some v -> Deploy.getitem d key = Return v.
Proof. unfold Deploy.getitem. now intros ->. Qed.

Lemma getitem_missing (d : gmap string string) (key : string) :
  d !! key = None -> Deploy.getitem d key = Raise (KeyError key).
Proof. unfold Deploy.getitem. now intros ->. Qed.



Lemma publish_docker_image_trace (C : Deploy.cloud) (w : Deploy.world)
    (u p repo h mu mp : string) :
  let run := Deploy.publish_docker_image C u p repo h mu mp w in
  let ran := Deploy.run_until_failure (Deploy.subprocess_run C)
               (Deploy.publish_commands u p repo h mu mp) in
  Deploy.actions (snd run)
    = (Deploy.actions w ++ map Deploy.SubprocessRun (fst ran))%list /\
  fst run = match snd ran with Some e => Raise e | None => Return tt end.
Proof.
  cbv zeta. unfold Deploy.publish_docker_image, Deploy.publish_commands,
    Deploy.run_until_failure. sh_run.
  destruct (Deploy.subprocess_run C (Deploy.publish_build_command _ _ _));
    [destruct (Deploy.subprocess_run C ("docker login -u " ++ _));
     [destruct (Deploy.subprocess_run C ("docker tag " ++ _));
      [destruct (Deploy.subprocess_run C ("docker push " ++ _))|]|]|];
    cbn [fst snd map Deploy.actions]; rewrite <- ?app_assoc;
    split; reflexivity.
Qed.

(** X21. In a run on AWS the instance is touched only after the image was
    pushed: when one of the four commands of the publication fails, the
    script raises its exception and asks nothing about the instances; the
    security group of the step before stays. *)
Theorem failed_publication_leaves_instances_alone (C : Deploy.cloud)
    (a : Deploy.args) (w : Deploy.world) (configs : gmap string string)
    (gid : string) (w1 : Deploy.world) (u p repo h mu mp : string) (e : exn) :
  Deploy.purge a = false -> Deploy.local a = false ->
  Deploy.read_config C = Return configs ->
  Deploy.check_or_create_security_group C
    (Deploy.World (Deploy.logged w) (Deploy.printed w)
                  (Deploy.actions w ++ [Deploy.OpenConfig "./config.json"]))
    = (Return gid, w1) ->
  configs !! "dockerhub_username" = Some u ->
  configs !! "dockerhub_password" = Some p ->
  configs !! "dockerhub_repo" = Some repo ->
  configs !! "mongo_host" = Some h ->
  configs !! "mongo_username" = Some mu ->
  configs !! "mongo_password" = Some mp ->
  let ran := Deploy.run_until_failure (Deploy.subprocess_run C)
               (Deploy.publish_commands u p repo h mu mp) in
  snd ran = Some e ->
  fst (Deploy.main C a w) = Raise e /\
  Deploy.actions_since w1 (snd (Deploy.main C a w))
    = map Deploy.SubprocessRun (fst ran).
Proof.
  intros Hp Hl Hc Hsg K1 K2 K3 K4 K5 K6 ran He.
  destruct (publish_docker_image_trace C w1 u p repo h mu mp) as (Ha & Hr).
  fold ran in Ha, Hr. rewrite He in Hr.
  unfold Deploy.main. rewrite Hp, Hl. sh_run. rewrite Hc, Hsg.
  rewrite (getitem_present _ _ _ K1), (getitem_present _ _ _ K2),
    (getitem_present _ _ _ K3), (getitem_present _ _ _ K4),
    (getitem_present _ _ _ K5), (getitem_present _ _ _ K6).
  destruct (Deploy.publish_docker_image C u p repo h mu mp w1) as [o w2].
  cbn [fst snd] in *. subst o. cbn [fst snd].
  split; [reflexivity|]. apply actions_since_app, Ha.
Qed.

Lemma failed_publication_witness :
  let C := Deploy.account [] [] "docker login -u alice -p secret"
                          Deploy.complete_config in
  let run := Deploy.main C (Deploy.Args "localhost" 27017 "7001" false false)
                         Deploy.fresh in
  fst run = Raise Deploy.called_process_error /\
  existsb Deploy.is_run_instances (Deploy.actions (snd run)) = false /\
  last (Deploy.actions (snd run))
    = Some (Deploy.SubprocessRun "docker login -u alice -p secret").
Proof.
  intros C run.
  destruct (failed_publication_leaves_instances_alone C
              (Deploy.Args "localhost" 27017 "7001" false false) Deploy.fresh
              Deploy.complete_config "sg-new"
              (snd (Deploy.check_or_create_security_group C
                      (Deploy.World [] [] [Deploy.OpenConfig "./config.json"])))
              "alice" "secret" "alice" "cluster0.example.net" "shadow" "pw"
              Deploy.called_process_error)
    as (Hr & _); try (vm_compute; reflexivity).
  split; [exact Hr|]. split; vm_compute; reflexivity.
Defined.

(** ** The API gateway *)

(** X22. [create_api_gateway] needs a running instance: when none of the
    instances of the name is running, it raises an [IndexError] at line 211
    and has created nothing, no API, no resource and no key. *)
Theorem api_gateway_needs_running_instance (C : Deploy.cloud)
    (w : Deploy.world) (reservations : list (list Deploy.instance)) :
  Deploy.describe_instances C (Some Deploy.REGION) Deploy.EC2_INSTANCE_NAME
    = Return reservations ->
  existsb Deploy.is_running (concat reservations) = false ->
  fst (Deploy.create_api_gateway C w)
    = Raise (IndexError "list index out of range") /\
  Deploy.actions_since w (snd (Deploy.create_api_gateway C w))
    = [Deploy.DescribeInstances (Some Deploy.REGION) Deploy.EC2_INSTANCE_NAME] /\
  existsb Deploy.changes_aws
          (Deploy.actions_since w (snd (Deploy.create_api_gateway C w))) = false.
Proof.
  intros Hd Hr.
  assert (Hnone : List.filter Deploy.is_running (concat reservations) = []).
  { induction (concat reservations) as [|i l IH]; [reflexivity|].
    cbn in Hr |- *. destruct (Deploy.is_running i); [discriminate Hr|].
    apply IH, Hr. }
  unfold Deploy.create_api_gateway. unfold mbind, Deploy.sh_mbind.
  rewrite Hd. sh_step. rewrite Hnone. cbn [Deploy.first_item]. sh_step.
  cbn [fst snd].
  rewrite (actions_since_app w _ [Deploy.DescribeInstances (Some Deploy.REGION)
                                    Deploy.EC2_INSTANCE_NAME]) by reflexivity.
  repeat split.
Qed.

Lemma api_gateway_needs_running_instance_witness :
  let C := Deploy.account [] [[Deploy.Instance "i-1" "pending" None]] ""
                          Deploy.complete_config in
  fst (Deploy.create_api_gateway C Deploy.fresh)
    = Raise (IndexError "list index out of range") /\
  Deploy.actions_since Deploy.fresh (snd (Deploy.create_api_gateway C Deploy.fresh))
    = [Deploy.DescribeInstances (Some Deploy.REGION) Deploy.EC2_INSTANCE_NAME].
Proof.
  intros C.
  destruct (api_gateway_needs_running_instance C Deploy.fresh
              [[Deploy.Instance "i-1" "pending" None]] eq_refl eq_refl)
    as (Hr & Ha & _).
  split; [exact Hr | exact Ha].
Defined.

Lemma find_root_find (resources : list Deploy.resource) :
  Deploy.find_root resources
  = option_map Deploy.resource_id
      (List.find (fun r => String.eqb (Deploy.resource_path r) "/") resources).
Proof.
  induction resources as [|r rest IH]; cbn; [reflexivity|].
  destruct (String.eqb (Deploy.resource_path r) "/"); [reflexivity | exact IH].
Qed.

Ltac api_run_ends :=
  cbn [snd];
  (erewrite actions_since_app by (cbn [Deploy.actions]; reflexivity));
  (split; [reflexivity|]);
  let Hin := fresh "Hin" in
  intros ? ? ? ? ? ? Hin; cbn [In] in Hin;
  repeat (destruct Hin as [Hin|Hin];
          [try discriminate Hin;
           injection Hin as <- <- <- <- <- <-; reflexivity|]);
  contradiction.

(** X23. The resource of the service is created under the first resource
    that the new API lists with the path [/], and with no parent when the
    API lists none; the integration that follows forwards to port 80 of the
    first running instance, at the path [/calculate-shadow]. *)
Theorem api_resource_is_created_under_root (C : Deploy.cloud) (w : Deploy.world)
    (reservations : list (list Deploy.instance)) (first : Deploy.instance)
    (ip api : string) (resources : list Deploy.resource) :
  Deploy.describe_instances C (Some Deploy.REGION) Deploy.EC2_INSTANCE_NAME
    = Return reservations ->
  List.find Deploy.is_running (concat reservations) = Some first ->
  Deploy.PublicIpAddress first = Some ip ->
  Deploy.create_rest_api C Deploy.API_GATEWAY_NAME = Return api ->
  Deploy.get_resources C api = Return resources ->
  let made := Deploy.actions_since w (snd (Deploy.create_api_gateway C w)) in
  let root :=
    option_map Deploy.resource_id
      (List.find (fun r => String.eqb (Deploy.resource_path r) "/") resources) in
  firstn 4 made
    = [Deploy.DescribeInstances (Some Deploy.REGION) Deploy.EC2_INSTANCE_NAME;
       Deploy.CreateRestApi Deploy.API_GATEWAY_NAME;
       Deploy.GetResources api;
       Deploy.CreateResource api root Deploy.RESOURCE_PATH] /\
  forall a r m k im uri,
    In (Deploy.PutIntegration a r m k im uri) made ->
    uri = "http://" ++ ip ++ ":80/calculate-shadow".
Proof.
  intros Hd Hf Hip Ha Hres. cbv zeta.
  destruct (filter_find _ _ _ Hf) as [more Hmore].
  rewrite <- find_root_find.
  unfold Deploy.create_api_gateway. unfold mbind, Deploy.sh_mbind.
  rewrite Hd. sh_step. rewrite Hmore. cbn [Deploy.first_item]. sh_step.
  unfold Deploy.public_ip. rewrite Hip. sh_step. sh_step.
  rewrite Ha. sh_step. rewrite Hres. sh_step. sh_step.
  destruct (Deploy.create_resource C api _ _) as [res|e]; sh_step;
    [sh_step|api_run_ends].
  destruct (Deploy.put_method C api res); sh_step; [|api_run_ends].
  destruct (Deploy.put_method_response C api res); sh_step;
    [sh_step|api_run_ends].
  destruct (Deploy.put_integration C api res _); sh_step; [|api_run_ends].
  destruct (Deploy.put_integration_response C api res); sh_step;
    [sh_step|api_run_ends].
  destruct (Deploy.create_deployment C api); sh_step; [sh_step|api_run_ends].
  destruct (Deploy.create_usage_plan C api) as [plan|e]; sh_step;
    [sh_step|api_run_ends].
  destruct (Deploy.create_api_key C) as [key|e]; sh_step;
    [sh_step|api_run_ends].
  destruct (Deploy.create_usage_plan_key C plan key); sh_step;
    [|api_run_ends].
  unfold Deploy.logging_info. sh_simpl. api_run_ends.
Qed.

Lemma api_resource_is_created_under_root_witness :
  let C := Deploy.account [] [[Deploy.Instance "i-1" "running" (Some "1.2.3.4")]]
                          "" Deploy.complete_config in
  firstn 4 (Deploy.actions (snd (Deploy.create_api_gateway C Deploy.fresh)))
    = [Deploy.DescribeInstances (Some Deploy.REGION) Deploy.EC2_INSTANCE_NAME;
       Deploy.CreateRestApi Deploy.API_GATEWAY_NAME;
       Deploy.GetResources "api-new";
       Deploy.CreateResource "api-new" (Some "root") Deploy.RESOURCE_PATH].
Proof.
  intros C.
  exact (proj1 (api_resource_is_created_under_root C Deploy.fresh
                  [[Deploy.Instance "i-1" "running" (Some "1.2.3.4")]]
                  (Deploy.Instance "i-1" "running" (Some "1.2.3.4"))
                  "1.2.3.4" "api-new" [Deploy.Resource "root" "/"]
                  eq_refl eq_refl eq_refl eq_refl eq_refl)).
Defined.

(** * The two files together *)

Example build_commands_carry_their_arguments (h u p port : string) (n : Z)
    (b : bool) :
  Deploy.publish_build_command h u p
    = Deploy.build_command (Deploy.publish_build_args h u p) /\
  Deploy.local_build_command h n b
    = Deploy.build_command (Deploy.local_build_args h n b).
Proof. split; reflexivity. Qed.


Lemma use_srv_of_true (environ : gmap string string) :
  use_srv_of environ = true <-> environ !! "USE_SRV" = Some "True".
Proof.
  unfold use_srv_of. destruct (environ !! "USE_SRV") as [v|]; [|split; discriminate].
  split.
  - intros H. apply String.eqb_eq in H. now subst.
  - intros [= ->]. reflexivity.
Qed.

(** X25. Unless [USE_SRV] is exactly the text [True], the client of the
    store is made from the host and the port alone: the user and the
    password of the environment are not used, whatever they are.  When it
    is, the port is not used, and a value that is not set is written
    [None] in the connection string. *)
Theorem client_of_the_store_by_environment (environ : gmap string string) :
  (environ !! "USE_SRV" <> Some "True" ->
   mongo_client_of environ
     = MongoHostPort (environ !! "DB_HOST") (environ !! "DB_PORT") /\
   forall u p,
     mongo_client_of (<[ "DB_USERNAME" := u ]> (<[ "DB_PASSWORD" := p ]> environ))
       = mongo_client_of environ) /\
  (environ !! "USE_SRV" = Some "True" ->
   (forall port, mongo_client_of (<[ "DB_PORT" := port ]> environ)
                 = mongo_client_of environ) /\
   (environ !! "DB_USERNAME" = None -> environ !! "DB_PASSWORD" = None ->
    forall h, environ !! "DB_HOST" = Some h ->
    mongo_client_of environ
      = MongoUri ("mongodb+srv://None:None@" ++ h ++
                  "/?retryWrites=true&w=majority"))).
Proof.
  split.
  - intros Hne.
    assert (Hf : use_srv_of environ = false).
    { destruct (use_srv_of environ) eqn:H; [|reflexivity].
      apply use_srv_of_true in H. contradiction. }
    split.
    + unfold mongo_client_of. rewrite Hf. reflexivity.
    + intros u p. unfold mongo_client_of, use_srv_of in *.
      rewrite !(lookup_insert_ne _ "DB_USERNAME" "USE_SRV") by discriminate.
      rewrite !(lookup_insert_ne _ "DB_PASSWORD" "USE_SRV") by discriminate.
      rewrite Hf. cbn [negb].
      rewrite !(lookup_insert_ne _ "DB_USERNAME" "DB_HOST") by discriminate.
      rewrite !(lookup_insert_ne _ "DB_PASSWORD" "DB_HOST") by discriminate.
      rewrite !(lookup_insert_ne _ "DB_USERNAME" "DB_PORT") by discriminate.
      rewrite !(lookup_insert_ne _ "DB_PASSWORD" "DB_PORT") by discriminate.
      reflexivity.
  - intros Ht.
    assert (Hs : use_srv_of environ = true) by now apply use_srv_of_true.
    split.
    + intros port. unfold mongo_client_of, use_srv_of in *.
      rewrite !(lookup_insert_ne _ "DB_PORT" "USE_SRV") by discriminate.
      rewrite Hs. cbn [negb].
      rewrite !(lookup_insert_ne _ "DB_PORT" "DB_USERNAME") by discriminate.
      rewrite !(lookup_insert_ne _ "DB_PORT" "DB_PASSWORD") by discriminate.
      rewrite !(lookup_insert_ne _ "DB_PORT" "DB_HOST") by discriminate.
      reflexivity.
    + intros Hu Hp h Hh. unfold mongo_client_of. rewrite Hs, Hu, Hp, Hh.
      reflexivity.
Qed.

(** * The calls a run can make *)

Section Only.

Variable P : Deploy.action -> bool.

Lemma only_sh_bind {A B} (m : Deploy.sh A) (k : A -> Deploy.sh B) :
  Deploy.only P m -> (forall x, Deploy.only P (k x)) ->
  Deploy.only P (Deploy.sh_bind m k).
Proof.
  intros Hm Hk w. unfold Deploy.sh_bind.
  destruct (Hm w) as (made1 & H1 & P1).
  destruct (m w) as [[x|e] w1]; cbn [snd] in H1.
  - destruct (Hk x w1) as (made2 & H2 & P2).
    exists (made1 ++ made2)%list. rewrite H2, H1, <- app_assoc.
    split; [reflexivity|]. rewrite forallb_app, P1, P2. reflexivity.
  - exists made1. split; assumption.
Qed.

Lemma only_mbind {A B} (m : Deploy.sh A) (k : A -> Deploy.sh B) :
  Deploy.only P m -> (forall x, Deploy.only P (k x)) ->
  Deploy.only P (m ≫= k).
Proof. apply only_sh_bind. Qed.

Lemma only_silent {A} (m : Deploy.sh A) :
  (forall w, Deploy.actions (snd (m w)) = Deploy.actions w) ->
  Deploy.only P m.
Proof.
  intros H w. exists []. rewrite H, app_nil_r. split; reflexivity.
Qed.

Lemma only_mret {A} (x : A) : Deploy.only P (mret x).
Proof. apply only_silent. reflexivity. Qed.

Lemma only_lift {A} (o : outcome A) : Deploy.only P (Deploy.lift o).
Proof. apply only_silent. reflexivity. Qed.

Lemma only_logging_info (msg : string) : Deploy.only P (Deploy.logging_info msg).
Proof. apply only_silent. reflexivity. Qed.

Lemma only_logging_error (msg : string) :
  Deploy.only P (Deploy.logging_error msg).
Proof. apply only_silent. reflexivity. Qed.

Lemma only_print (msg : string) : Deploy.only P (Deploy.print msg).
Proof. apply only_silent. reflexivity. Qed.

Lemma only_act {A} (a : Deploy.action) (o : outcome A) :
  P a = true -> Deploy.only P (Deploy.act a o).
Proof.
  intros Ha w. exists [a]. split; [reflexivity|]. cbn. rewrite Ha. reflexivity.
Qed.

Lemma only_try_except {A} (body : Deploy.sh A) (handler : exn -> Deploy.sh A) :
  Deploy.only P body -> (forall e, Deploy.only P (handler e)) ->
  Deploy.only P (Deploy.try_except body handler).
Proof.
  intros Hb Hh w. unfold Deploy.try_except.
  destruct (Hb w) as (made1 & H1 & P1).
  destruct (body w) as [[x|e] w1]; cbn [snd] in H1.
  - exists made1. split; assumption.
  - destruct (Hh e w1) as (made2 & H2 & P2).
    exists (made1 ++ made2)%list. rewrite H2, H1, <- app_assoc.
    split; [reflexivity|]. rewrite forallb_app, P1, P2. reflexivity.
Qed.

Lemma only_try_except_class {A} (cls : string) (body handler : Deploy.sh A) :
  Deploy.only P body -> Deploy.only P handler ->
  Deploy.only P (Deploy.try_except_class cls body handler).
Proof.
  intros Hb Hh w. unfold Deploy.try_except_class.
  destruct (Hb w) as (made1 & H1 & P1).
  destruct (body w) as [[x|e] w1]; cbn [snd] in H1.
  - exists made1. split; assumption.
  - destruct (String.eqb (exn_class e) cls).
    + destruct (Hh w1) as (made2 & H2 & P2).
      exists (made1 ++ made2)%list. rewrite H2, H1, <- app_assoc.
      split; [reflexivity|]. rewrite forallb_app, P1, P2. reflexivity.
    + exists made1. split; assumption.
Qed.

Lemma only_for_each {A} (xs : list A) (body : A -> Deploy.sh unit) :
  (forall x, Deploy.only P (body x)) -> Deploy.only P (Deploy.for_each xs body).
Proof.
  intros Hb. induction xs as [|x xs IH]; cbn [Deploy.for_each].
  - apply only_silent. reflexivity.
  - apply only_sh_bind; [apply Hb | intros _; exact IH].
Qed.

End Only.

Ltac only_step :=
  lazymatch goal with
  | |- Deploy.only _ (mbind _ _) => apply only_mbind; [|intros ?]
  | |- Deploy.only _ (Deploy.sh_bind _ _) => apply only_sh_bind; [|intros ?]
  | |- Deploy.only _ (Deploy.act _ _) =>
      apply only_act; solve [reflexivity | auto]
  | |- Deploy.only _ (Deploy.lift _) => apply only_lift
  | |- Deploy.only _ (Deploy.logging_info _) => apply only_logging_info
  | |- Deploy.only _ (Deploy.logging_error _) => apply only_logging_error
  | |- Deploy.only _ (Deploy.print _) => apply only_print
  | |- Deploy.only _ (mret _) => apply only_mret
  | |- Deploy.only _ (Deploy.try_except _ _) =>
      apply only_try_except; [|intros ?]
  | |- Deploy.only _ (Deploy.try_except_class _ _ _) =>
      apply only_try_except_class
  | |- Deploy.only _ (Deploy.for_each _ _) => apply only_for_each; intros ?
  | |- Deploy.only _ (match ?x with _ => _ end) => destruct x
  end.

Lemma only_start_service (P : Deploy.action -> bool) (C : Deploy.cloud)
    (mongo_host : string) (mongo_port : Z) (port : string) (use_srv : bool) :
  (forall c, P (Deploy.SubprocessRun c) = true) ->
  Deploy.only P (Deploy.start_service C mongo_host mongo_port port use_srv).
Proof.
  intros HP. unfold Deploy.start_service, Deploy.run. repeat only_step.
Qed.

Lemma only_publish_docker_image (P : Deploy.action -> bool) (C : Deploy.cloud)
    (u p repo h mu mp : string) :
  (forall c, P (Deploy.SubprocessRun c) = true) ->
  Deploy.only P (Deploy.publish_docker_image C u p repo h mu mp).
Proof.
  intros HP. unfold Deploy.publish_docker_image, Deploy.run. cbv zeta.
  repeat only_step.
Qed.

Lemma only_delete_resources (C : Deploy.cloud) :
  Deploy.only Deploy.spares_gateway (Deploy.delete_resources C).
Proof.
  unfold Deploy.delete_resources, Deploy.terminate_named_instance,
    Deploy.delete_named_api. cbv zeta. repeat only_step.
Qed.

Lemma only_check_or_create_security_group (C : Deploy.cloud) :
  Deploy.only Deploy.spares_gateway (Deploy.check_or_create_security_group C).
Proof.
  unfold Deploy.check_or_create_security_group, Deploy.open_port. cbv zeta.
  repeat only_step.
Qed.

Lemma only_ssh_and_deploy_docker (C : Deploy.cloud)
    (key_path instance_ip docker_image : string) :
  Deploy.only Deploy.spares_gateway
    (Deploy.ssh_and_deploy_docker C key_path instance_ip docker_image).
Proof.
  unfold Deploy.ssh_and_deploy_docker. cbv zeta. repeat only_step.
Qed.

Lemma only_check_or_create_ec2_instance (C : Deploy.cloud)
    (key_name key_path repo security_group_id : string) :
  Deploy.only Deploy.spares_gateway
    (Deploy.check_or_create_ec2_instance C key_name key_path repo
                                         security_group_id).
Proof.
  unfold Deploy.check_or_create_ec2_instance, Deploy.wait_for_ec2_running.
  cbv zeta.
  repeat first [apply only_ssh_and_deploy_docker | only_step].
Qed.

Lemma only_main (C : Deploy.cloud) (a : Deploy.args) :
  Deploy.only Deploy.spares_gateway (Deploy.main C a).
Proof.
  unfold Deploy.main. cbv zeta.
  repeat first [ apply only_delete_resources
               | apply only_start_service; reflexivity
               | apply only_check_or_create_security_group
               | apply only_publish_docker_image; reflexivity
               | apply only_check_or_create_ec2_instance
               | only_step ].
Qed.

Lemma forallb_negb_existsb {A} (f : A -> bool) (l : list A) :
  forallb (fun x => negb (f x)) l = true -> existsb f l = false.
Proof.
  induction l as [|x l IH]; cbn; [reflexivity|].
  destruct (f x); cbn; [discriminate | exact IH].
Qed.

(** X26. No run of the script builds the API gateway: whatever the
    command line, the account and the answers of AWS are, and however the
    run ends, the script creates no API, no resource, no method, no
    integration, no deployment, no usage plan and no key.  The call of
    [create_api_gateway] at line 408 is a comment. *)
Theorem no_run_builds_the_gateway (C : Deploy.cloud) (a : Deploy.args)
    (w : Deploy.world) :
  existsb Deploy.builds_gateway
          (Deploy.actions_since w (snd (Deploy.main C a w))) = false.
Proof.
  destruct (only_main C a w) as (made & Hmade & Hnone).
  rewrite (actions_since_app w _ made Hmade).
  apply forallb_negb_existsb, Hnone.
Qed.

Lemma start_service_trace (C : Deploy.cloud) (w : Deploy.world)
    (mongo_host : string) (mongo_port : Z) (port : string) (use_srv : bool) :
  let run := Deploy.start_service C mongo_host mongo_port port use_srv w in
  let ran :=
    Deploy.run_until_failure (Deploy.subprocess_run C)
      [Deploy.local_build_command mongo_host mongo_port use_srv;
       Deploy.local_run_command port] in
  Deploy.actions (snd run)
    = (Deploy.actions w ++ map Deploy.SubprocessRun (fst ran))%list /\
  fst run = match snd ran with
            | Some e => if String.eqb (exn_class e) "CalledProcessError"
                        then Return tt else Raise e
            | None => Return tt
            end.
Proof.
  cbv zeta. unfold Deploy.start_service, Deploy.try_except_class,
    Deploy.run_until_failure. sh_run.
  destruct (Deploy.subprocess_run C (Deploy.local_build_command _ _ _)) as [u|e];
    [destruct (Deploy.subprocess_run C (Deploy.local_run_command port)) as [u'|e]|];
    cbn [fst snd map Deploy.actions Deploy.logged];
    try destruct (String.eqb (exn_class e) "CalledProcessError") eqn:Hcls;
    cbn [fst snd map Deploy.actions Deploy.logged];
    rewrite <- ?app_assoc; split; reflexivity.
Qed.

(** X27. With [--local] and without [--purge] the script stays on the
    machine: it runs the build with [USE_SRV=False] and the host and the
    port of the command line, then the container if the build returned, and
    nothing else; it asks AWS nothing and does not open the configuration
    file.  It ends normally unless a command raised something other than a
    [CalledProcessError]. *)
Theorem local_run_stays_on_the_machine (C : Deploy.cloud) (a : Deploy.args)
    (w : Deploy.world) :
  Deploy.purge a = false -> Deploy.local a = true ->
  let ran :=
    Deploy.run_until_failure (Deploy.subprocess_run C)
      [Deploy.local_build_command (Deploy.mongo_host a) (Deploy.mongo_port a) false;
       Deploy.local_run_command (Deploy.port a)] in
  Deploy.actions_since w (snd (Deploy.main C a w))
    = map Deploy.SubprocessRun (fst ran) /\
  fst (Deploy.main C a w)
    = match snd ran with
      | Some e => if String.eqb (exn_class e) "CalledProcessError"
                  then Return Deploy.Completed else Raise e
      | None => Return Deploy.Completed
      end.
Proof.
  intros Hp Hl. cbv zeta.
  destruct (start_service_trace C w (Deploy.mongo_host a) (Deploy.mongo_port a)
              (Deploy.port a) false) as (Ha & Hr).
  unfold Deploy.main. rewrite Hp, Hl. cbv zeta.
  unfold mbind, Deploy.sh_mbind, Deploy.sh_bind.
  destruct (Deploy.start_service C _ _ _ false w) as [o w1].
  cbn [fst snd] in Ha, Hr. subst o.
  destruct (snd (Deploy.run_until_failure _ _)) as [e|].
  - destruct (String.eqb (exn_class e) "CalledProcessError"); cbn [fst snd];
      (split; [apply actions_since_app, Ha | reflexivity]).
  - cbn [fst snd]. split; [apply actions_since_app, Ha | reflexivity].
Qed.

Lemma local_run_witness :
  let C := Deploy.account [] [] "docker run -p 7001:7001 shadow-analysis:latest"
                          Deploy.complete_config in
  let a := Deploy.Args "localhost" 27017 "7001" true false in
  Deploy.actions_since Deploy.fresh (snd (Deploy.main C a Deploy.fresh))
    = [Deploy.SubprocessRun (Deploy.local_build_command "localhost" 27017 false);
       Deploy.SubprocessRun "docker run -p 7001:7001 shadow-analysis:latest"] /\
  fst (Deploy.main C a Deploy.fresh) = Return Deploy.Completed.
Proof.
  intros C a.
  destruct (local_run_stays_on_the_machine C a Deploy.fresh eq_refl eq_refl)
    as (Ha & Hr).
  split; [rewrite Ha | rewrite Hr]; vm_compute; reflexivity.
Defined.
